(** * Lazy, memoised resolution of component styles

    A shallow embedding of
    [packages/fluentui/react-bindings/src/styles/resolveStyles.ts].

    [resolveStyles] receives the options of one component and returns three
    objects: [resolvedStyles], [resolvedStylesDebug] and [classes].  For every
    slot of the merged style set the first and the last carry an accessor
    property (a getter and a setter); the getters compute on first access and
    remember their result in a data property of the same object, named
    [slotName__return], and, when caching is enabled, in two module level weak
    maps keyed by the theme.

    The embedding keeps that structure: a store with the two weak maps, the
    heap of style objects, the telemetry recorder and the three objects of the
    current call; the accessors are state transformers over it.  A property
    read or write first looks for an accessor of that name, as JavaScript
    does, so the getters are recursive and are given fuel.

    Conventions.  Objects used as maps are finite maps: no slot, display name
    or cache key is the name of a property inherited from [Object.prototype].
    The theme is an object, as line 97 requires.  Style functions and the
    renderer are pure; a style function that returns an object returns a new
    one.  [JSON.stringify], [mergeComponentStyles], the clock and the two
    build flags are parameters, gathered in [Env]. *)

From stdpp Require Import gmap strings list fin_maps.
From Stdlib Require Import ZArith Ascii DecimalString.

Set Warnings "-register-all".
Local Open Scope Z_scope.

(** ** JavaScript values *)

(** Values of props, variables and debug payloads.  This code never mutates
    them, so objects are kept as the list of their own enumerable properties
    in enumeration order.  A [VObject] is a plain object in the sense of
    lodash's [isPlainObject]; functions stand for every other truthy
    non-plain value. *)
Inductive value : Type :=
  | VUndefined
  | VNull
  | VBool (b : bool)
  | VNumber (n : Z)
  | VString (s : string)
  | VFunction (id : nat)
  | VObject (fields : list (string * value)).

(** [!!v] of JavaScript. *)
Definition truthy (v : value) : bool :=
  match v with
  | VUndefined | VNull => false
  | VBool b => b
  | VNumber n => negb (n =? 0)
  | VString s => negb (String.eqb s "")
  | VFunction _ | VObject _ => true
  end.

(** [_.isNil] and [_.isPlainObject] of lodash. *)
Definition isNil (v : value) : bool :=
  match v with VUndefined | VNull => true | _ => false end.

Definition isPlainObject (v : value) : bool :=
  match v with VObject _ => true | _ => false end.

(** The own enumerable properties of a value, none unless it is an object. *)
Definition properties (v : value) : list (string * value) :=
  match v with VObject fields => fields | _ => [] end.

(** [o[k]] on a list of own properties: [undefined] when there is none. *)
Fixpoint field (k : string) (o : list (string * value)) : value :=
  match o with
  | [] => VUndefined
  | (k', v) :: o' => if String.eqb k k' then v else field k o'
  end.

(** Own properties left after removing the listed names: the rest element of
    a destructuring pattern, and [delete o[k]] for a single name. *)
Definition omit (ks : list string) (o : list (string * value)) : list (string * value) :=
  filter (λ kv, kv.1 ∉ ks) o.

(** [Array.prototype.join]. *)
Definition join (sep : string) (l : list string) : string := String.concat sep l.

(** A boolean inside a template literal. *)
Definition bool_to_string (b : bool) : string := if b then "true" else "false".

(** A possibly undefined string inside a template literal. *)
Definition template (o : option string) : string := default "undefined" o.

(** ** Style sets, themes and options *)

(** A style object lives in the heap, because the getter deletes a property
    of it after it has been stored.  A slot's style value is a reference to
    one, or a falsy value when the style function returned none. *)
Inductive style_val : Type :=
  | SUndefined
  | SNull
  | SObject (l : nat).

Definition style_truthy (v : style_val) : bool :=
  match v with SObject _ => true | _ => false end.

(** A class name, or [undefined]. *)
Abbreviation class_val := (option string).

Definition class_truthy (c : class_val) : bool :=
  match c with Some s => negb (String.eqb s "") | None => false end.

(** [ComponentStyleFunctionParam].  The theme is represented by its identity,
    which keeps the types of themes and style functions well founded. *)
Record ComponentStyleFunctionParam : Type := {
  sp_props : list (string * value);
  sp_variables : value;
  sp_theme : nat;
  sp_rtl : bool;
  sp_disableAnimations : bool;
}.

(** What a style function evaluates to: the properties of a new object, or a
    falsy value.  Style functions are pure; each invocation that returns an
    object allocates it. *)
Inductive style_ret : Type :=
  | RetObject (fields : list (string * value))
  | RetUndefined
  | RetNull.

Definition style_fn : Type := ComponentStyleFunctionParam → style_ret.

(** [ThemePrepared]: an object with an identity (the key of the weak maps)
    and the style set of every component. *)
Record ThemePrepared : Type := {
  theme_id : nat;
  componentStyles : gmap string (gmap string style_fn);
}.

Record RendererParam : Type := {
  direction : string;
  rp_disableAnimations : bool;
  displayName : string;
  sanitizeCss : bool;
}.

Record PerformanceFlags : Type := {
  enableStylesCaching : bool;
  enableBooleanVariablesCaching : bool;
  enableSanitizeCssPlugin : bool;
}.

Record ResolveStylesOptions : Type := {
  allDisplayNames : list string;
  className : option string;
  theme : ThemePrepared;
  primaryDisplayName : string;
  props : list (string * value);
  rtl : bool;
  disableAnimations : bool;
  (** [renderer.renderRule]; it is handed the properties the style object
      has when it is called. *)
  renderRule : list (string * value) → RendererParam → string;
  performance : PerformanceFlags;
  (** whether a telemetry recorder is passed; the recorder is mutable and
      lives in the store *)
  telemetry : bool;
}.

(** An argument of [mergeComponentStyles]: a style set, the style set
    [withDebugId({ root: v }, label)] built from an inline override, or the
    falsy value left by [props.x && ...]. *)
Inductive merge_arg : Type :=
  | ArgStyles (s : gmap string style_fn)
  | ArgInline (label : string) (root : value)
  | ArgFalsy (v : value).

(** What the module takes from its surroundings. *)
Record Env : Type := {
  (** [process.env.NODE_ENV === 'production'] *)
  production : bool;
  (** [isDebugEnabled] of [@fluentui/styles] *)
  isDebugEnabled : bool;
  (** [JSON.stringify]; [None] is [undefined] *)
  JSON_stringify : value → option string;
  (** [mergeComponentStyles] of [@fluentui/styles] *)
  mergeComponentStyles : list merge_arg → gmap string style_fn;
  (** the successive answers of [performance.now()] *)
  performance_now : nat → Z;
}.

(** ** Cache eligibility (lines 60-91) *)

Inductive error : Type :=
  | ConfigurationError
  | TypeError.

(** [!(design || styles)] *)
Definition noInlineStylesOverrides (p : list (string * value)) : bool :=
  negb (truthy (field "design" p) || truthy (field "styles" p)).

(** The callback of [Object.keys(variables).every(...)]. *)
Definition isBooleanVariable (v : value) : bool :=
  match v with
  | VNull | VUndefined | VBool _ => true
  | _ => false
  end.

(** [Object.keys(variables).every(name => ... variables[name] ...)] *)
Definition hasOnlyBooleanVariables (variables : value) : bool :=
  forallb (λ kv, isBooleanVariable (field kv.1 (properties variables)))
    (properties variables).

(** [noVariableOverrides] as it stands at line 91: initialised at line 63,
    lowered at lines 74-89. *)
Definition noVariableOverrides (flags : PerformanceFlags) (variables : value) : bool :=
  let initial := enableBooleanVariablesCaching flags || negb (truthy variables) in
  if enableBooleanVariablesCaching flags then
    if isPlainObject variables then
      if negb (hasOnlyBooleanVariables variables) then false else initial
    else if negb (isNil variables) then false
    else initial
  else initial.

(** Lines 66-72. *)
Definition configurationCheck (env : Env) (flags : PerformanceFlags) : option error :=
  if negb (production env) then
    if negb (enableStylesCaching flags) && enableBooleanVariablesCaching flags
    then Some ConfigurationError
    else None
  else None.

(** Line 91. *)
Definition cacheEnabled (flags : PerformanceFlags) (p : list (string * value)) : bool :=
  enableStylesCaching flags
  && noInlineStylesOverrides p
  && noVariableOverrides flags (field "variables" p).

(** ** Merged styles (lines 93-114) *)

(** [{ root: () => ({}) }] *)
Definition defaultStyles : gmap string style_fn :=
  {[ "root" := λ _, RetObject [] ]}.

(** Lines 96-106. *)
Definition themeStyles (env : Env) (o : ResolveStylesOptions) : gmap string style_fn :=
  match allDisplayNames o with
  | [name] => default defaultStyles (componentStyles (theme o) !! name)
  | names =>
      let styles := omap (λ name, componentStyles (theme o) !! name) names in
      if bool_decide (0 < length styles)%nat
      then mergeComponentStyles env (ArgStyles <$> styles)
      else defaultStyles
  end.

(** [props.x && withDebugId({ root: props.x }, label)] *)
Definition inlineArg (label : string) (v : value) : merge_arg :=
  if truthy v then ArgInline label v else ArgFalsy v.

(** Lines 96-114. *)
Definition mergedStyles (env : Env) (o : ResolveStylesOptions) : gmap string style_fn :=
  if negb (noInlineStylesOverrides (props o)) then
    mergeComponentStyles env
      [ ArgStyles (themeStyles env o);
        inlineArg "props.design" (field "design" (props o));
        inlineArg "props.styles" (field "styles" (props o)) ]
  else themeStyles env o.

(** ** Cache keys (lines 145-157) *)

(** The rest element [stylesProps] of line 60. *)
Definition stylesProps (p : list (string * value)) : list (string * value) :=
  omit ["className"; "design"; "styles"; "variables"] p.

Definition propsCacheKey (env : Env) (o : ResolveStylesOptions) : string :=
  if cacheEnabled (performance o) (props o)
  then template (JSON_stringify env (VObject (stylesProps (props o))))
  else "".

Definition variablesCacheKey (env : Env) (o : ResolveStylesOptions) : string :=
  if cacheEnabled (performance o) (props o) && enableBooleanVariablesCaching (performance o)
  then template (JSON_stringify env (field "variables" (props o)))
  else "".

Definition componentCacheKey (env : Env) (o : ResolveStylesOptions) : string :=
  if cacheEnabled (performance o) (props o)
  then join ":" (allDisplayNames o) +:+ ":" +:+ propsCacheKey env o +:+ ":"
       +:+ variablesCacheKey env o +:+ ":"
       +:+ bool_to_string (rtl o) +:+ bool_to_string (disableAnimations o)
  else "".

(** ** The store *)

(** [ComponentPerfStats], restricted to the fields this module touches. *)
Record ComponentPerfStats : Type := {
  stylesRootCacheHits : Z;
  stylesSlotsCacheHits : Z;
  msResolveStylesTotal : Z;
  msRenderStylesTotal : Z;
}.

(** The telemetry recorder. *)
Record Telemetry : Type := {
  enabled : bool;
  tel_performance : gmap string ComponentPerfStats;
}.

(** Invocations of the two collaborators, recorded to count them; no code
    reads this list. *)
Inductive event : Type :=
  | StyleFunctionCalled (slotName : string)
  | RenderRuleCalled (slotName : string).

Global Instance event_eq_dec : EqDecision event.
Proof. solve_decision. Defined.

Record State : Type := {
  (** the two module level weak maps, keyed by the identity of the theme *)
  stylesCache : gmap nat (gmap string style_val);
  classesCache : gmap nat (gmap string class_val);
  (** style objects, and the number of objects allocated so far *)
  heap : gmap nat (list (string * value));
  allocated : nat;
  recorder : Telemetry;
  (** the number of calls of [performance.now()] so far *)
  clock : nat;
  trace : list event;
  (** the data properties of the three objects of the current call *)
  resolvedStyles : gmap string style_val;
  resolvedStylesDebug : gmap string value;
  classes : gmap string class_val;
}.

Definition with_stylesCache (x : gmap nat (gmap string style_val)) (st : State) : State :=
  {| stylesCache := x; classesCache := classesCache st; heap := heap st;
     allocated := allocated st; recorder := recorder st; clock := clock st;
     trace := trace st; resolvedStyles := resolvedStyles st;
     resolvedStylesDebug := resolvedStylesDebug st; classes := classes st |}.

Definition with_classesCache (x : gmap nat (gmap string class_val)) (st : State) : State :=
  {| stylesCache := stylesCache st; classesCache := x; heap := heap st;
     allocated := allocated st; recorder := recorder st; clock := clock st;
     trace := trace st; resolvedStyles := resolvedStyles st;
     resolvedStylesDebug := resolvedStylesDebug st; classes := classes st |}.

Definition with_heap (x : gmap nat (list (string * value))) (n : nat) (st : State) : State :=
  {| stylesCache := stylesCache st; classesCache := classesCache st; heap := x;
     allocated := n; recorder := recorder st; clock := clock st;
     trace := trace st; resolvedStyles := resolvedStyles st;
     resolvedStylesDebug := resolvedStylesDebug st; classes := classes st |}.

Definition with_recorder (x : Telemetry) (st : State) : State :=
  {| stylesCache := stylesCache st; classesCache := classesCache st; heap := heap st;
     allocated := allocated st; recorder := x; clock := clock st;
     trace := trace st; resolvedStyles := resolvedStyles st;
     resolvedStylesDebug := resolvedStylesDebug st; classes := classes st |}.

Definition with_clock (x : nat) (st : State) : State :=
  {| stylesCache := stylesCache st; classesCache := classesCache st; heap := heap st;
     allocated := allocated st; recorder := recorder st; clock := x;
     trace := trace st; resolvedStyles := resolvedStyles st;
     resolvedStylesDebug := resolvedStylesDebug st; classes := classes st |}.

Definition with_trace (x : list event) (st : State) : State :=
  {| stylesCache := stylesCache st; classesCache := classesCache st; heap := heap st;
     allocated := allocated st; recorder := recorder st; clock := clock st;
     trace := x; resolvedStyles := resolvedStyles st;
     resolvedStylesDebug := resolvedStylesDebug st; classes := classes st |}.

Definition with_resolvedStyles (x : gmap string style_val) (st : State) : State :=
  {| stylesCache := stylesCache st; classesCache := classesCache st; heap := heap st;
     allocated := allocated st; recorder := recorder st; clock := clock st;
     trace := trace st; resolvedStyles := x;
     resolvedStylesDebug := resolvedStylesDebug st; classes := classes st |}.

Definition with_resolvedStylesDebug (x : gmap string value) (st : State) : State :=
  {| stylesCache := stylesCache st; classesCache := classesCache st; heap := heap st;
     allocated := allocated st; recorder := recorder st; clock := clock st;
     trace := trace st; resolvedStyles := resolvedStyles st;
     resolvedStylesDebug := x; classes := classes st |}.

Definition with_classes (x : gmap string class_val) (st : State) : State :=
  {| stylesCache := stylesCache st; classesCache := classesCache st; heap := heap st;
     allocated := allocated st; recorder := recorder st; clock := clock st;
     trace := trace st; resolvedStyles := resolvedStyles st;
     resolvedStylesDebug := resolvedStylesDebug st; classes := x |}.

(** ** Computations *)

(** A computation returns a result and a new state, throws, or is cut off
    because the fuel for nested accessor calls ran out. *)
Inductive outcome (A : Type) : Type :=
  | Returned (a : A) (st : State)
  | Thrown (e : error)
  | OutOfFuel.

Arguments Returned {A} a st.
Arguments Thrown {A} e.
Arguments OutOfFuel {A}.

Definition M (A : Type) : Type := State → outcome A.

Definition ret {A} (a : A) : M A := λ st, Returned a st.

Definition bind {A B} (m : M A) (k : A → M B) : M B :=
  λ st, match m st with
        | Returned a st' => k a st'
        | Thrown e => Thrown e
        | OutOfFuel => OutOfFuel
        end.

Definition throw {A} (e : error) : M A := λ _, Thrown e.
Definition gets {A} (f : State → A) : M A := λ st, Returned (f st) st.
Definition modify (f : State → State) : M unit := λ st, Returned tt (f st).
Definition when (b : bool) (m : M unit) : M unit := if b then m else ret tt.

Notation "x <- m ;; k" := (bind m (λ x, k))
  (at level 100, m at next level, right associativity).
Notation "m ;; k" := (bind m (λ _, k))
  (at level 100, right associativity).

(** ** Primitive operations *)

(** [(cache.get(theme) || {})[key]] *)
Definition cached {V} (cache : gmap nat (gmap string V)) (themeId : nat) (key : string)
  : option V :=
  cache !! themeId ≫= λ entries, entries !! key.

(** [cache.set(theme, { ...entries, [key]: val })], where [entries] is the
    value [cache.get(theme)] had when the object literal was opened. *)
Definition cache_set {V} (themeId : nat) (entries : option (gmap string V))
    (key : string) (val : V) (cache : gmap nat (gmap string V))
  : gmap nat (gmap string V) :=
  <[themeId := <[key := val]> (default ∅ entries)]> cache.

(** [performance.now()] *)
Definition now (env : Env) : M Z :=
  λ st, Returned (performance_now env (clock st)) (with_clock (S (clock st)) st).

(** [telemetry?.enabled ? performance.now() : 0] *)
Definition telemetryPartStart (env : Env) (o : ResolveStylesOptions) : M Z :=
  λ st, if telemetry o && enabled (recorder st) then now env st else Returned 0 st.

(** [o['_debug']] for a slot's style value. *)
Definition get_debug (v : style_val) : M value :=
  match v with
  | SObject l => gets (λ st, field "_debug" (default [] (heap st !! l)))
  | SUndefined | SNull => throw TypeError
  end.

(** [delete o['_debug']] *)
Definition delete_debug (v : style_val) : M unit :=
  match v with
  | SObject l =>
      modify (λ st, with_heap (alter (omit ["_debug"]) l (heap st)) (allocated st) st)
  | SUndefined | SNull => throw TypeError
  end.

(** [classnames] on arguments that are strings or undefined: the truthy
    ones, joined by single spaces. *)
Definition cx (args : list (option string)) : string :=
  join " " (omap (λ a : option string, if class_truthy a then a else None) args).

(** [className] is declared as an optional string; any other value of the
    prop is outside that type. *)
Definition as_className (v : value) : option string :=
  match v with VString s => Some s | _ => None end.

(** ** The accessors of one call (lines 116-284) *)

Definition add_msResolveStylesTotal (d : Z) (s : ComponentPerfStats) : ComponentPerfStats :=
  {| stylesRootCacheHits := stylesRootCacheHits s;
     stylesSlotsCacheHits := stylesSlotsCacheHits s;
     msResolveStylesTotal := msResolveStylesTotal s + d;
     msRenderStylesTotal := msRenderStylesTotal s |}.

Definition add_msRenderStylesTotal (d : Z) (s : ComponentPerfStats) : ComponentPerfStats :=
  {| stylesRootCacheHits := stylesRootCacheHits s;
     stylesSlotsCacheHits := stylesSlotsCacheHits s;
     msResolveStylesTotal := msResolveStylesTotal s;
     msRenderStylesTotal := msRenderStylesTotal s + d |}.

Definition incr_stylesRootCacheHits (s : ComponentPerfStats) : ComponentPerfStats :=
  {| stylesRootCacheHits := stylesRootCacheHits s + 1;
     stylesSlotsCacheHits := stylesSlotsCacheHits s;
     msResolveStylesTotal := msResolveStylesTotal s;
     msRenderStylesTotal := msRenderStylesTotal s |}.

Definition incr_stylesSlotsCacheHits (s : ComponentPerfStats) : ComponentPerfStats :=
  {| stylesRootCacheHits := stylesRootCacheHits s;
     stylesSlotsCacheHits := stylesSlotsCacheHits s + 1;
     msResolveStylesTotal := msResolveStylesTotal s;
     msRenderStylesTotal := msRenderStylesTotal s |}.

(** [telemetry.performance[name] = f(telemetry.performance[name])] *)
Definition update_stats (name : string) (s : ComponentPerfStats) (st : State) : State :=
  with_recorder
    {| enabled := enabled (recorder st);
       tel_performance := <[name := s]> (tel_performance (recorder st)) |} st.

Section Accessors.

Variable env : Env.
Variable o : ResolveStylesOptions.
Variable resolvedVariables : value.

(** Lines 116-122. *)
Definition styleParam : ComponentStyleFunctionParam :=
  {| sp_props := props o;
     sp_variables := resolvedVariables;
     sp_theme := theme_id (theme o);
     sp_rtl := rtl o;
     sp_disableAnimations := disableAnimations o |}.

(** Lines 125-130. *)
Definition rendererParam : RendererParam :=
  {| direction := if rtl o then "rtl" else "ltr";
     rp_disableAnimations := disableAnimations o;
     displayName := join ":" (allDisplayNames o);
     sanitizeCss := enableSanitizeCssPlugin (performance o) |}.

(** [cacheEnabled && theme]: the theme is an object, line 97 has already
    read a property of it. *)
Definition caching : bool := cacheEnabled (performance o) (props o).

Definition themeKey : nat := theme_id (theme o).

(** Lines 156-157. *)
Definition lazyEvaluationKey (slotName : string) : string := slotName +:+ "__return".
Definition slotCacheKey (slotName : string) : string := componentCacheKey env o +:+ slotName.

(** [mergedStyles[slotName](styleParam)] *)
Definition callStyleFunction (slotName : string) (fn : style_fn) : M style_val :=
  λ st,
    let st' := with_trace (trace st ++ [StyleFunctionCalled slotName]) st in
    match fn styleParam with
    | RetObject fields =>
        Returned (SObject (allocated st))
          (with_heap (<[allocated st := fields]> (heap st)) (S (allocated st)) st')
    | RetUndefined => Returned SUndefined st'
    | RetNull => Returned SNull st'
    end.

(** [renderer.renderRule(styleObj, rendererParam)], for a truthy [styleObj] *)
Definition callRenderRule (slotName : string) (styleObj : style_val) : M string :=
  λ st,
    let fields := match styleObj with
                  | SObject l => default [] (heap st !! l)
                  | _ => []
                  end in
    Returned (renderRule o fields rendererParam)
             (with_trace (trace st ++ [RenderRuleCalled slotName]) st).

(** Lines 203-205 and 277-279:
    [if (telemetry?.enabled && telemetry.performance[primaryDisplayName])
       telemetry.performance[primaryDisplayName].x += performance.now() - start] *)
Definition addElapsed (add : Z → ComponentPerfStats → ComponentPerfStats) (start : Z)
  : M unit :=
  λ st,
    if telemetry o && enabled (recorder st) then
      match tel_performance (recorder st) !! primaryDisplayName o with
      | Some stats =>
          (t <- now env ;;
           modify (update_stats (primaryDisplayName o) (add (t - start) stats))) st
      | None => Returned tt st
      end
    else Returned tt st.

(** Lines 233-239. *)
Definition countCacheHit (slotName : string) : M unit :=
  λ st,
    if telemetry o then
      match tel_performance (recorder st) !! primaryDisplayName o with
      | Some stats =>
          Returned tt
            (update_stats (primaryDisplayName o)
               (if String.eqb slotName "root"
                then incr_stylesRootCacheHits stats
                else incr_stylesSlotsCacheHits stats) st)
      | None => Returned tt st
      end
    else Returned tt st.

(** *** [resolvedStyles] *)

(** [resolvedStyles[key] = val].  When [key] names a slot this runs the
    setter of lines 162-172, otherwise it writes a data property. *)
Fixpoint styles_put (fuel : nat) (key : string) (val : style_val) : M unit :=
  match fuel with
  | O => λ _, OutOfFuel
  | S fuel' =>
      match mergedStyles env o !! key with
      | Some _ =>
          when caching
            (modify (λ st,
               with_stylesCache
                 (cache_set themeKey (stylesCache st !! themeKey)
                    (slotCacheKey key) val (stylesCache st)) st)) ;;
          styles_put fuel' (lazyEvaluationKey key) val
      | None =>
          modify (λ st, with_resolvedStyles (<[key := val]> (resolvedStyles st)) st)
      end
  end.

(** The getter of lines 173-208 for the slot [slotName], whose style
    function is [fn]; [get] and [put] read and write a property of
    [resolvedStyles]. *)
Definition style_getter (get : string → M style_val)
    (put : string → style_val → M unit)
    (slotName : string) (fn : style_fn) : M style_val :=
  hit <- gets (λ st,
           if caching
           then default SUndefined (cached (stylesCache st) themeKey (slotCacheKey slotName))
           else SUndefined) ;;
  if style_truthy hit then ret hit
  else
    memo <- get (lazyEvaluationKey slotName) ;;
    if style_truthy memo then get (lazyEvaluationKey slotName)
    else
      start <- telemetryPartStart env o ;;
      val <- callStyleFunction slotName fn ;;
      put (lazyEvaluationKey slotName) val ;;
      (if caching then
         entries <- gets (λ st, stylesCache st !! themeKey) ;;
         stored <- get (lazyEvaluationKey slotName) ;;
         modify (λ st,
           with_stylesCache
             (cache_set themeKey entries (slotCacheKey slotName) stored (stylesCache st)) st)
       else ret tt) ;;
      (if negb (production env) && isDebugEnabled env then
         target <- get slotName ;;
         payload <- get_debug target ;;
         modify (λ st,
           with_resolvedStylesDebug (<[slotName := payload]> (resolvedStylesDebug st)) st) ;;
         target' <- get slotName ;;
         delete_debug target'
       else ret tt) ;;
      addElapsed add_msResolveStylesTotal start ;;
      get (lazyEvaluationKey slotName).

(** [resolvedStyles[key]] *)
Fixpoint styles_get (fuel : nat) (key : string) : M style_val :=
  match fuel with
  | O => λ _, OutOfFuel
  | S fuel' =>
      match mergedStyles env o !! key with
      | Some fn => style_getter (styles_get fuel') (styles_put fuel') key fn
      | None => gets (λ st, default SUndefined (resolvedStyles st !! key))
      end
  end.

(** *** [classes] *)

(** [classes[key] = val]: the setter of lines 214-223 or a data property. *)
Fixpoint classes_put (fuel : nat) (key : string) (val : class_val) : M unit :=
  match fuel with
  | O => λ _, OutOfFuel
  | S fuel' =>
      match mergedStyles env o !! key with
      | Some _ =>
          when caching
            (modify (λ st,
               with_classesCache
                 (cache_set themeKey (classesCache st !! themeKey)
                    (slotCacheKey key) val (classesCache st)) st)) ;;
          classes_put fuel' (lazyEvaluationKey key) val
      | None =>
          modify (λ st, with_classes (<[key := val]> (classes st)) st)
      end
  end.

(** [slotName === 'root' ? cx(componentClassName, c, className) : c] *)
Definition composed (slotName : string) (c : class_val) : class_val :=
  if String.eqb slotName "root"
  then Some (cx [className o; c; as_className (field "className" (props o))])
  else c.

(** The getter of lines 224-282. *)
Definition class_getter (get : string → M class_val)
    (put : string → class_val → M unit)
    (getStyle : string → M style_val)
    (slotName : string) : M class_val :=
  hit <- gets (λ st,
           if caching
           then default None (cached (classesCache st) themeKey (slotCacheKey slotName))
           else None) ;;
  match hit with
  | Some c =>
      countCacheHit slotName ;;
      ret (composed slotName (Some c))
  | None =>
      memo <- get (lazyEvaluationKey slotName) ;;
      if class_truthy memo then
        memo' <- get (lazyEvaluationKey slotName) ;;
        ret (composed slotName memo')
      else
        styleObj <- getStyle slotName ;;
        start <- telemetryPartStart env o ;;
        (if style_truthy styleObj then
           rendered <- callRenderRule slotName styleObj ;;
           put (lazyEvaluationKey slotName) (Some rendered) ;;
           if caching then
             entries <- gets (λ st, classesCache st !! themeKey) ;;
             stored <- get (lazyEvaluationKey slotName) ;;
             modify (λ st,
               with_classesCache
                 (cache_set themeKey entries (slotCacheKey slotName) stored
                    (classesCache st)) st)
           else ret tt
         else ret tt) ;;
        current <- get (lazyEvaluationKey slotName) ;;
        addElapsed add_msRenderStylesTotal start ;;
        ret (composed slotName current)
  end.

(** [classes[key]] *)
Fixpoint classes_get (fuel : nat) (key : string) : M class_val :=
  match fuel with
  | O => λ _, OutOfFuel
  | S fuel' =>
      match mergedStyles env o !! key with
      | Some _ =>
          class_getter (classes_get fuel') (classes_put fuel') (styles_get fuel') key
      | None => gets (λ st, default None (classes st !! key))
      end
  end.

(** *** The call itself (lines 43-143 and 286-290) *)

(** Lines 136-143: [if (!cache.has(theme)) cache.set(theme, {})]. *)
Definition ensure_entries {V} (cache : gmap nat (gmap string V)) : gmap nat (gmap string V) :=
  match cache !! themeKey with
  | Some _ => cache
  | None => <[themeKey := ∅]> cache
  end.

(** The call throws at line 68 or returns three new objects without data
    properties; their accessors are [styles_get], [styles_put],
    [classes_get] and [classes_put] above. *)
Definition resolveStyles : M unit :=
  match configurationCheck env (performance o) with
  | Some e => throw e
  | None =>
      when caching
        (modify (λ st,
           with_classesCache (ensure_entries (classesCache st))
             (with_stylesCache (ensure_entries (stylesCache st)) st))) ;;
      modify (λ st,
        with_classes ∅ (with_resolvedStylesDebug ∅ (with_resolvedStyles ∅ st)))
  end.

End Accessors.

(** ** A reference environment for examples *)

(** A model of [JSON.stringify] on [value]: properties whose value is
    [undefined] or a function are left out, strings are quoted with the
    quote and the backslash escaped. *)
Definition double_quote : ascii := ascii_of_nat 34.

Fixpoint escape (s : string) : string :=
  match s with
  | EmptyString => EmptyString
  | String c s' =>
      if Ascii.eqb c double_quote then String "\"%char (String c (escape s'))
      else if Ascii.eqb c "\"%char then String "\"%char (String c (escape s'))
      else String c (escape s')
  end.

Definition quote (s : string) : string :=
  String double_quote (escape s +:+ String double_quote EmptyString).

Fixpoint json (v : value) : option string :=
  match v with
  | VUndefined | VFunction _ => None
  | VNull => Some "null"
  | VBool b => Some (bool_to_string b)
  | VNumber n => Some (NilZero.string_of_int (Z.to_int n))
  | VString s => Some (quote s)
  | VObject fields =>
      Some ("{" +:+
            join "," (omap (λ kv : string * value,
                              (λ s, quote kv.1 +:+ ":" +:+ s) <$> json kv.2) fields)
            +:+ "}")
  end.

(** A stand-in for [mergeComponentStyles]: later style sets win slot by
    slot, inline overrides are ignored. *)
Definition merge_model (args : list merge_arg) : gmap string style_fn :=
  foldl (λ acc a, match a with ArgStyles s => s ∪ acc | _ => acc end) ∅ args.

Definition referenceEnv (prod debug : bool) : Env :=
  {| production := prod;
     isDebugEnabled := debug;
     JSON_stringify := json;
     mergeComponentStyles := merge_model;
     performance_now := λ n, Z.of_nat n |}.

Definition emptyState : State :=
  {| stylesCache := ∅; classesCache := ∅; heap := ∅; allocated := 0%nat;
     recorder := {| enabled := false; tel_performance := ∅ |};
     clock := 0%nat; trace := []; resolvedStyles := ∅; resolvedStylesDebug := ∅;
     classes := ∅ |}.


(** * Observations *)

(** Notions used to state what the accessors do; nothing in this part is
    executed by the module. *)

(** The cache-hit counters of a component, the only part of the recorder
    that the timers leave alone. *)
Definition cacheHits (r : Telemetry) (name : string) : option (Z * Z) :=
  (λ s, (stylesRootCacheHits s, stylesSlotsCacheHits s)) <$> tel_performance r !! name.

(** The number of invocations of a collaborator recorded in a trace. *)
Definition calls (e : event) (tr : list event) : nat :=
  length (filter (λ x, x = e) tr).

(** [m] relates every state it returns in to the state it started from. *)
Definition preserves {A} (R : State → State → Prop) (m : M A) : Prop :=
  ∀ st a st', m st = Returned a st' → R st st'.

(** Nothing was written to [classes] or to the cache of class names, and the
    renderer was not called. *)
Definition classes_untouched (st st' : State) : Prop :=
  classes st' = classes st
  ∧ classesCache st' = classesCache st
  ∧ ∀ s, calls (RenderRuleCalled s) (trace st') = calls (RenderRuleCalled s) (trace st).

(** The recorder is switched on or off as before and no cache-hit counter
    has changed. *)
Definition counters_untouched (st st' : State) : Prop :=
  enabled (recorder st') = enabled (recorder st)
  ∧ ∀ name, cacheHits (recorder st') name = cacheHits (recorder st) name.

(** What reading or writing a style leaves alone. *)
Definition style_frame (st st' : State) : Prop :=
  classes_untouched st st' ∧ counters_untouched st st'.

(** Both caches are as they were. *)
Definition same_caches (st st' : State) : Prop :=
  stylesCache st' = stylesCache st ∧ classesCache st' = classesCache st.

(** The entries a getter would accept as a hit are still there: the truthy
    styles and the class names. *)
Definition style_entry_kept (themeId : nat) (key : string) (st st' : State) : Prop :=
  ∀ v, cached (stylesCache st) themeId key = Some v → style_truthy v = true →
       cached (stylesCache st') themeId key = Some v.

Definition class_entry_kept (themeId : nat) (key : string) (st st' : State) : Prop :=
  ∀ c, cached (classesCache st) themeId key = Some (Some c) →
       cached (classesCache st') themeId key = Some (Some c).

Definition entries_kept (st st' : State) : Prop :=
  ∀ themeId key, style_entry_kept themeId key st st' ∧ class_entry_kept themeId key st st'.

Section Observations.

Variable env : Env.
Variable o : ResolveStylesOptions.
Variable resolvedVariables : value.

(** What the getters of a slot find in the caches of the theme and in the
    data properties of the call. *)
Definition style_hit (st : State) (s : string) : style_val :=
  if caching o
  then default SUndefined (cached (stylesCache st) (themeKey o) (slotCacheKey env o s))
  else SUndefined.

Definition style_memo (st : State) (s : string) : style_val :=
  default SUndefined (resolvedStyles st !! lazyEvaluationKey s).

Definition class_hit (st : State) (s : string) : class_val :=
  if caching o
  then default None (cached (classesCache st) (themeKey o) (slotCacheKey env o s))
  else None.

Definition class_memo (st : State) (s : string) : class_val :=
  default None (classes st !! lazyEvaluationKey s).

(** The value of an invocation of a style function in state [st]. *)
Definition style_result (fn : style_fn) (st : State) : style_val :=
  match fn (styleParam o resolvedVariables) with
  | RetObject _ => SObject (allocated st)
  | RetUndefined => SUndefined
  | RetNull => SNull
  end.

(** The class the renderer gives to a style value in state [st]. *)
Definition rendered (st : State) (v : style_val) : string :=
  renderRule o (match v with SObject l => default [] (heap st !! l) | _ => [] end)
    (rendererParam o).

(** [process.env.NODE_ENV !== 'production' && isDebugEnabled] *)
Definition debugging : bool := negb (production env) && isDebugEnabled env.

(** The data property that remembers the slot's value is not itself an
    accessor: no slot is named [s__return]. *)
Definition memo_is_data (s : string) : Prop :=
  mergedStyles env o !! lazyEvaluationKey s = None.

(** No slot of the call is named after the memo key of a slot. *)
Definition well_formed : Prop :=
  ∀ s fn, mergedStyles env o !! s = Some fn → memo_is_data s.

End Observations.

(** What may happen to the store after an entry was stored under [key] in
    the caches of the theme [themeId], short of a write to that entry:
    changes that leave the caches alone, such as a caller turning to the
    objects of another call; reads of styles and class names by calls with
    well formed slots; new calls; writes to the accessors of other slots. *)
Inductive later (env : Env) (themeId : nat) (key : string) : State → State → Prop :=
  | later_now st : later env themeId key st st
  | later_elsewhere st st1 st2 :
      same_caches st st1 →
      later env themeId key st1 st2 →
      later env themeId key st st2
  | later_style_read o rv fuel s v st st1 st2 :
      well_formed env o →
      styles_get env o rv fuel s st = Returned v st1 →
      later env themeId key st1 st2 →
      later env themeId key st st2
  | later_class_read o rv fuel s r st st1 st2 :
      well_formed env o →
      classes_get env o rv fuel s st = Returned r st1 →
      later env themeId key st1 st2 →
      later env themeId key st st2
  | later_call o st st1 st2 :
      resolveStyles env o st = Returned () st1 →
      later env themeId key st1 st2 →
      later env themeId key st st2
  | later_style_write o fuel s v st st1 st2 :
      well_formed env o →
      (themeKey o = themeId → slotCacheKey env o s ≠ key) →
      styles_put env o fuel s v st = Returned () st1 →
      later env themeId key st1 st2 →
      later env themeId key st st2
  | later_class_write o fuel s c st st1 st2 :
      well_formed env o →
      (themeKey o = themeId → slotCacheKey env o s ≠ key) →
      classes_put env o fuel s c st = Returned () st1 →
      later env themeId key st1 st2 →
      later env themeId key st st2.

(** ** Cache eligibility in the words of the specification *)






(** ** The cache key in the words of the specification *)

(** The display names, joined by colons. *)
Fixpoint spec_joined (names : list string) : string :=
  match names with
  | [] => ""
  | name :: rest =>
      match rest with
      | [] => name
      | _ :: _ => name +:+ String ":" (spec_joined rest)
      end
  end.

(** All props except [className], the inline style override, the inline
    design override and [variables]. *)
Fixpoint spec_stylesProps (p : list (string * value)) : list (string * value) :=
  match p with
  | [] => []
  | (k, v) :: rest =>
      if String.eqb k "className" || String.eqb k "styles"
         || String.eqb k "design" || String.eqb k "variables"
      then spec_stylesProps rest
      else (k, v) :: spec_stylesProps rest
  end.

(** What a template literal makes of the result of [JSON.stringify]. *)
Definition spec_serialized (json : option string) : string :=
  match json with Some text => text | None => "undefined" end.

(** The parts of the key of a component when caching is enabled: the joined
    display names, the serialization of the props, the serialization of the
    variables when the boolean-variables optimisation is on and the empty
    string otherwise, the rtl flag and the disable-animations flag. *)
Record key_parts : Type := {
  part_names : string;
  part_props : string;
  part_variables : string;
  part_rtl : string;
  part_disableAnimations : string;
}.

Definition spec_key_parts (env : Env) (o : ResolveStylesOptions) : key_parts :=
  {| part_names := spec_joined (allDisplayNames o);
     part_props := spec_serialized (JSON_stringify env (VObject (spec_stylesProps (props o))));
     part_variables :=
       if enableBooleanVariablesCaching (performance o)
       then spec_serialized (JSON_stringify env (field "variables" (props o)))
       else "";
     part_rtl := if rtl o then "true" else "false";
     part_disableAnimations := if disableAnimations o then "true" else "false" |}.

(** The key of a slot: the parts separated by colons, the two flags and the
    name of the slot appended without separator. *)
Definition spec_slotCacheKey (parts : key_parts) (slotName : string) : string :=
  part_names parts +:+ String ":" (part_props parts +:+ String ":" (part_variables parts
    +:+ String ":" (part_rtl parts +:+ part_disableAnimations parts +:+ slotName))).

(** The parts and the name of the slot, in the order of the key. *)
Definition key_segments (parts : key_parts) (slotName : string) : list string :=
  [ part_names parts; part_props parts; part_variables parts; part_rtl parts;
    part_disableAnimations parts; slotName ].

(** ** Strings without leading, trailing or doubled spaces *)

Definition is_space (c : ascii) : bool := Ascii.eqb c " "%char.

Fixpoint tidy_from (after_space : bool) (s : string) : bool :=
  match s with
  | EmptyString => negb after_space
  | String c s' =>
      if is_space c then negb after_space && tidy_from true s'
      else tidy_from false s'
  end.

Definition tidy (s : string) : bool := String.eqb s "" || tidy_from true s.

(** The arguments [cx] keeps. *)
Definition segments (args : list (option string)) : list string :=
  omap (λ a : option string, if class_truthy a then a else None) args.

(** ** The root class in the words of the specification *)

(** [join(omit-falsy, segments)] with single spaces: the segments that are
    neither absent nor empty, each followed by one space unless it is the
    last. *)
Fixpoint spec_root_class (segs : list (option string)) : string :=
  match segs with
  | [] => ""
  | None :: rest => spec_root_class rest
  | Some s :: rest =>
      if String.eqb s "" then spec_root_class rest
      else match spec_root_class rest with
           | EmptyString => s
           | String c t => s +:+ String " " (String c t)
           end
  end.

(** The caller's [className] prop is the string [cn], or it is falsy and
    [cn] is absent. *)
Definition caller_className (p : list (string * value)) (cn : option string) : Prop :=
  match cn with
  | Some s => field "className" p = VString s
  | None => truthy (field "className" p) = false
  end.

(** The class that is stored for a slot: the entry of the cache of the
    theme, or else the data property of the call. *)
Definition stored_class (env : Env) (o : ResolveStylesOptions) (st : State) (s : string)
  : class_val :=
  match class_hit env o st s with
  | Some c => Some c
  | None => class_memo st s
  end.

(** ** Example data *)

Definition flags (caching booleanVariables : bool) : PerformanceFlags :=
  {| enableStylesCaching := caching;
     enableBooleanVariablesCaching := booleanVariables;
     enableSanitizeCssPlugin := false |}.

Definition buttonStyles : gmap string style_fn :=
  <["root" := λ _, RetObject [("color", VString "red"); ("_debug", VString "Button.root")]]>
  (<["icon" := λ _, RetObject [("width", VNumber 16)]]>
  {["hidden" := λ _, RetUndefined]}).

Definition buttonTheme : ThemePrepared :=
  {| theme_id := 1; componentStyles := {["Button" := buttonStyles]} |}.

Definition emptyTheme : ThemePrepared :=
  {| theme_id := 2; componentStyles := ∅ |}.

(** A theme whose style function for the root of [Button] gives no object. *)
Definition hollowTheme : ThemePrepared :=
  {| theme_id := 3; componentStyles := {["Button" := {["root" := λ _, RetNull]}]} |}.

(** A renderer that, like Fela, gives the empty class to an empty style
    object. *)
Definition sampleRenderRule (fields : list (string * value)) (_ : RendererParam) : string :=
  match fields with [] => "" | _ => "gen-123" end.

Definition buttonOptions (th : ThemePrepared) (f : PerformanceFlags)
    (p : list (string * value)) (tel : bool) : ResolveStylesOptions :=
  {| allDisplayNames := ["Button"];
     className := Some "ui-button";
     theme := th;
     primaryDisplayName := "Button";
     props := p;
     rtl := false;
     disableAnimations := false;
     renderRule := sampleRenderRule;
     performance := f;
     telemetry := tel |}.

Definition noStats : ComponentPerfStats :=
  {| stylesRootCacheHits := 0; stylesSlotsCacheHits := 0;
     msResolveStylesTotal := 0; msRenderStylesTotal := 0 |}.

(** A state whose recorder has an entry for [Button] and is switched on or
    off. *)
Definition recordingState (on : bool) : State :=
  with_recorder {| enabled := on; tel_performance := {["Button" := noStats]} |} emptyState.


(** ** Further observations *)

(** What the caches hold for the themes other than [themeId]. *)
Definition other_themes_kept (themeId : nat) (st st' : State) : Prop :=
  ∀ t, t ≠ themeId →
       stylesCache st' !! t = stylesCache st !! t
       ∧ classesCache st' !! t = classesCache st !! t.

(** The two timers of a component. *)
Definition timers (r : Telemetry) (name : string) : option (Z * Z) :=
  (λ s, (msResolveStylesTotal s, msRenderStylesTotal s)) <$> tel_performance r !! name.

(** [performance.now()] was not called and no timer has changed. *)
Definition timing_untouched (st st' : State) : Prop :=
  clock st' = clock st
  ∧ enabled (recorder st') = enabled (recorder st)
  ∧ ∀ name, timers (recorder st') name = timers (recorder st) name.

(** Whether the timers of a call run in a state, [telemetry?.enabled]: a
    recorder is passed and it is switched on. *)
Definition timing (o : ResolveStylesOptions) (st : State) : bool :=
  telemetry o && enabled (recorder st).

(** When the timers do not run in [st], nothing is timed between [st] and
    [st']. *)
Definition untimed (o : ResolveStylesOptions) (st st' : State) : Prop :=
  timing o st = false → timing_untouched st st'.

(** No debug payload was recorded and the style objects that existed are as
    they were. *)
Definition objects_untouched (st st' : State) : Prop :=
  resolvedStylesDebug st' = resolvedStylesDebug st
  ∧ (allocated st ≤ allocated st')%nat
  ∧ ∀ l, (l < allocated st)%nat → heap st' !! l = heap st !! l.

(** Every read and every write of a style or of a class name through the
    accessors of a call relates the state it returns in to the state it
    started from. *)
Definition accessors_preserve (env : Env) (o : ResolveStylesOptions) (rv : value)
    (R : State → State → Prop) : Prop :=
  ∀ fuel k,
    preserves R (styles_get env o rv fuel k)
    ∧ preserves R (classes_get env o rv fuel k)
    ∧ (∀ v, preserves R (styles_put env o fuel k v))
    ∧ (∀ c, preserves R (classes_put env o fuel k c)).

(** Nothing is stored for the slot, neither in the caches of the theme nor
    in the objects of the call. *)
Definition fresh_slot (env : Env) (o : ResolveStylesOptions) (st : State) (s : string) : Prop :=
  style_truthy (style_hit env o st s) = false
  ∧ style_truthy (style_memo st s) = false
  ∧ class_hit env o st s = None
  ∧ class_truthy (class_memo st s) = false.

(** The style object [l] is stored for the slot: it is the entry of the
    cache of the theme, or the cache has no acceptable entry and it is the
    data property of the call. *)
Definition stored_style (env : Env) (o : ResolveStylesOptions) (st : State) (s : string)
    (l : nat) : Prop :=
  style_hit env o st s = SObject l
  ∨ (style_truthy (style_hit env o st s) = false ∧ style_memo st s = SObject l).

(** The properties of the object of a slot once its getter has returned:
    lines 198-201 have removed [_debug] when debugging is on. *)
Definition resolved_fields (env : Env) (fields : list (string * value))
  : list (string * value) :=
  if debugging env then omit ["_debug"] fields else fields.

(** The state with other caches. *)
Definition with_caches (sc : gmap nat (gmap string style_val))
    (cc : gmap nat (gmap string class_val)) (st : State) : State :=
  with_classesCache cc (with_stylesCache sc st).

(** The outcome in the state with other caches. *)
Definition in_caches {A} (sc : gmap nat (gmap string style_val))
    (cc : gmap nat (gmap string class_val)) (out : outcome A) : outcome A :=
  match out with
  | Returned a st => Returned a (with_caches sc cc st)
  | Thrown e => Thrown e
  | OutOfFuel => OutOfFuel
  end.

(** [m] does not look at the caches and does not write to them: started
    with other caches it has the same outcome, and these caches are the
    caches it ends with. *)
Definition ignores_caches {A} (m : M A) : Prop :=
  ∀ sc cc st, m (with_caches sc cc st) = in_caches sc cc (m st).

(** [m] has the outcome of [m'], unless it is cut off because the fuel for
    nested accessor calls ran out. *)
Definition cut_off_or_same {A} (m m' : M A) : Prop :=
  ∀ st, m st = OutOfFuel ∨ m st = m' st.



(** * Properties *)

(** ** Running computations *)

Lemma bind_returned {A B} (m : M A) (k : A → M B) st a st1 :
  m st = Returned a st1 → bind m k st = k a st1.
Proof. intros H. unfold bind. by rewrite H. Qed.

Lemma bind_assoc {A B C} (m : M A) (k : A → M B) (k' : B → M C) st :
  bind (bind m k) k' st = bind m (λ a, bind (k a) k') st.
Proof. unfold bind. by destruct (m st). Qed.

Lemma bind_inv {A B} (m : M A) (k : A → M B) st b st' :
  bind m k st = Returned b st' →
  ∃ a st1, m st = Returned a st1 ∧ k a st1 = Returned b st'.
Proof. unfold bind. destruct (m st) as [a st1| |]; [eauto|done|done]. Qed.

Lemma cached_cache_set_eq {V} themeId entries key (val : V) cache :
  cached (cache_set themeId entries key val cache) themeId key = Some val.
Proof. unfold cached, cache_set. rewrite lookup_insert_eq. simpl. by rewrite lookup_insert_eq. Qed.

Lemma cached_cache_set_ne {V} themeId key key' (val : V) cache :
  key ≠ key' →
  cached (cache_set themeId (cache !! themeId) key val cache) themeId key'
  = cached cache themeId key'.
Proof.
  intros Hne. unfold cached, cache_set. rewrite lookup_insert_eq. simpl.
  rewrite lookup_insert_ne by done. by destruct (cache !! themeId).
Qed.

Lemma cached_cache_set_other {V} themeId themeId' entries key key' (val : V) cache :
  themeId ≠ themeId' →
  cached (cache_set themeId entries key val cache) themeId' key' = cached cache themeId' key'.
Proof. intros Hne. unfold cached, cache_set. by rewrite lookup_insert_ne. Qed.

(** Normalisation of states and of the monad's operations. *)
Ltac norm :=
  unfold update_stats;
  unfold with_clock, with_trace, with_heap, with_stylesCache, with_classesCache,
    with_recorder, with_resolvedStyles, with_resolvedStylesDebug, with_classes;
  cbn [stylesCache classesCache heap allocated recorder clock trace
       resolvedStyles resolvedStylesDebug classes enabled tel_performance].

Ltac sim :=
  cbn [bind gets modify ret when throw style_truthy class_truthy get_debug delete_debug
       negb andb orb];
  norm.

Ltac run_with tac :=
  repeat first
    [ rewrite bind_assoc
    | progress sim
    | rewrite lookup_insert_eq
    | progress cbn [default from_option id]
    | erewrite bind_returned by tac ].

Section Primitives.

Variable env : Env.
Variable o : ResolveStylesOptions.

Lemma telemetryPartStart_clock st :
  ∃ start c, telemetryPartStart env o st = Returned start (with_clock c st).
Proof.
  unfold telemetryPartStart, now.
  destruct (telemetry o && enabled (recorder st)); eauto.
  exists 0, (clock st). by destruct st.
Qed.

Lemma addElapsed_clock add start st :
  (∀ d s, stylesRootCacheHits (add d s) = stylesRootCacheHits s
          ∧ stylesSlotsCacheHits (add d s) = stylesSlotsCacheHits s) →
  ∃ c r, addElapsed env o add start st = Returned () (with_recorder r (with_clock c st))
         ∧ enabled r = enabled (recorder st)
         ∧ ∀ name, cacheHits r name = cacheHits (recorder st) name.
Proof.
  intros Hadd. unfold addElapsed, now, update_stats.
  destruct (telemetry o && enabled (recorder st));
    [destruct (tel_performance (recorder st) !! primaryDisplayName o) as [stats|] eqn:Hs|].
  - cbn. eexists _, _. split; [reflexivity|]. split; [done|].
    intros name. unfold cacheHits. cbn.
    destruct (decide (primaryDisplayName o = name)) as [<-|Hne].
    + rewrite lookup_insert_eq, Hs. cbn. by destruct (Hadd
        (performance_now env (clock st) - start) stats) as [-> ->].
    + by rewrite lookup_insert_ne.
  - exists (clock st), (recorder st). by destruct st.
  - exists (clock st), (recorder st). by destruct st.
Qed.

Lemma add_msResolveStylesTotal_hits d s :
  stylesRootCacheHits (add_msResolveStylesTotal d s) = stylesRootCacheHits s
  ∧ stylesSlotsCacheHits (add_msResolveStylesTotal d s) = stylesSlotsCacheHits s.
Proof. done. Qed.

Lemma add_msRenderStylesTotal_hits d s :
  stylesRootCacheHits (add_msRenderStylesTotal d s) = stylesRootCacheHits s
  ∧ stylesSlotsCacheHits (add_msRenderStylesTotal d s) = stylesSlotsCacheHits s.
Proof. done. Qed.

Lemma countCacheHit_recorder s st :
  ∃ r, countCacheHit o s st = Returned () (with_recorder r st).
Proof.
  unfold countCacheHit. destruct (telemetry o); [|exists (recorder st); by destruct st].
  destruct (tel_performance (recorder st) !! primaryDisplayName o).
  - unfold update_stats. eauto.
  - exists (recorder st). by destruct st.
Qed.

End Primitives.

(** Steps over [telemetryPartStart] and [addElapsed] at the head of the
    computation, naming the clock and the recorder they leave. *)
Ltac run_start :=
  match goal with
  | |- context [bind (telemetryPartStart ?e ?o) ?k ?st] =>
      let start := fresh "start" in
      let c := fresh "c" in
      let H := fresh "H" in
      destruct (telemetryPartStart_clock e o st) as (start & c & H);
      rewrite (bind_returned _ k st _ _ H); clear H
  end.

Ltac run_elapsed :=
  match goal with
  | |- context [bind (addElapsed ?e ?o add_msResolveStylesTotal ?start) ?k ?st] =>
      let c := fresh "c" in
      let r := fresh "r" in
      let H := fresh "H" in
      let He := fresh "Henabled" in
      let Hh := fresh "Hhits" in
      destruct (addElapsed_clock e o _ start st (add_msResolveStylesTotal_hits))
        as (c & r & H & He & Hh);
      rewrite (bind_returned _ k st _ _ H); clear H
  | |- context [bind (addElapsed ?e ?o add_msRenderStylesTotal ?start) ?k ?st] =>
      let c := fresh "c" in
      let r := fresh "r" in
      let H := fresh "H" in
      let He := fresh "Henabled" in
      let Hh := fresh "Hhits" in
      destruct (addElapsed_clock e o _ start st (add_msRenderStylesTotal_hits))
        as (c & r & H & He & Hh);
      rewrite (bind_returned _ k st _ _ H); clear H
  end.


(** ** Reading and writing a slot's style *)

Section StyleAccessors.

Variable env : Env.
Variable o : ResolveStylesOptions.
Variable rv : value.

Lemma styles_get_slot fuel s fn :
  mergedStyles env o !! s = Some fn →
  styles_get env o rv (S fuel) s
  = style_getter env o rv (styles_get env o rv fuel) (styles_put env o fuel) s fn.
Proof. intros H. simpl. by rewrite H. Qed.

Lemma styles_get_data fuel k st :
  mergedStyles env o !! k = None →
  styles_get env o rv (S fuel) k st
  = Returned (default SUndefined (resolvedStyles st !! k)) st.
Proof. intros H. simpl. by rewrite H. Qed.

Lemma styles_put_data fuel k v st :
  mergedStyles env o !! k = None →
  styles_put env o (S fuel) k v st
  = Returned () (with_resolvedStyles (<[k := v]> (resolvedStyles st)) st).
Proof. intros H. simpl. by rewrite H. Qed.

(** The setter of a slot whose memo key names no accessor. *)
Lemma styles_put_slot fuel s fn v st :
  mergedStyles env o !! s = Some fn →
  mergedStyles env o !! lazyEvaluationKey s = None →
  styles_put env o (S (S fuel)) s v st
  = Returned ()
      (with_resolvedStyles (<[lazyEvaluationKey s := v]> (resolvedStyles st))
         (if caching o
          then with_stylesCache
                 (cache_set (themeKey o) (stylesCache st !! themeKey o)
                    (slotCacheKey env o s) v (stylesCache st)) st
          else st)).
Proof.
  intros Hslot Hdata. cbn [styles_put]. rewrite Hslot, Hdata.
  unfold when. by destruct (caching o).
Qed.

Lemma styles_get_cache_hit fuel s fn st v :
  mergedStyles env o !! s = Some fn →
  caching o = true →
  cached (stylesCache st) (themeKey o) (slotCacheKey env o s) = Some v →
  style_truthy v = true →
  styles_get env o rv (S fuel) s st = Returned v st.
Proof.
  intros Hslot Hc Hhit Hv. rewrite (styles_get_slot _ _ _ Hslot).
  unfold style_getter. cbn [bind gets]. rewrite Hc, Hhit. cbn [default from_option id].
  by rewrite Hv.
Qed.

Lemma styles_get_memo_hit fuel s fn st v :
  mergedStyles env o !! s = Some fn →
  mergedStyles env o !! lazyEvaluationKey s = None →
  style_truthy (style_hit env o st s) = false →
  resolvedStyles st !! lazyEvaluationKey s = Some v →
  style_truthy v = true →
  styles_get env o rv (S (S fuel)) s st = Returned v st.
Proof.
  intros Hslot Hdata Hhit Hmemo Hv. rewrite (styles_get_slot _ _ _ Hslot).
  unfold style_getter. cbn [bind gets]. fold (style_hit env o st s).
  rewrite Hhit. rewrite (bind_returned _ _ _ _ _ (styles_get_data fuel _ st Hdata)).
  rewrite Hmemo. cbn [default from_option id]. rewrite Hv.
  rewrite (styles_get_data _ _ _ Hdata). by rewrite Hmemo.
Qed.

(** The lazy path of the getter: neither the cache nor the call holds a
    truthy style for the slot.  With debugging on, a falsy result makes the
    getter call itself without end, so that case is left out here. *)
Lemma styles_get_compute fuel s fn st :
  mergedStyles env o !! s = Some fn →
  mergedStyles env o !! lazyEvaluationKey s = None →
  style_truthy (style_hit env o st s) = false →
  style_truthy (style_memo st s) = false →
  debugging env = false ∨ style_truthy (style_result o rv fn st) = true →
  ∃ st',
    styles_get env o rv (S (S (S fuel))) s st = Returned (style_result o rv fn st) st'
    ∧ trace st' = trace st ++ [StyleFunctionCalled s]
    ∧ resolvedStyles st' = <[lazyEvaluationKey s := style_result o rv fn st]> (resolvedStyles st)
    ∧ stylesCache st'
      = (if caching o
         then cache_set (themeKey o) (stylesCache st !! themeKey o) (slotCacheKey env o s)
                (style_result o rv fn st) (stylesCache st)
         else stylesCache st)
    ∧ classesCache st' = classesCache st
    ∧ classes st' = classes st
    ∧ heap st'
      = match fn (styleParam o rv) with
        | RetObject fields =>
            <[allocated st := if debugging env then omit ["_debug"] fields else fields]> (heap st)
        | _ => heap st
        end
    ∧ resolvedStylesDebug st'
      = match fn (styleParam o rv) with
        | RetObject fields =>
            if debugging env
            then <[s := field "_debug" fields]> (resolvedStylesDebug st)
            else resolvedStylesDebug st
        | _ => resolvedStylesDebug st
        end
    ∧ enabled (recorder st') = enabled (recorder st)
    ∧ ∀ name, cacheHits (recorder st') name = cacheHits (recorder st) name.
Proof.
  intros Hslot Hdata Hhit Hmemo Hdbg.
  rewrite (styles_get_slot _ _ _ Hslot).
  unfold style_getter. cbn [bind gets]. fold (style_hit env o st s).
  rewrite Hhit. rewrite (bind_returned _ _ _ _ _ (styles_get_data (S fuel) _ st Hdata)).
  fold (style_memo st s). rewrite Hmemo. clear Hhit Hmemo.
  run_start.
  unfold callStyleFunction, style_result in *. fold (debugging env) in *.
  destruct st as [sc cc h n rec clk tr rs dbg cl]. norm. cbn [allocated] in Hdbg.
  destruct (fn (styleParam o rv)) as [fields| |] eqn:Hfn;
  destruct (caching o) eqn:Hc;
  destruct (debugging env) eqn:Hd;
  try (destruct Hdbg as [Hdbg|Hdbg]; discriminate Hdbg).
  all: run_with ltac:(first
    [ by apply styles_put_data
    | by apply styles_get_data
    | by (eapply styles_get_cache_hit; [done|done|norm; apply cached_cache_set_eq|done])
    | by (eapply styles_get_memo_hit;
            [done|done|unfold style_hit; by rewrite Hc|norm; apply lookup_insert_eq|done]) ]).
  all: run_elapsed; norm.
  all: rewrite styles_get_data by done; norm; rewrite lookup_insert_eq.
  all: eexists; split; [reflexivity|]; norm.
  all: rewrite ?alter_insert_eq; done.
Qed.

(** With enough fuel the getters return, unless debugging is on and the
    style function gives no object. *)
Lemma styles_get_returns fuel s fn st :
  mergedStyles env o !! s = Some fn →
  memo_is_data env o s →
  debugging env = false ∨ (∃ fields, fn (styleParam o rv) = RetObject fields) →
  ∃ v st', styles_get env o rv (S (S (S fuel))) s st = Returned v st'.
Proof.
  intros Hslot Hdata Hdbg.
  destruct (style_truthy (style_hit env o st s)) eqn:Hhit.
  { unfold style_hit in Hhit. destruct (caching o) eqn:Hc; [|done].
    destruct (cached (stylesCache st) (themeKey o) (slotCacheKey env o s)) as [v|] eqn:Hv;
      [|done].
    eexists _, _. by eapply styles_get_cache_hit. }
  destruct (style_truthy (style_memo st s)) eqn:Hmemo.
  { unfold style_memo in Hmemo.
    destruct (resolvedStyles st !! lazyEvaluationKey s) as [v|] eqn:Hv; [|done].
    eexists _, _. by eapply styles_get_memo_hit. }
  destruct (styles_get_compute fuel s fn st Hslot Hdata Hhit Hmemo)
    as (st' & Hget & _); [|eauto].
  destruct Hdbg as [?|[fields Hfn]]; [by left|right].
  unfold style_result. by rewrite Hfn.
Qed.

End StyleAccessors.


(** ** Reading and writing a slot's class name *)

Section ClassAccessors.

Variable env : Env.
Variable o : ResolveStylesOptions.
Variable rv : value.

Lemma classes_get_slot fuel s fn :
  mergedStyles env o !! s = Some fn →
  classes_get env o rv (S fuel) s
  = class_getter env o (classes_get env o rv fuel) (classes_put env o fuel)
      (styles_get env o rv fuel) s.
Proof. intros H. simpl. by rewrite H. Qed.

Lemma classes_get_data fuel k st :
  mergedStyles env o !! k = None →
  classes_get env o rv (S fuel) k st = Returned (default None (classes st !! k)) st.
Proof. intros H. simpl. by rewrite H. Qed.

Lemma classes_put_data fuel k v st :
  mergedStyles env o !! k = None →
  classes_put env o (S fuel) k v st
  = Returned () (with_classes (<[k := v]> (classes st)) st).
Proof. intros H. simpl. by rewrite H. Qed.

Lemma classes_put_slot fuel s fn v st :
  mergedStyles env o !! s = Some fn →
  mergedStyles env o !! lazyEvaluationKey s = None →
  classes_put env o (S (S fuel)) s v st
  = Returned ()
      (with_classes (<[lazyEvaluationKey s := v]> (classes st))
         (if caching o
          then with_classesCache
                 (cache_set (themeKey o) (classesCache st !! themeKey o)
                    (slotCacheKey env o s) v (classesCache st)) st
          else st)).
Proof.
  intros Hslot Hdata. cbn [classes_put]. rewrite Hslot, Hdata.
  unfold when. by destruct (caching o).
Qed.

Ltac fold_hit st s :=
  change (if caching o
          then default None (cached (classesCache st) (themeKey o) (slotCacheKey env o s))
          else None) with (class_hit env o st s).

(** A hit in the cache of the theme, lines 232-244. *)
Lemma classes_get_cache_hit fuel s fn st c :
  mergedStyles env o !! s = Some fn →
  class_hit env o st s = Some c →
  classes_get env o rv (S fuel) s st
  = (countCacheHit o s ;; ret (composed o s (Some c))) st.
Proof.
  intros Hslot Hhit. rewrite (classes_get_slot _ _ _ Hslot).
  unfold class_getter. cbn [bind gets]. fold_hit st s. by rewrite Hhit.
Qed.

(** No hit in the cache, a truthy class in the data property, lines 251-255. *)
Lemma classes_get_memo_hit fuel s fn st c :
  mergedStyles env o !! s = Some fn →
  mergedStyles env o !! lazyEvaluationKey s = None →
  class_hit env o st s = None →
  classes st !! lazyEvaluationKey s = Some c →
  class_truthy c = true →
  classes_get env o rv (S (S fuel)) s st = Returned (composed o s c) st.
Proof.
  intros Hslot Hdata Hhit Hmemo Hc. rewrite (classes_get_slot _ _ _ Hslot).
  unfold class_getter. cbn [bind gets]. fold_hit st s. rewrite Hhit.
  rewrite (bind_returned _ _ _ _ _ (classes_get_data fuel _ st Hdata)).
  rewrite Hmemo. cbn [default from_option id]. rewrite Hc.
  rewrite (bind_returned _ _ _ _ _ (classes_get_data fuel _ st Hdata)).
  by rewrite Hmemo.
Qed.

(** The lazy path, lines 258-281, after the style of the slot was read. *)
Lemma classes_get_compute fuel s fn st v st1 :
  mergedStyles env o !! s = Some fn →
  mergedStyles env o !! lazyEvaluationKey s = None →
  class_hit env o st s = None →
  class_truthy (class_memo st s) = false →
  styles_get env o rv (S fuel) s st = Returned v st1 →
  ∃ st',
    classes_get env o rv (S (S fuel)) s st
    = Returned
        (composed o s (if style_truthy v then Some (rendered o st1 v) else class_memo st1 s))
        st'
    ∧ trace st'
      = (if style_truthy v then trace st1 ++ [RenderRuleCalled s] else trace st1)
    ∧ classes st'
      = (if style_truthy v
         then <[lazyEvaluationKey s := Some (rendered o st1 v)]> (classes st1)
         else classes st1)
    ∧ classesCache st'
      = (if style_truthy v && caching o
         then cache_set (themeKey o) (classesCache st1 !! themeKey o) (slotCacheKey env o s)
                (Some (rendered o st1 v)) (classesCache st1)
         else classesCache st1)
    ∧ stylesCache st' = stylesCache st1
    ∧ resolvedStyles st' = resolvedStyles st1
    ∧ resolvedStylesDebug st' = resolvedStylesDebug st1
    ∧ heap st' = heap st1
    ∧ enabled (recorder st') = enabled (recorder st1)
    ∧ ∀ name, cacheHits (recorder st') name = cacheHits (recorder st1) name.
Proof.
  intros Hslot Hdata Hhit Hmemo Hstyle. rewrite (classes_get_slot _ _ _ Hslot).
  unfold class_getter. cbn [bind gets]. fold_hit st s. rewrite Hhit.
  rewrite (bind_returned _ _ _ _ _ (classes_get_data fuel _ st Hdata)).
  fold (class_memo st s). rewrite Hmemo.
  rewrite (bind_returned _ _ _ _ _ Hstyle).
  run_start. unfold callRenderRule, rendered, class_memo.
  destruct st1 as [sc cc h n rec clk tr rs dbg cl]. norm.
  destruct (style_truthy v) eqn:Hv; destruct (caching o) eqn:Hc.
  all: run_with ltac:(first
    [ by apply classes_put_data
    | by apply classes_get_data ]).
  all: run_elapsed; norm.
  all: eexists; split; [reflexivity|]; norm; done.
Qed.

Lemma classes_get_returns fuel s fn st :
  mergedStyles env o !! s = Some fn →
  memo_is_data env o s →
  debugging env = false ∨ (∃ fields, fn (styleParam o rv) = RetObject fields) →
  ∃ r st', classes_get env o rv (S (S (S (S fuel)))) s st = Returned r st'.
Proof.
  intros Hslot Hdata Hdbg.
  destruct (class_hit env o st s) as [c|] eqn:Hhit.
  { rewrite (classes_get_cache_hit _ _ _ _ _ Hslot Hhit).
    destruct (countCacheHit_recorder o s st) as (r & Hcount).
    rewrite (bind_returned _ _ _ _ _ Hcount). cbn [ret]. eauto. }
  destruct (class_truthy (class_memo st s)) eqn:Hmemo.
  { unfold class_memo in Hmemo.
    destruct (classes st !! lazyEvaluationKey s) as [c|] eqn:Hc; [|done].
    eexists _, _. by eapply classes_get_memo_hit. }
  destruct (styles_get_returns env o rv fuel s fn st Hslot Hdata Hdbg) as (v & st1 & Hstyle).
  destruct (classes_get_compute _ _ _ _ _ _ Hslot Hdata Hhit Hmemo Hstyle)
    as (st' & Hget & _).
  eauto.
Qed.

End ClassAccessors.


(** ** What the style accessors leave alone *)

Section Preserves.

Variable R : State → State → Prop.
Hypothesis R_refl : ∀ st, R st st.
Hypothesis R_trans : ∀ st1 st2 st3, R st1 st2 → R st2 st3 → R st1 st3.

Lemma preserves_ret {A} (a : A) : preserves R (ret a).
Proof. intros st a' st' [= _ <-]. apply R_refl. Qed.

Lemma preserves_gets {A} (f : State → A) : preserves R (gets f).
Proof. intros st a' st' [= _ <-]. apply R_refl. Qed.

Lemma preserves_throw {A} e : preserves R (throw e : M A).
Proof. by intros st a' st'. Qed.

Lemma preserves_modify f : (∀ st, R st (f st)) → preserves R (modify f).
Proof. intros Hf st a' st' [= _ <-]. apply Hf. Qed.

Lemma preserves_bind {A B} (m : M A) (k : A → M B) :
  preserves R m → (∀ a, preserves R (k a)) → preserves R (bind m k).
Proof.
  intros Hm Hk st b st' Hrun.
  apply bind_inv in Hrun as (a & st1 & H1 & H2).
  eapply R_trans; [by eapply Hm|by eapply Hk].
Qed.

Lemma preserves_when b m : preserves R m → preserves R (when b m).
Proof. intros Hm. destruct b; [done|apply preserves_ret]. Qed.

End Preserves.

Lemma calls_app e tr1 tr2 : calls e (tr1 ++ tr2) = (calls e tr1 + calls e tr2)%nat.
Proof. unfold calls. by rewrite filter_app, length_app. Qed.

Lemma calls_other e e' tr : e ≠ e' → calls e (tr ++ [e']) = calls e tr.
Proof.
  intros Hne. rewrite calls_app. unfold calls at 2.
  rewrite filter_cons_False by done. simpl. lia.
Qed.

Lemma calls_same e tr : calls e (tr ++ [e]) = S (calls e tr).
Proof.
  rewrite calls_app. unfold calls at 2.
  rewrite filter_cons_True by done. simpl. lia.
Qed.

Lemma style_frame_refl st : style_frame st st.
Proof. done. Qed.

Lemma style_frame_trans st1 st2 st3 :
  style_frame st1 st2 → style_frame st2 st3 → style_frame st1 st3.
Proof.
  intros [(Ha1 & Hb1 & Hc1) [Hd1 He1]] [(Ha2 & Hb2 & Hc2) [Hd2 He2]].
  repeat split; [congruence..| | |].
  - intros s. by rewrite Hc2.
  - congruence.
  - intros name. by rewrite He2.
Qed.

Section StylesLeaveClasses.

Variable env : Env.
Variable o : ResolveStylesOptions.
Variable rv : value.

Local Ltac pres :=
  repeat first
    [ apply (preserves_bind _ style_frame_trans); [|intros ?]
    | apply (preserves_ret _ style_frame_refl)
    | apply (preserves_gets _ style_frame_refl)
    | apply (preserves_throw _)
    | apply (preserves_when _ style_frame_refl)
    | apply preserves_modify; intros ?; by norm ].

Lemma styles_put_frame fuel k v : preserves style_frame (styles_put env o fuel k v).
Proof.
  revert k. induction fuel as [|fuel IH]; intros k; [done|].
  cbn [styles_put]. destruct (mergedStyles env o !! k); pres. apply IH.
Qed.

Lemma telemetryPartStart_frame : preserves style_frame (telemetryPartStart env o).
Proof.
  intros st a st' H. destruct (telemetryPartStart_clock env o st) as (? & ? & H').
  rewrite H' in H. injection H as _ <-. by norm.
Qed.

Lemma addElapsed_frame start : preserves style_frame (addElapsed env o add_msResolveStylesTotal start).
Proof.
  intros st a st' H.
  destruct (addElapsed_clock env o _ start st (add_msResolveStylesTotal_hits))
    as (c & r & Hel & Hen & Hhits).
  rewrite Hel in H. injection H as _ <-. by norm.
Qed.

Lemma callStyleFunction_frame s fn : preserves style_frame (callStyleFunction o rv s fn).
Proof.
  intros st a st'. unfold callStyleFunction.
  destruct (fn (styleParam o rv)); intros [= _ <-]; norm;
    repeat split; intros; by apply calls_other.
Qed.

Lemma get_debug_frame v : preserves style_frame (get_debug v).
Proof. destruct v; pres. Qed.

Lemma delete_debug_frame v : preserves style_frame (delete_debug v).
Proof. destruct v; pres. Qed.

Lemma styles_get_frame fuel k : preserves style_frame (styles_get env o rv fuel k).
Proof.
  revert k. induction fuel as [|fuel IH]; intros k; [done|].
  cbn [styles_get]. destruct (mergedStyles env o !! k) as [fn|]; [|pres].
  unfold style_getter. pres.
  destruct (style_truthy _); pres.
  all: try apply IH.
  destruct (style_truthy _); pres.
  all: first
    [ apply IH
    | apply telemetryPartStart_frame
    | apply callStyleFunction_frame
    | apply styles_put_frame
    | apply get_debug_frame
    | apply delete_debug_frame
    | apply addElapsed_frame ].
Qed.

(** The style accessors never write to [classes] or to the cache of class
    names, and never call the renderer. *)
Lemma styles_get_classes fuel k : preserves classes_untouched (styles_get env o rv fuel k).
Proof. intros st a st' H. by destruct (styles_get_frame fuel k st a st' H). Qed.

End StylesLeaveClasses.


(** ** Entries of the caches persist *)

Lemma same_caches_refl st : same_caches st st.
Proof. done. Qed.

Lemma same_caches_trans st1 st2 st3 :
  same_caches st1 st2 → same_caches st2 st3 → same_caches st1 st3.
Proof. intros [? ?] [? ?]. split; congruence. Qed.

Lemma entries_kept_refl st : entries_kept st st.
Proof. intros themeId key. split; by intros x. Qed.

Lemma entries_kept_trans st1 st2 st3 :
  entries_kept st1 st2 → entries_kept st2 st3 → entries_kept st1 st3.
Proof.
  intros H1 H2 themeId key. destruct (H1 themeId key) as [Hs1 Hc1].
  destruct (H2 themeId key) as [Hs2 Hc2]. split.
  - intros v Hv Ht. apply Hs2; [|done]. by apply Hs1.
  - intros c Hc. apply Hc2. by apply Hc1.
Qed.

Lemma same_caches_entries_kept st st' : same_caches st st' → entries_kept st st'.
Proof. intros [Hs Hc] themeId key. split; intros x; by rewrite ?Hs, ?Hc. Qed.

(** Storing under a key that holds no hit destroys no hit. *)
Lemma cache_set_keeps_styles themeId key val (st st' : State) :
  style_truthy (default SUndefined (cached (stylesCache st) themeId key)) = false →
  stylesCache st'
  = cache_set themeId (stylesCache st !! themeId) key val (stylesCache st) →
  classesCache st' = classesCache st →
  entries_kept st st'.
Proof.
  intros Hmiss Hs Hc themeId' key'. split; [|intros c; by rewrite Hc].
  intros v Hv Ht. rewrite Hs.
  destruct (decide (themeId = themeId')) as [<-|Htheme];
    [|by rewrite cached_cache_set_other].
  destruct (decide (key = key')) as [<-|Hkey]; [|by rewrite cached_cache_set_ne].
  rewrite Hv in Hmiss. cbn in Hmiss. congruence.
Qed.

Lemma cache_set_keeps_classes themeId key val (st st' : State) :
  default None (cached (classesCache st) themeId key) = None →
  classesCache st'
  = cache_set themeId (classesCache st !! themeId) key val (classesCache st) →
  stylesCache st' = stylesCache st →
  entries_kept st st'.
Proof.
  intros Hmiss Hc Hs themeId' key'. split; [intros v; by rewrite Hs|].
  intros c Hv. rewrite Hc.
  destruct (decide (themeId = themeId')) as [<-|Htheme];
    [|by rewrite cached_cache_set_other].
  destruct (decide (key = key')) as [<-|Hkey]; [|by rewrite cached_cache_set_ne].
  by rewrite Hv in Hmiss.
Qed.

Section ReadsKeepEntries.

Variable env : Env.
Variable o : ResolveStylesOptions.
Variable rv : value.
Hypothesis Hwf : well_formed env o.

Local Ltac pres :=
  repeat first
    [ apply (preserves_bind _ entries_kept_trans); [|intros ?]
    | apply (preserves_ret _ entries_kept_refl)
    | apply (preserves_gets _ entries_kept_refl)
    | apply (preserves_throw _)
    | apply (preserves_when _ entries_kept_refl)
    | apply preserves_modify; intros ?; apply same_caches_entries_kept; by norm ].

Lemma telemetryPartStart_entries : preserves entries_kept (telemetryPartStart env o).
Proof.
  intros st a st' H. destruct (telemetryPartStart_clock env o st) as (? & ? & H').
  rewrite H' in H. injection H as _ <-. apply same_caches_entries_kept. by norm.
Qed.

Lemma addElapsed_entries add start : preserves entries_kept (addElapsed env o add start).
Proof.
  intros st a st' H. unfold addElapsed, now, bind, modify in H.
  apply same_caches_entries_kept.
  destruct (telemetry o && enabled (recorder st));
    [destruct (tel_performance (recorder st) !! primaryDisplayName o)|];
    by simplify_eq.
Qed.

Lemma get_debug_entries v : preserves entries_kept (get_debug v).
Proof. destruct v; pres. Qed.

Lemma delete_debug_entries v : preserves entries_kept (delete_debug v).
Proof. destruct v; pres. Qed.

Lemma styles_get_entries fuel k : preserves entries_kept (styles_get env o rv fuel k).
Proof.
  revert k. induction fuel as [|fuel IH]; intros k; [done|].
  cbn [styles_get]. destruct (mergedStyles env o !! k) as [fn|] eqn:Hslot; [|pres].
  pose proof (Hwf k fn Hslot) as Hdata.
  intros st v st' Hrun. unfold style_getter in Hrun. cbn [bind gets] in Hrun.
  change (if caching o
          then default SUndefined
                 (cached (stylesCache st) (themeKey o) (slotCacheKey env o k))
          else SUndefined) with (style_hit env o st k) in Hrun.
  destruct (style_truthy (style_hit env o st k)) eqn:Hhit.
  { injection Hrun as _ <-. apply entries_kept_refl. }
  destruct fuel as [|fuel]; [done|].
  rewrite (bind_returned _ _ _ _ _ (styles_get_data env o rv fuel _ st Hdata)) in Hrun.
  destruct (style_truthy (default SUndefined (resolvedStyles st !! lazyEvaluationKey k))).
  { rewrite (styles_get_data env o rv fuel _ st Hdata) in Hrun.
    injection Hrun as _ <-. apply entries_kept_refl. }
  destruct (telemetryPartStart_clock env o st) as (start & c & Hstart).
  rewrite (bind_returned _ _ _ _ _ Hstart) in Hrun.
  apply bind_inv in Hrun as (val & st1 & Hcall & Hrun).
  assert (same_caches st st1 ∧ resolvedStyles st1 = resolvedStyles st) as [[Hs1 Hc1] Hrs1].
  { unfold callStyleFunction in Hcall.
    destruct (fn (styleParam o rv)); injection Hcall as _ <-; by norm. }
  rewrite (bind_returned _ _ _ _ _ (styles_put_data env o fuel _ val st1 Hdata)) in Hrun.
  apply bind_inv in Hrun as (u & st2 & Hblock & Hrun).
  apply (entries_kept_trans _ st2).
  - destruct (caching o) eqn:Hc'.
    + cbn [bind gets] in Hblock.
      rewrite (bind_returned _ _ _ _ _ (styles_get_data env o rv fuel _ _ Hdata)) in Hblock.
      injection Hblock as _ <-.
      apply (cache_set_keeps_styles (themeKey o) (slotCacheKey env o k)
               (default SUndefined
                  (<[lazyEvaluationKey k:=val]> (resolvedStyles st1) !! lazyEvaluationKey k))).
      * unfold style_hit in Hhit. by rewrite Hc' in Hhit.
      * norm. by rewrite Hs1.
      * norm. by rewrite Hc1.
    + injection Hblock as _ <-. apply same_caches_entries_kept. by norm.
  - revert Hrun. generalize st2 v st'.
    change (preserves entries_kept
      ((if negb (production env) && isDebugEnabled env
        then
          target <- styles_get env o rv (S fuel) k;;
          payload <- get_debug target;;
          modify (λ st0, with_resolvedStylesDebug
                           (<[k:=payload]> (resolvedStylesDebug st0)) st0);;
          target' <- styles_get env o rv (S fuel) k;; delete_debug target'
        else ret ());;
       addElapsed env o add_msResolveStylesTotal start;;
       styles_get env o rv (S fuel) (lazyEvaluationKey k))).
    pres.
    all: first
      [ apply IH
      | apply get_debug_entries
      | apply delete_debug_entries
      | apply addElapsed_entries ].
Qed.

Lemma classes_get_entries fuel k : preserves entries_kept (classes_get env o rv fuel k).
Proof.
  destruct fuel as [|fuel]; [done|].
  cbn [classes_get]. destruct (mergedStyles env o !! k) as [fn|] eqn:Hslot; [|pres].
  pose proof (Hwf k fn Hslot) as Hdata.
  intros st r st' Hrun. unfold class_getter in Hrun. cbn [bind gets] in Hrun.
  change (if caching o
          then default None (cached (classesCache st) (themeKey o) (slotCacheKey env o k))
          else None) with (class_hit env o st k) in Hrun.
  destruct (class_hit env o st k) as [c|] eqn:Hhit.
  { destruct (countCacheHit_recorder o k st) as (r' & Hcount).
    rewrite (bind_returned _ _ _ _ _ Hcount) in Hrun. injection Hrun as _ <-.
    apply same_caches_entries_kept. by norm. }
  destruct fuel as [|fuel]; [done|].
  rewrite (bind_returned _ _ _ _ _ (classes_get_data env o rv fuel _ st Hdata)) in Hrun.
  destruct (class_truthy (default None (classes st !! lazyEvaluationKey k))).
  { rewrite (bind_returned _ _ _ _ _ (classes_get_data env o rv fuel _ st Hdata)) in Hrun.
    injection Hrun as _ <-. apply entries_kept_refl. }
  apply bind_inv in Hrun as (styleObj & st1 & Hstyle & Hrun).
  pose proof (styles_get_entries _ _ _ _ _ Hstyle) as Hkept1.
  destruct (styles_get_classes env o rv _ _ _ _ _ Hstyle) as (_ & Hcc1 & _).
  apply (entries_kept_trans _ st1); [done|].
  destruct (telemetryPartStart_clock env o st1) as (start & c & Hstart).
  rewrite (bind_returned _ _ _ _ _ Hstart) in Hrun.
  apply bind_inv in Hrun as (u & st2 & Hblock & Hrun).
  apply (entries_kept_trans _ st2).
  - destruct (style_truthy styleObj); [|injection Hblock as _ <-;
                                         apply same_caches_entries_kept; by norm].
    unfold callRenderRule in Hblock. cbn [bind] in Hblock.
    rewrite (bind_returned _ _ _ _ _ (classes_put_data env o fuel _ _ _ Hdata)) in Hblock.
    destruct (caching o) eqn:Hc'.
    + cbn [bind gets] in Hblock.
      rewrite (bind_returned _ _ _ _ _ (classes_get_data env o rv fuel _ _ Hdata)) in Hblock.
      injection Hblock as _ <-.
      eapply (cache_set_keeps_classes (themeKey o) (slotCacheKey env o k)).
      * unfold class_hit in Hhit. rewrite Hc' in Hhit. rewrite Hcc1. exact Hhit.
      * norm. reflexivity.
      * by norm.
    + injection Hblock as _ <-. apply same_caches_entries_kept. by norm.
  - rewrite (bind_returned _ _ _ _ _ (classes_get_data env o rv fuel _ _ Hdata)) in Hrun.
    apply bind_inv in Hrun as (u' & st3 & Hel & Hrun). injection Hrun as _ <-.
    by apply (addElapsed_entries _ _ _ _ _ Hel).
Qed.

(** A new call adds at most an empty set of entries for its theme. *)
Lemma resolveStyles_entries : preserves entries_kept (resolveStyles env o).
Proof.
  intros st u st' Hrun. unfold resolveStyles in Hrun.
  destruct (configurationCheck env (performance o)); [done|].
  unfold when, bind, modify, ret in Hrun.
  destruct (caching o); injection Hrun as _ <-; [|apply same_caches_entries_kept; by norm].
  intros themeId key. unfold style_entry_kept, class_entry_kept, cached, ensure_entries.
  norm. split.
  - intros v. destruct (stylesCache st !! themeKey o) eqn:Hs; [done|].
    destruct (decide (themeKey o = themeId)) as [<-|Hne].
    + by rewrite Hs.
    + by rewrite lookup_insert_ne.
  - intros c. destruct (classesCache st !! themeKey o) eqn:Hs; [done|].
    destruct (decide (themeKey o = themeId)) as [<-|Hne].
    + by rewrite Hs.
    + by rewrite lookup_insert_ne.
Qed.

(** A write to the accessor of a slot changes the entry of that slot only. *)
Lemma styles_put_entry fuel k v themeId key st st' :
  (themeKey o = themeId → slotCacheKey env o k ≠ key) →
  styles_put env o fuel k v st = Returned () st' →
  style_entry_kept themeId key st st' ∧ class_entry_kept themeId key st st'.
Proof.
  intros Hother Hrun. destruct fuel as [|fuel]; [done|].
  destruct (mergedStyles env o !! k) as [fn|] eqn:Hslot.
  - destruct fuel as [|fuel].
    { cbn [styles_put] in Hrun. rewrite Hslot in Hrun.
      unfold when, bind, modify, ret in Hrun. by destruct (caching o). }
    rewrite (styles_put_slot env o _ _ _ _ _ Hslot (Hwf k fn Hslot)) in Hrun.
    injection Hrun as <-. destruct (caching o); [|by apply same_caches_entries_kept].
    split; [|intros c; by norm]. intros w Hw _. norm.
    destruct (decide (themeKey o = themeId)) as [<-|Hne].
    + rewrite cached_cache_set_ne; [done|]. by apply Hother.
    + by rewrite cached_cache_set_other.
  - rewrite (styles_put_data env o _ _ _ _ Hslot) in Hrun. injection Hrun as <-.
    by apply same_caches_entries_kept.
Qed.

Lemma classes_put_entry fuel k v themeId key st st' :
  (themeKey o = themeId → slotCacheKey env o k ≠ key) →
  classes_put env o fuel k v st = Returned () st' →
  style_entry_kept themeId key st st' ∧ class_entry_kept themeId key st st'.
Proof.
  intros Hother Hrun. destruct fuel as [|fuel]; [done|].
  destruct (mergedStyles env o !! k) as [fn|] eqn:Hslot.
  - destruct fuel as [|fuel].
    { cbn [classes_put] in Hrun. rewrite Hslot in Hrun.
      unfold when, bind, modify, ret in Hrun. by destruct (caching o). }
    rewrite (classes_put_slot env o _ _ _ _ _ Hslot (Hwf k fn Hslot)) in Hrun.
    injection Hrun as <-. destruct (caching o); [|by apply same_caches_entries_kept].
    split; [intros w; by norm|]. intros c Hc. norm.
    destruct (decide (themeKey o = themeId)) as [<-|Hne].
    + rewrite cached_cache_set_ne; [done|]. by apply Hother.
    + by rewrite cached_cache_set_other.
  - rewrite (classes_put_data env o _ _ _ _ Hslot) in Hrun. injection Hrun as <-.
    by apply same_caches_entries_kept.
Qed.

End ReadsKeepEntries.

(** Whatever happens later, short of a write to the entry, the entry stays. *)
Lemma later_keeps env themeId key st st' :
  later env themeId key st st' →
  style_entry_kept themeId key st st' ∧ class_entry_kept themeId key st st'.
Proof.
  assert (∀ st1 st2 st3,
            style_entry_kept themeId key st1 st2 ∧ class_entry_kept themeId key st1 st2 →
            style_entry_kept themeId key st2 st3 ∧ class_entry_kept themeId key st2 st3 →
            style_entry_kept themeId key st1 st3 ∧ class_entry_kept themeId key st1 st3)
    as Htrans.
  { intros st1 st2 st3 [Hs1 Hc1] [Hs2 Hc2]. split.
    - intros v Hv Ht. apply Hs2; [|done]. by apply Hs1.
    - intros c Hc. apply Hc2. by apply Hc1. }
  induction 1 as [st|st st1 st2 Hsame _ IH|o rv fuel s v st st1 st2 Hwf Hrun _ IH
                  |o rv fuel s r st st1 st2 Hwf Hrun _ IH|o st st1 st2 Hrun _ IH
                  |o fuel s v st st1 st2 Hwf Hother Hrun _ IH
                  |o fuel s c st st1 st2 Hwf Hother Hrun _ IH].
  - by apply entries_kept_refl.
  - apply (Htrans _ st1); [|done]. by apply same_caches_entries_kept.
  - apply (Htrans _ st1); [|done]. by apply (styles_get_entries env o rv Hwf _ _ _ _ _ Hrun).
  - apply (Htrans _ st1); [|done]. by apply (classes_get_entries env o rv Hwf _ _ _ _ _ Hrun).
  - apply (Htrans _ st1); [|done]. by apply (resolveStyles_entries env o _ _ _ Hrun).
  - apply (Htrans _ st1); [|done]. by apply (styles_put_entry env o Hwf _ _ _ _ _ _ _ Hother Hrun).
  - apply (Htrans _ st1); [|done]. by apply (classes_put_entry env o Hwf _ _ _ _ _ _ _ Hother Hrun).
Qed.


(** ** A read that does not return *)

Lemma bind_out_of_fuel {A B} (m : M A) (k : A → M B) st :
  m st = OutOfFuel → bind m k st = OutOfFuel.
Proof. intros H. unfold bind. by rewrite H. Qed.

(** With debugging on, line 199 reads [resolvedStyles[slotName]] again.  When
    the style function gave no object, neither the cache nor the data
    property satisfies the getter, which invokes the style function and
    reaches line 199 once more: no amount of fuel lets the read return. *)
Lemma falsy_style_never_returns_when_debugging env o rv s fn :
  mergedStyles env o !! s = Some fn →
  memo_is_data env o s →
  debugging env = true →
  fn (styleParam o rv) = RetUndefined ∨ fn (styleParam o rv) = RetNull →
  ∀ fuel st,
    style_truthy (style_hit env o st s) = false →
    style_truthy (style_memo st s) = false →
    styles_get env o rv fuel s st = OutOfFuel.
Proof.
  intros Hslot Hdata Hdbg Hfn. induction fuel as [|fuel IH]; intros st Hhit Hmemo; [done|].
  rewrite (styles_get_slot env o rv _ _ _ Hslot).
  unfold style_getter. cbn [bind gets].
  change (if caching o
          then default SUndefined
                 (cached (stylesCache st) (themeKey o) (slotCacheKey env o s))
          else SUndefined) with (style_hit env o st s).
  rewrite Hhit. destruct fuel as [|fuel]; [done|].
  rewrite (bind_returned _ _ _ _ _ (styles_get_data env o rv fuel _ st Hdata)).
  change (default SUndefined (resolvedStyles st !! lazyEvaluationKey s))
    with (style_memo st s).
  rewrite Hmemo. run_start.
  unfold debugging in Hdbg. rewrite Hdbg.
  unfold callStyleFunction, style_result in *.
  destruct st as [sc cc h n rec clk tr rs dbg cl]. norm.
  unfold style_hit, style_memo in *. norm. cbn [stylesCache resolvedStyles] in *.
  destruct Hfn as [Hret|Hret]; rewrite Hret; destruct (caching o) eqn:Hc.
  all: run_with ltac:(first [ by apply styles_put_data | by apply styles_get_data ]).
  all: apply bind_out_of_fuel, IH; unfold style_hit, style_memo; norm; rewrite ?Hc;
    rewrite ?cached_cache_set_eq, ?lookup_insert_eq; done.
Qed.


(** ** Cache eligibility *)




(** Outside that declaration: a falsy value of [variables] other than
    [undefined] and [null] counts as no variables without the
    boolean-variables optimisation and as an override with it. *)
Lemma noVariableOverrides_falsy_primitive f v :
  truthy v = false → isNil v = false →
  noVariableOverrides f v = negb (enableBooleanVariablesCaching f).
Proof.
  intros Hfalsy Hnil. unfold noVariableOverrides. rewrite Hfalsy.
  destruct (enableBooleanVariablesCaching f); [|done].
  destruct v; try done; cbn [isNil negb]; done.
Qed.




(** ** The configuration check *)

(** C6.  With the boolean-variables optimisation switched on and style
    caching switched off, a build that is not a production build throws the
    configuration error, whatever the state, and so before any accessor
    exists; a production build returns, with caching disabled and both caches
    as they were. *)
Theorem misconfiguration env o st :
  enableStylesCaching (performance o) = false →
  enableBooleanVariablesCaching (performance o) = true →
  (production env = false → resolveStyles env o st = Thrown ConfigurationError)
  ∧ (production env = true →
     caching o = false
     ∧ ∃ st', resolveStyles env o st = Returned () st'
              ∧ stylesCache st' = stylesCache st
              ∧ classesCache st' = classesCache st
              ∧ trace st' = trace st).
Proof.
  intros Hs Hb. unfold resolveStyles, configurationCheck, caching, cacheEnabled.
  rewrite Hs, Hb. split; intros ->; [done|]. cbn. split; [done|]. eauto.
Qed.

Lemma misconfiguration_witness :
  resolveStyles (referenceEnv false false)
    (buttonOptions buttonTheme (flags false true) [] false) emptyState
  = Thrown ConfigurationError
  ∧ ∃ st', resolveStyles (referenceEnv true false)
             (buttonOptions buttonTheme (flags false true) [] false) emptyState
           = Returned () st'.
Proof.
  split.
  - by apply (misconfiguration (referenceEnv false false)).
  - destruct (misconfiguration (referenceEnv true false)
                (buttonOptions buttonTheme (flags false true) [] false) emptyState)
      as [_ H]; [reflexivity..|].
    destruct (H eq_refl) as (_ & st' & Hrun & _). by exists st'.
Defined.

(** ** The cache key *)

Lemma join_spec names : join ":" names = spec_joined names.
Proof.
  induction names as [|name rest IH]; [done|].
  destruct rest as [|name' rest]; [done|].
  change (join ":" (name :: name' :: rest)) with (name +:+ ":" +:+ join ":" (name' :: rest)).
  by rewrite IH.
Qed.

Lemma stylesProps_spec p : stylesProps p = spec_stylesProps p.
Proof.
  unfold stylesProps, omit. induction p as [|[k v] p IH]; [done|].
  rewrite filter_cons. cbn [fst spec_stylesProps]. rewrite IH.
  destruct (String.eqb k "className") eqn:H1.
  { apply String.eqb_eq in H1 as ->. rewrite decide_False; [done|].
    intros H. apply H. rewrite !elem_of_cons. tauto. }
  destruct (String.eqb k "styles") eqn:H2.
  { apply String.eqb_eq in H2 as ->. rewrite decide_False; [done|].
    intros H. apply H. rewrite !elem_of_cons. tauto. }
  destruct (String.eqb k "design") eqn:H3.
  { apply String.eqb_eq in H3 as ->. rewrite decide_False; [done|].
    intros H. apply H. rewrite !elem_of_cons. tauto. }
  destruct (String.eqb k "variables") eqn:H4.
  { apply String.eqb_eq in H4 as ->. rewrite decide_False; [done|].
    intros H. apply H. rewrite !elem_of_cons. tauto. }
  apply String.eqb_neq in H1, H2, H3, H4.
  rewrite decide_True; [done|]. rewrite !elem_of_cons, elem_of_nil. tauto.
Qed.

Lemma app_assoc_string (a b c : string) : (a +:+ b) +:+ c = a +:+ (b +:+ c).
Proof.
  induction a as [|x a IH]; [done|].
  change (String x ((a +:+ b) +:+ c) = String x (a +:+ (b +:+ c))). by f_equal.
Qed.

(** The key of a slot is made of the parts the specification names. *)
Lemma slotCacheKey_spec env o s :
  caching o = true →
  slotCacheKey env o s = spec_slotCacheKey (spec_key_parts env o) s.
Proof.
  unfold caching. intros Hc.
  unfold slotCacheKey, componentCacheKey, propsCacheKey, variablesCacheKey,
    spec_slotCacheKey, spec_key_parts, template, bool_to_string.
  rewrite Hc. cbn [andb part_names part_props part_variables part_rtl
                   part_disableAnimations].
  rewrite join_spec, stylesProps_spec.
  rewrite !app_assoc_string.
  change (":" +:+ ?x) with (String ":" x).
  destruct (JSON_stringify env (VObject (spec_stylesProps (props o)))) as [text|];
    destruct (enableBooleanVariablesCaching (performance o));
    try destruct (JSON_stringify env (field "variables" (props o)));
    cbn [default from_option id spec_serialized]; reflexivity.
Qed.

Lemma length_app_string (a b : string) :
  String.length (a +:+ b) = (String.length a + String.length b)%nat.
Proof.
  induction a as [|x a IH]; [done|].
  change (S (String.length (a +:+ b)) = S (String.length a + String.length b)).
  by rewrite IH.
Qed.

(** A common suffix can be cancelled. *)
Lemma app_inj_suffix (x y t : string) : x +:+ t = y +:+ t → x = y.
Proof.
  revert y. induction x as [|c x IH]; intros [|d y] H; [done| | |].
  - apply (f_equal String.length) in H.
    change ("" +:+ t) with t in H. rewrite length_app_string in H. cbn in H. lia.
  - apply (f_equal String.length) in H.
    change ("" +:+ t) with t in H. rewrite length_app_string in H. cbn in H. lia.
  - change (String c (x +:+ t) = String d (y +:+ t)) in H.
    injection H as -> H. f_equal. by apply IH.
Qed.

(** Two keys that are equal do not differ in exactly one of the parts and
    the name of the slot. *)
Lemma key_separates parts parts' s s' i :
  spec_slotCacheKey parts s = spec_slotCacheKey parts' s' →
  (∀ j, j ≠ i → key_segments parts s !! j = key_segments parts' s' !! j) →
  key_segments parts s !! i = key_segments parts' s' !! i.
Proof.
  destruct parts as [n p v r d], parts' as [n' p' v' r' d'].
  unfold spec_slotCacheKey, key_segments.
  cbn [part_names part_props part_variables part_rtl part_disableAnimations].
  intros Hkey Hrest.
  destruct i as [|[|[|[|[|[|i]]]]]]; [| | | | | |done].
  - pose proof (Hrest 1%nat ltac:(done)) as [= <-].
    pose proof (Hrest 2%nat ltac:(done)) as [= <-].
    pose proof (Hrest 3%nat ltac:(done)) as [= <-].
    pose proof (Hrest 4%nat ltac:(done)) as [= <-].
    pose proof (Hrest 5%nat ltac:(done)) as [= <-].
    cbn. f_equal. by apply app_inj_suffix in Hkey.
  - pose proof (Hrest 0%nat ltac:(done)) as [= <-].
    pose proof (Hrest 2%nat ltac:(done)) as [= <-].
    pose proof (Hrest 3%nat ltac:(done)) as [= <-].
    pose proof (Hrest 4%nat ltac:(done)) as [= <-].
    pose proof (Hrest 5%nat ltac:(done)) as [= <-].
    apply (inj (String.app n)) in Hkey. injection Hkey as Hkey.
    cbn. f_equal. by apply app_inj_suffix in Hkey.
  - pose proof (Hrest 0%nat ltac:(done)) as [= <-].
    pose proof (Hrest 1%nat ltac:(done)) as [= <-].
    pose proof (Hrest 3%nat ltac:(done)) as [= <-].
    pose proof (Hrest 4%nat ltac:(done)) as [= <-].
    pose proof (Hrest 5%nat ltac:(done)) as [= <-].
    apply (inj (String.app n)) in Hkey. injection Hkey as Hkey.
    apply (inj (String.app p)) in Hkey. injection Hkey as Hkey.
    cbn. f_equal. by apply app_inj_suffix in Hkey.
  - pose proof (Hrest 0%nat ltac:(done)) as [= <-].
    pose proof (Hrest 1%nat ltac:(done)) as [= <-].
    pose proof (Hrest 2%nat ltac:(done)) as [= <-].
    pose proof (Hrest 4%nat ltac:(done)) as [= <-].
    pose proof (Hrest 5%nat ltac:(done)) as [= <-].
    apply (inj (String.app n)) in Hkey. injection Hkey as Hkey.
    apply (inj (String.app p)) in Hkey. injection Hkey as Hkey.
    apply (inj (String.app v)) in Hkey. injection Hkey as Hkey.
    cbn. f_equal. by apply app_inj_suffix in Hkey.
  - pose proof (Hrest 0%nat ltac:(done)) as [= <-].
    pose proof (Hrest 1%nat ltac:(done)) as [= <-].
    pose proof (Hrest 2%nat ltac:(done)) as [= <-].
    pose proof (Hrest 3%nat ltac:(done)) as [= <-].
    pose proof (Hrest 5%nat ltac:(done)) as [= <-].
    apply (inj (String.app n)) in Hkey. injection Hkey as Hkey.
    apply (inj (String.app p)) in Hkey. injection Hkey as Hkey.
    apply (inj (String.app v)) in Hkey. injection Hkey as Hkey.
    apply (inj (String.app r)) in Hkey.
    cbn. f_equal. by apply app_inj_suffix in Hkey.
  - pose proof (Hrest 0%nat ltac:(done)) as [= <-].
    pose proof (Hrest 1%nat ltac:(done)) as [= <-].
    pose proof (Hrest 2%nat ltac:(done)) as [= <-].
    pose proof (Hrest 3%nat ltac:(done)) as [= <-].
    pose proof (Hrest 4%nat ltac:(done)) as [= <-].
    apply (inj (String.app n)) in Hkey. injection Hkey as Hkey.
    apply (inj (String.app p)) in Hkey. injection Hkey as Hkey.
    apply (inj (String.app v)) in Hkey. injection Hkey as Hkey.
    apply (inj (String.app r)) in Hkey. apply (inj (String.app d)) in Hkey.
    cbn. by f_equal.
Qed.

(** C4.  When caching is enabled the key of a slot is made of the joined
    display names, the serialization of the props other than [className],
    [styles], [design] and [variables], the serialization of the variables
    when the boolean-variables optimisation is on and the empty string
    otherwise, the rtl flag and the disable-animations flag, followed by the
    name of the slot.  Each of them reaches the key: two calls with caching
    enabled whose keys are equal do not differ in exactly one of these parts
    and the slot name.  When caching is disabled the key of the component and
    its two serialized parts are empty, and the key of a slot is its name. *)
Theorem cache_key_parts env o :
  (caching o = true →
   ∀ s, slotCacheKey env o s = spec_slotCacheKey (spec_key_parts env o) s)
  ∧ (∀ o' s s' i,
       caching o = true → caching o' = true →
       slotCacheKey env o s = slotCacheKey env o' s' →
       (∀ j, j ≠ i →
             key_segments (spec_key_parts env o) s !! j
             = key_segments (spec_key_parts env o') s' !! j) →
       key_segments (spec_key_parts env o) s !! i
       = key_segments (spec_key_parts env o') s' !! i)
  ∧ (caching o = false →
     propsCacheKey env o = "" ∧ variablesCacheKey env o = ""
     ∧ componentCacheKey env o = "" ∧ ∀ s, slotCacheKey env o s = s).
Proof.
  split; [intros Hc s; by apply slotCacheKey_spec|]. split.
  - intros o' s s' i Hc Hc' Hkey Hrest.
    rewrite (slotCacheKey_spec env o s Hc), (slotCacheKey_spec env o' s' Hc') in Hkey.
    by apply key_separates.
  - unfold caching, slotCacheKey, propsCacheKey, variablesCacheKey, componentCacheKey.
    by intros ->.
Qed.

Lemma cache_key_parts_witness :
  slotCacheKey (referenceEnv true false)
    (buttonOptions buttonTheme (flags true true)
       [("className", VString "custom"); ("size", VNumber 3);
        ("variables", VObject [("primary", VBool true)])] false) "root"
  = "Button:{" +:+ quote "size" +:+ ":3}:{" +:+ quote "primary" +:+ ":true}:falsefalseroot"
  ∧ slotCacheKey (referenceEnv true false)
      (buttonOptions buttonTheme (flags true false) [("size", VNumber 3)] false) "root"
    ≠ slotCacheKey (referenceEnv true false)
        (buttonOptions buttonTheme (flags true false) [("size", VNumber 4)] false) "root".
Proof.
  split.
  - rewrite (proj1 (cache_key_parts (referenceEnv true false)
                      (buttonOptions buttonTheme (flags true true)
                         [("className", VString "custom"); ("size", VNumber 3);
                          ("variables", VObject [("primary", VBool true)])] false))
               eq_refl "root").
    reflexivity.
  - intros Hkey.
    pose proof (proj1 (proj2 (cache_key_parts (referenceEnv true false)
                  (buttonOptions buttonTheme (flags true false) [("size", VNumber 3)] false)))
                  (buttonOptions buttonTheme (flags true false) [("size", VNumber 4)] false)
                  "root" "root" 1%nat eq_refl eq_refl Hkey) as Hprops.
    assert (∀ j, j ≠ 1%nat →
              key_segments
                (spec_key_parts (referenceEnv true false)
                   (buttonOptions buttonTheme (flags true false) [("size", VNumber 3)] false))
                "root" !! j
              = key_segments
                  (spec_key_parts (referenceEnv true false)
                     (buttonOptions buttonTheme (flags true false) [("size", VNumber 4)] false))
                  "root" !! j) as Hrest.
    { intros [|[|j]] Hj; done. }
    specialize (Hprops Hrest). vm_compute in Hprops. discriminate Hprops.
Defined.

Example cache_key_example :
  slotCacheKey (referenceEnv true false)
    (buttonOptions buttonTheme (flags true false) [("className", VString "custom")] false)
    "root"
  = "Button:{}::falsefalseroot".
Proof. reflexivity. Qed.


(** ** A theme without styles for the component *)

Lemma omap_none {A B} (f : A → option B) (l : list A) :
  (∀ x, x ∈ l → f x = None) → omap f l = [].
Proof.
  induction l as [|x l IH]; [done|]. intros H. cbn.
  rewrite (H x) by left. apply IH. intros y Hy. apply H. by right.
Qed.

(** C9.  When the theme declares a style set for none of the display names,
    the style set of the theme is replaced by one whose only slot is [root]
    and whose style function returns an empty object, with one display name
    and with several.  [resolveStyles] then throws only if the check of the
    performance flags does; without inline overrides the accessors are those
    of that style set, and reading the style of [root] in the new call returns
    a new empty object. *)
Theorem missing_styles_default env o rv st :
  (∀ name, name ∈ allDisplayNames o → componentStyles (theme o) !! name = None) →
  themeStyles env o = defaultStyles
  ∧ dom defaultStyles = ({["root"]} : gset string)
  ∧ (∀ param, ∃ fn, defaultStyles !! "root" = Some fn ∧ fn param = RetObject [])
  ∧ (∀ e, resolveStyles env o st = Thrown e → configurationCheck env (performance o) = Some e)
  ∧ (noInlineStylesOverrides (props o) = true →
     mergedStyles env o = defaultStyles
     ∧ ∀ st0 fuel,
         resolveStyles env o st = Returned () st0 →
         style_truthy (style_hit env o st0 "root") = false →
         ∃ l st',
           styles_get env o rv (S (S (S fuel))) "root" st0 = Returned (SObject l) st'
           ∧ heap st' !! l = Some []).
Proof.
  intros Hnone.
  assert (themeStyles env o = defaultStyles) as Htheme.
  { unfold themeStyles. destruct (allDisplayNames o) as [|name [|name' names]] eqn:Hnames.
    - done.
    - rewrite Hnone by left. done.
    - rewrite omap_none; [done|]. intros x Hx. by apply Hnone. }
  split; [done|]. split; [apply dom_singleton_L|]. split; [|split].
  - intros param. eexists. split; [apply lookup_singleton_eq|done].
  - intros e. unfold resolveStyles.
    destruct (configurationCheck env (performance o)) as [e'|].
    + unfold throw. congruence.
    + unfold when. destruct (caching o); by cbn.
  - intros Hinline.
    assert (mergedStyles env o = defaultStyles) as Hmerged.
    { unfold mergedStyles. by rewrite Hinline. }
    split; [done|]. intros st0 fuel Hrun Hhit.
    assert (resolvedStyles st0 = ∅) as Hfresh.
    { unfold resolveStyles in Hrun.
      destruct (configurationCheck env (performance o)); [done|].
      unfold when, bind, modify, ret in Hrun.
      destruct (caching o); injection Hrun as <-; done. }
    destruct (styles_get_compute env o rv fuel "root" (λ _, RetObject []) st0)
      as (st' & Hget & _ & _ & _ & _ & _ & Hheap & _).
    + rewrite Hmerged. apply lookup_singleton_eq.
    + rewrite Hmerged. by apply lookup_singleton_ne.
    + done.
    + unfold style_memo. by rewrite Hfresh, lookup_empty.
    + by right.
    + exists (allocated st0), st'. split; [done|].
      rewrite Hheap. cbn. rewrite lookup_insert_eq. by destruct (debugging env).
Qed.

Lemma missing_styles_default_witness :
  themeStyles (referenceEnv false false) (buttonOptions emptyTheme (flags false false) [] false)
  = defaultStyles.
Proof.
  refine (proj1 (missing_styles_default (referenceEnv false false)
                   (buttonOptions emptyTheme (flags false false) [] false)
                   VUndefined emptyState _)).
  intros name _. reflexivity.
Defined.


(** ** The debug payload *)

Lemma field_omit k ks fields :
  field k (omit ks fields) = if decide (k ∈ ks) then VUndefined else field k fields.
Proof.
  unfold omit. induction fields as [|[k' v] fields IH].
  { cbn. by case_decide. }
  rewrite filter_cons. cbn [fst field].
  destruct (decide (k' ∉ ks)) as [Hk'|Hk']; cbn [field]; rewrite IH;
    destruct (String.eqb k k') eqn:Hk; try done;
    apply String.eqb_eq in Hk as ->.
  - by rewrite decide_False.
  - repeat case_decide; try done; by destruct Hk'.
Qed.

(** C8.  In a build that is not a production build, with debugging enabled,
    when the style function of a slot is invoked and returns an object, the
    value of its [_debug] property is stored in [resolvedStylesDebug] under
    the slot's name and the property is deleted from the object.  The getter
    memoises the object first and deletes afterwards, but it is one object:
    what the getter returns, what the data property of the call and the
    cache of the theme hold, and what every later read returns is the object
    without the property, its other properties unchanged. *)
Theorem debug_payload_moved env o rv fuel s fn fields st :
  production env = false →
  isDebugEnabled env = true →
  mergedStyles env o !! s = Some fn →
  memo_is_data env o s →
  fn (styleParam o rv) = RetObject fields →
  style_truthy (style_hit env o st s) = false →
  style_truthy (style_memo st s) = false →
  ∃ l st',
    styles_get env o rv (S (S (S fuel))) s st = Returned (SObject l) st'
    ∧ resolvedStylesDebug st' !! s = Some (field "_debug" fields)
    ∧ heap st' !! l = Some (omit ["_debug"] fields)
    ∧ field "_debug" (omit ["_debug"] fields) = VUndefined
    ∧ (∀ k, k ≠ "_debug" → field k (omit ["_debug"] fields) = field k fields)
    ∧ resolvedStyles st' !! lazyEvaluationKey s = Some (SObject l)
    ∧ (caching o = true →
       cached (stylesCache st') (themeKey o) (slotCacheKey env o s) = Some (SObject l))
    ∧ ∀ fuel', styles_get env o rv (S (S fuel')) s st' = Returned (SObject l) st'.
Proof.
  intros Hprod Hdebug Hslot Hdata Hfn Hhit Hmemo.
  assert (debugging env = true) as Hdbg by (unfold debugging; by rewrite Hprod, Hdebug).
  destruct (styles_get_compute env o rv fuel s fn st Hslot Hdata Hhit Hmemo)
    as (st' & Hget & _ & Hrs & Hsc & _ & _ & Hheap & Hdebugmap & _).
  { right. unfold style_result. by rewrite Hfn. }
  unfold style_result in *. rewrite Hfn, Hdbg in *.
  exists (allocated st), st'.
  assert (resolvedStyles st' !! lazyEvaluationKey s = Some (SObject (allocated st))) as Hmemo'.
  { rewrite Hrs. apply lookup_insert_eq. }
  assert (caching o = true →
          cached (stylesCache st') (themeKey o) (slotCacheKey env o s)
          = Some (SObject (allocated st))) as Hcached.
  { intros Hc. rewrite Hsc, Hc. apply cached_cache_set_eq. }
  repeat split; try done.
  - rewrite Hdebugmap. apply lookup_insert_eq.
  - rewrite Hheap. apply lookup_insert_eq.
  - rewrite field_omit. by rewrite decide_True by (by apply list_elem_of_singleton).
  - intros k Hk. rewrite field_omit.
    by rewrite decide_False by (by intros ?%list_elem_of_singleton).
  - intros fuel'. destruct (caching o) eqn:Hc.
    + eapply styles_get_cache_hit; [done|done|by apply Hcached|done].
    + eapply styles_get_memo_hit; [done|done| |done|done].
      unfold style_hit. by rewrite Hc.
Qed.

Lemma debug_payload_moved_witness :
  ∃ l st',
    styles_get (referenceEnv false true) (buttonOptions buttonTheme (flags true false) [] false)
      VUndefined 3 "root" emptyState = Returned (SObject l) st'
    ∧ resolvedStylesDebug st' !! "root" = Some (VString "Button.root")
    ∧ heap st' !! l = Some [("color", VString "red")].
Proof.
  destruct (debug_payload_moved (referenceEnv false true)
              (buttonOptions buttonTheme (flags true false) [] false)
              VUndefined 0 "root"
              (λ _, RetObject [("color", VString "red"); ("_debug", VString "Button.root")])
              [("color", VString "red"); ("_debug", VString "Button.root")] emptyState)
    as (l & st' & Hget & Hdebug & Hheap & _); try reflexivity.
  exists l, st'. repeat split; assumption.
Defined.


(** ** A slot without a style object *)

(** *** The composition of class names *)

Lemma join_nonempty x segs : x ≠ "" → join " " (x :: segs) ≠ "".
Proof. intros Hx. unfold join. cbn. destruct segs; [done|]. by destruct x. Qed.

Lemma segments_nonempty args x : x ∈ segments args → x ≠ "".
Proof.
  unfold segments. intros (a & _ & Ha)%list_elem_of_omap.
  destruct a as [s|]; [|done]. cbn in Ha.
  destruct (String.eqb s "") eqn:He; [done|]. cbn in Ha. injection Ha as ->.
  by apply String.eqb_neq.
Qed.

Lemma segments_cons a args :
  segments (a :: args)
  = match a with
    | Some s => if String.eqb s "" then segments args else s :: segments args
    | None => segments args
    end.
Proof.
  unfold segments. destruct a as [s|]; [|done]. cbn.
  by destruct (String.eqb s "").
Qed.

(** [cx] is the composition of the specification. *)
Lemma cx_spec args : cx args = spec_root_class args.
Proof.
  unfold cx. fold (segments args).
  induction args as [|a args IH]; [done|].
  rewrite segments_cons. destruct a as [s|]; [|done].
  cbn [spec_root_class]. destruct (String.eqb s "") eqn:Hs; [done|].
  rewrite <- IH. destruct (segments args) as [|x segs] eqn:Hsegs; [done|].
  pose proof (join_nonempty x segs) as Hne.
  destruct (join " " (x :: segs)) eqn:Hj.
  - destruct Hne; [|done]. apply (segments_nonempty args). rewrite Hsegs. left.
  - change (join " " (s :: x :: segs)) with (s +:+ " " +:+ join " " (x :: segs)).
    by rewrite Hj.
Qed.

Lemma caller_className_kept p cn a g :
  caller_className p cn →
  cx [a; g; as_className (field "className" p)] = cx [a; g; cn].
Proof.
  unfold caller_className. destruct cn as [s|]; [by intros ->|].
  intros Hf.
  assert ((if class_truthy (as_className (field "className" p))
           then as_className (field "className" p) else None) = None) as Hdrop.
  { destruct (field "className" p) as [| |b|n|s|id|fields]; try done.
    cbn in *. by rewrite Hf. }
  unfold cx. cbn. rewrite Hdrop. done.
Qed.

Lemma cx_skips_undefined a b : cx [a; None; b] = cx [a; b].
Proof. unfold cx. cbn. by destruct (class_truthy a). Qed.

(** C10, corrected.  If reading the style of a slot yields a falsy value,
    then reading the class name of that slot returns without calling the
    renderer and without writing to the cache of class names or to the data
    properties of [classes].  What it returns is the class that is stored for
    the slot, by a write to the accessor or by another call, composed with the
    class names of the call for [root].  When no class is stored, the class
    name is [undefined] for a slot other than [root], and for [root] it is
    made of the component's class name and the caller's [className] alone. *)
Theorem falsy_style_renders_nothing env o rv fuel s fn st v st1 :
  mergedStyles env o !! s = Some fn →
  memo_is_data env o s →
  styles_get env o rv (S fuel) s st = Returned v st1 →
  style_truthy v = false →
  ∃ r st',
    classes_get env o rv (S (S fuel)) s st = Returned r st'
    ∧ classes_untouched st st'
    ∧ r = composed o s (stored_class env o st s)
    ∧ (stored_class env o st s = None →
       (s ≠ "root" → r = None)
       ∧ (s = "root" →
          ∀ cn, caller_className (props o) cn →
                r = Some (spec_root_class [className o; cn]))).
Proof.
  intros Hslot Hdata Hstyle Hv.
  assert (∀ r, r = composed o s (stored_class env o st s) →
            stored_class env o st s = None →
            (s ≠ "root" → r = None)
            ∧ (s = "root" →
               ∀ cn, caller_className (props o) cn →
                     r = Some (spec_root_class [className o; cn]))) as Hnone.
  { intros r -> ->. unfold composed. split.
    - intros Hne. apply String.eqb_neq in Hne. by rewrite Hne.
    - intros -> cn Hcn. cbn [String.eqb Ascii.eqb Bool.eqb].
      by rewrite (caller_className_kept _ cn), cx_skips_undefined, cx_spec. }
  unfold stored_class in *.
  destruct (class_hit env o st s) as [c|] eqn:Hhit.
  { rewrite (classes_get_cache_hit env o rv _ _ _ _ _ Hslot Hhit).
    destruct (countCacheHit_recorder o s st) as (r & Hcount).
    rewrite (bind_returned _ _ _ _ _ Hcount). cbn [ret].
    eexists _, _. split; [done|]. split; [by norm|]. split; [done|done]. }
  destruct (class_truthy (class_memo st s)) eqn:Hmemo.
  { unfold class_memo in Hmemo |- *.
    destruct (classes st !! lazyEvaluationKey s) as [c|] eqn:Hc; [|done].
    rewrite (classes_get_memo_hit env o rv _ _ _ _ _ Hslot Hdata Hhit Hc Hmemo).
    eexists _, _. split; [done|]. split; [done|]. split; [done|].
    cbn [default from_option id]. intros ->. done. }
  destruct (classes_get_compute env o rv _ _ _ _ _ _ Hslot Hdata Hhit Hmemo Hstyle)
    as (st' & Hget & Htrace & Hclasses & Hcache & _).
  rewrite Hv in *. cbn [andb] in Hcache.
  destruct (styles_get_classes env o rv _ _ _ _ _ Hstyle) as (Hcl1 & Hcc1 & Htr1).
  assert (class_memo st1 s = class_memo st s) as Hsame.
  { unfold class_memo. by rewrite Hcl1. }
  rewrite Hsame in Hget.
  eexists _, st'. split; [done|]. split.
  - repeat split; [congruence..|]. intros s'. by rewrite Htrace.
  - split; [done|]. by apply Hnone.
Qed.

Lemma falsy_style_renders_nothing_witness :
  ∃ st',
    classes_get (referenceEnv true false)
      (buttonOptions hollowTheme (flags true false) [("className", VString "custom")] false)
      VUndefined 4 "root" emptyState
    = Returned (Some "ui-button custom") st'
    ∧ classes_untouched emptyState st'.
Proof.
  destruct (falsy_style_renders_nothing (referenceEnv true false)
              (buttonOptions hollowTheme (flags true false)
                 [("className", VString "custom")] false)
              VUndefined 2 "root" (λ _, RetNull) emptyState SNull
              (with_stylesCache
                 {[3%nat := {["Button:{}::falsefalseroot" := SNull]}]}
                 (with_resolvedStyles {["root__return" := SNull]}
                    (with_trace [StyleFunctionCalled "root"] emptyState))))
    as (r & st' & Hget & Hsame & _ & Hr);
    [reflexivity|reflexivity|vm_compute; reflexivity|reflexivity|].
  exists st'. split; [|done].
  rewrite Hget. f_equal.
  exact (proj2 (Hr eq_refl) eq_refl (Some "custom") eq_refl).
Defined.

(** The claim as it was stated fails when a class is stored for the slot:
    after a class name is written to the accessor of [hidden], whose style is
    [undefined], the read of the class name returns that class, not
    [undefined], and the renderer is not called. *)
Lemma stored_class_returned_for_falsy_style :
  ∃ st1 st2 st',
    classes_put (referenceEnv true false)
      (buttonOptions buttonTheme (flags false false) [] false) 2 "hidden" (Some "x") emptyState
    = Returned () st1
    ∧ styles_get (referenceEnv true false)
        (buttonOptions buttonTheme (flags false false) [] false) VUndefined 3 "hidden" st1
      = Returned SUndefined st2
    ∧ classes_get (referenceEnv true false)
        (buttonOptions buttonTheme (flags false false) [] false) VUndefined 4 "hidden" st1
      = Returned (Some "x") st'
    ∧ calls (RenderRuleCalled "hidden") (trace st') = 0%nat.
Proof.
  eexists _, _, _. split; [reflexivity|].
  split; [vm_compute; reflexivity|]. split; [vm_compute; reflexivity|].
  vm_compute. reflexivity.
Qed.

(** ** The class name of the root slot *)

Lemma tidy_from_append b x t :
  x ≠ EmptyString →
  tidy_from b x = true →
  tidy_from true t = true →
  tidy_from b (x +:+ " " +:+ t) = true.
Proof.
  revert b. induction x as [|c x IH]; intros b Hx Hb Ht; [done|].
  change (String c x +:+ " " +:+ t) with (String c (x +:+ " " +:+ t)).
  cbn [tidy_from] in *. destruct (is_space c).
  - destruct b; [done|]. cbn [negb andb] in *.
    destruct x as [|c' x]; [done|]. by apply IH.
  - destruct x as [|c' x]; [|by apply IH].
    change ("" +:+ " " +:+ t) with (String " " t).
    cbn [tidy_from is_space]. by rewrite Ht.
Qed.

Lemma join_tidy (segs : list string) :
  segs ≠ [] →
  Forall (λ s, s ≠ EmptyString ∧ tidy_from true s = true) segs →
  join " " segs ≠ EmptyString ∧ tidy_from true (join " " segs) = true.
Proof.
  induction segs as [|x segs IH]; [done|]. intros _ Hall.
  apply Forall_cons in Hall as [[Hx Hxt] Hall].
  destruct segs as [|y segs]; [done|].
  destruct IH as [Hne Ht]; [done|done|].
  change (join " " (x :: y :: segs)) with (x +:+ " " +:+ join " " (y :: segs)).
  split; [by destruct x|]. by apply tidy_from_append.
Qed.

Lemma tidy_nonempty s : s ≠ EmptyString → tidy s = true → tidy_from true s = true.
Proof. intros Hs. unfold tidy. by destruct s. Qed.

(** Tidy arguments give a tidy class name. *)
Lemma cx_tidy args :
  (∀ s, Some s ∈ args → tidy s = true) → tidy (cx args) = true.
Proof.
  intros Hall. unfold cx. fold (segments args).
  destruct (segments args) as [|x segs] eqn:Hsegs; [done|].
  destruct (join_tidy (x :: segs)) as [_ H]; [done| |unfold tidy; by rewrite H, orb_true_r].
  rewrite <- Hsegs. clear Hsegs. apply Forall_forall. intros s Hs.
  unfold segments in Hs. apply list_elem_of_omap in Hs as (a & Ha & Hs).
  destruct a as [s'|]; [|done]. cbn [class_truthy] in Hs.
  destruct (String.eqb s' "") eqn:He; [done|]. cbn in Hs. injection Hs as ->.
  apply String.eqb_neq in He. split; [done|]. apply tidy_nonempty; [done|]. by apply Hall.
Qed.

Example cx_example :
  cx [Some "ui-button"; Some "gen-123"; Some "custom"] = "ui-button gen-123 custom"
  ∧ cx [None; Some "gen-123"; Some "custom"] = "gen-123 custom"
  ∧ cx [Some "ui-button"; Some "gen-123"; None] = "ui-button gen-123"
  ∧ cx [Some "ui-button"; Some ""; Some "custom"] = "ui-button custom".
Proof. repeat split. Qed.

Lemma tidy_from_append_inv b x t :
  x ≠ EmptyString →
  tidy_from b (x +:+ " " +:+ t) = true →
  tidy_from b x = true ∧ tidy_from true t = true.
Proof.
  revert b. induction x as [|c x IH]; intros b Hx H; [done|].
  change (String c x +:+ " " +:+ t) with (String c (x +:+ " " +:+ t)) in H.
  cbn [tidy_from] in *. destruct (is_space c).
  - apply andb_true_iff in H as [Hb H]. rewrite Hb. cbn [andb].
    destruct x as [|c' x].
    + change ("" +:+ " " +:+ t) with (String " " t) in H. cbn [tidy_from is_space] in H.
      done.
    + by apply IH.
  - destruct x as [|c' x]; [|by apply IH].
    change ("" +:+ " " +:+ t) with (String " " t) in H.
    cbn [tidy_from is_space] in H. by split.
Qed.

Lemma join_tidy_inv (segs : list string) :
  Forall (λ s, s ≠ EmptyString) segs →
  tidy_from true (join " " segs) = true →
  Forall (λ s, tidy_from true s = true) segs.
Proof.
  induction segs as [|x segs IH]; [done|]. intros Hall H.
  apply Forall_cons in Hall as [Hx Hall].
  destruct segs as [|y segs]; [by apply Forall_cons|].
  change (join " " (x :: y :: segs)) with (x +:+ " " +:+ join " " (y :: segs)) in H.
  apply tidy_from_append_inv in H as [H1 H2]; [|done].
  apply Forall_cons. split; [done|]. by apply IH.
Qed.

(** The composition has no leading, trailing or doubled space exactly when
    none of its segments has one. *)
Lemma spec_root_class_tidy args :
  tidy (spec_root_class args) = true ↔ ∀ s, Some s ∈ args → tidy s = true.
Proof.
  rewrite <- cx_spec. split; [|apply cx_tidy].
  intros H s Hs. destruct (decide (s = "")) as [->|Hne]; [done|].
  assert (s ∈ segments args) as Hin.
  { unfold segments. apply list_elem_of_omap. exists (Some s). split; [done|].
    cbn. apply String.eqb_neq in Hne. by rewrite Hne. }
  unfold cx in H. fold (segments args) in H.
  assert (Forall (λ s, tidy_from true s = true) (segments args)) as Hall.
  { apply join_tidy_inv.
    - apply Forall_forall. intros x Hx. by apply (segments_nonempty args).
    - destruct (segments args) as [|x segs] eqn:Hsegs; [by apply elem_of_nil in Hin|].
      unfold tidy in H. apply orb_true_iff in H as [H|H]; [|done].
      apply String.eqb_eq in H. exfalso. apply (join_nonempty x segs); [|done].
      apply (segments_nonempty args). rewrite Hsegs. left. }
  rewrite Forall_forall in Hall. unfold tidy. by rewrite (Hall s Hin), orb_true_r.
Qed.

Ltac inv_bind H :=
  let a := fresh "a" in
  let st := fresh "st" in
  let H1 := fresh "Hrun" in
  apply bind_inv in H as (a & st & H1 & H).

(** C7, corrected.  Every read of the class name of [root] that returns
    gives the component's class name, the cached or generated class and the
    caller's [className], those that are absent or empty left out, each
    separated from the next by one space: on a hit the second segment is the
    entry of the cache, otherwise it is what the data property of the call
    holds after the read.  The segments are not trimmed, so the result is free
    of leading, trailing and doubled spaces exactly when every segment is.
    With enough fuel the read returns, unless debugging is on and the style
    function gives no object. *)
Theorem root_class_composition env o rv fn cn :
  mergedStyles env o !! "root" = Some fn →
  caller_className (props o) cn →
  (∀ fuel st r st',
     classes_get env o rv fuel "root" st = Returned r st' →
     ∃ g,
       r = Some (spec_root_class [className o; g; cn])
       ∧ (∀ c, class_hit env o st "root" = Some c → g = Some c)
       ∧ (class_hit env o st "root" = None → memo_is_data env o "root" →
          g = class_memo st' "root")
       ∧ (tidy (spec_root_class [className o; g; cn]) = true
          ↔ ∀ s, Some s ∈ [className o; g; cn] → tidy s = true))
  ∧ (∀ fuel st,
       memo_is_data env o "root" →
       debugging env = false ∨ (∃ fields, fn (styleParam o rv) = RetObject fields) →
       ∃ r st', classes_get env o rv (S (S (S (S fuel)))) "root" st = Returned r st')
  ∧ spec_root_class [Some "ui-button"; Some "gen-123"; Some "custom"]
    = "ui-button gen-123 custom"
  ∧ spec_root_class [None; Some "gen-123"; Some "custom"] = "gen-123 custom"
  ∧ spec_root_class [Some "ui-button"; Some "gen-123"; None] = "ui-button gen-123"
  ∧ spec_root_class [Some "ui-button"; Some ""; Some "custom"] = "ui-button custom".
Proof.
  intros Hroot Hcn.
  split; [|split; [intros fuel st; by apply classes_get_returns|by repeat split]].
  intros fuel st r st' Hrun.
  assert (∀ g, r = composed o "root" g →
            (∀ c, class_hit env o st "root" = Some c → g = Some c) →
            (class_hit env o st "root" = None → memo_is_data env o "root" →
             g = class_memo st' "root") →
            ∃ g,
              r = Some (spec_root_class [className o; g; cn])
              ∧ (∀ c, class_hit env o st "root" = Some c → g = Some c)
              ∧ (class_hit env o st "root" = None → memo_is_data env o "root" →
                 g = class_memo st' "root")
              ∧ (tidy (spec_root_class [className o; g; cn]) = true
                 ↔ ∀ s, Some s ∈ [className o; g; cn] → tidy s = true)) as Hwrap.
  { intros g -> Hg1 Hg2. exists g. split; [|split; [done|split; [done|]]].
    - unfold composed. cbn [String.eqb Ascii.eqb Bool.eqb].
      by rewrite (caller_className_kept _ cn), cx_spec.
    - apply spec_root_class_tidy. }
  destruct fuel as [|fuel]; [done|].
  rewrite (classes_get_slot env o rv _ _ _ Hroot) in Hrun.
  unfold class_getter in Hrun. cbn [bind gets] in Hrun.
  change (if caching o
          then default None (cached (classesCache st) (themeKey o) (slotCacheKey env o "root"))
          else None) with (class_hit env o st "root") in Hrun.
  destruct (class_hit env o st "root") as [c|] eqn:Hhit.
  { inv_bind Hrun. injection Hrun as ? ?; subst r st'. apply (Hwrap (Some c)); [done| |done].
    by intros c' [= <-]. }
  inv_bind Hrun. destruct (class_truthy a).
  - inv_bind Hrun. injection Hrun as ? ?; subst r st'. apply (Hwrap a0); [done|done|].
    intros _ Hdata. destruct fuel as [|fuel]; [done|].
    rewrite (classes_get_data env o rv _ _ _ Hdata) in Hrun1.
    by injection Hrun1 as <- <-.
  - apply bind_inv in Hrun as (styleObj & st1 & Hstyle & Hrun).
    apply bind_inv in Hrun as (start & st2 & Hstart & Hrun).
    apply bind_inv in Hrun as (u & st3 & Hblock & Hrun).
    apply bind_inv in Hrun as (current & st4 & Hcurrent & Hrun).
    apply bind_inv in Hrun as (u' & st5 & Helapsed & Hrun).
    injection Hrun as ? ?; subst r st'.
    apply (Hwrap current); [done|done|].
    intros _ Hdata. destruct fuel as [|fuel]; [done|].
    rewrite (classes_get_data env o rv _ _ _ Hdata) in Hcurrent.
    injection Hcurrent as <- <-.
    destruct (addElapsed_clock env o _ start st3 (add_msRenderStylesTotal_hits))
      as (c & r' & Hel & _).
    rewrite Hel in Helapsed. injection Helapsed as _ <-. unfold class_memo. by norm.
Qed.

Lemma root_class_composition_witness :
  ∃ st',
    classes_get (referenceEnv true false)
      (buttonOptions buttonTheme (flags false false) [("className", VString "custom")] false)
      VUndefined 4 "root" emptyState
    = Returned (Some "ui-button gen-123 custom") st'
    ∧ tidy "ui-button gen-123 custom" = true.
Proof.
  destruct (root_class_composition (referenceEnv true false)
              (buttonOptions buttonTheme (flags false false)
                 [("className", VString "custom")] false)
              VUndefined
              (λ _, RetObject [("color", VString "red"); ("_debug", VString "Button.root")])
              (Some "custom") eq_refl eq_refl) as (Hread & Hreturns & _).
  destruct (Hreturns 0%nat emptyState eq_refl (or_introl eq_refl)) as (r & st' & Hget).
  destruct (Hread _ _ _ _ Hget) as (g & Hr & _ & Hmemo & Htidy).
  exists st'. rewrite Hget.
  assert (g = Some "gen-123") as ->.
  { rewrite (Hmemo eq_refl eq_refl). clear Hr Hmemo Htidy.
    vm_compute in Hget. by injection Hget as _ <-. }
  split; [by rewrite Hr|]. apply Htidy.
  intros s Hs. cbn [className buttonOptions] in Hs.
  repeat (apply elem_of_cons in Hs as [[= ->]|Hs]; [done|]).
  by apply elem_of_nil in Hs.
Defined.

(** The claim as it was stated fails for a caller's [className] that
    carries spaces of its own: the class name of [root] then has a doubled
    and a trailing space. *)
Lemma root_class_untrimmed :
  ∃ st',
    classes_get (referenceEnv true false)
      (buttonOptions buttonTheme (flags false false) [("className", VString " custom ")] false)
      VUndefined 4 "root" emptyState
    = Returned (Some "ui-button gen-123  custom ") st'
    ∧ tidy "ui-button gen-123  custom " = false.
Proof.
  match goal with |- ∃ st', ?run = _ ∧ _ => set (out := run) end.
  vm_compute in out. subst out.
  eexists. split; reflexivity.
Qed.

(** ** Reading back what was stored *)

(** C3.  Let two calls have caching enabled and share the theme and the
    cache key of a slot.  A style object written to the slot's accessor by
    the first call is what a read of the slot's style by the second call
    returns, whatever happened in between short of a write to that entry:
    reads of any slot by any call, new calls, writes to other entries.  The
    same holds for the object the first call's getter computes.  A class name
    written to the accessor or produced by the renderer, the empty string
    included, is likewise returned by a later read of the slot's class name,
    composed with the class names of the reading call when the slot is
    [root], and that read leaves the cache as it is. *)
Theorem stored_value_read_back env o o' rv rv' s fn fn' :
  caching o = true →
  caching o' = true →
  themeKey o' = themeKey o →
  slotCacheKey env o' s = slotCacheKey env o s →
  mergedStyles env o !! s = Some fn →
  memo_is_data env o s →
  mergedStyles env o' !! s = Some fn' →
  (∀ fuel l st,
     ∃ st1,
       styles_put env o (S (S fuel)) s (SObject l) st = Returned () st1
       ∧ ∀ fuel' st2,
           later env (themeKey o) (slotCacheKey env o s) st1 st2 →
           styles_get env o' rv' (S fuel') s st2 = Returned (SObject l) st2)
  ∧ (∀ fuel c st,
       ∃ st1,
         classes_put env o (S (S fuel)) s (Some c) st = Returned () st1
         ∧ ∀ fuel' st2,
             later env (themeKey o) (slotCacheKey env o s) st1 st2 →
             ∃ st3,
               classes_get env o' rv' (S fuel') s st2 = Returned (composed o' s (Some c)) st3
               ∧ classesCache st3 = classesCache st2)
  ∧ (∀ fuel fields st,
       fn (styleParam o rv) = RetObject fields →
       style_truthy (style_hit env o st s) = false →
       style_truthy (style_memo st s) = false →
       ∃ l st1,
         styles_get env o rv (S (S (S fuel))) s st = Returned (SObject l) st1
         ∧ ∀ fuel' st2,
             later env (themeKey o) (slotCacheKey env o s) st1 st2 →
             styles_get env o' rv' (S fuel') s st2 = Returned (SObject l) st2)
  ∧ (∀ fuel st v st0,
       class_hit env o st s = None →
       class_truthy (class_memo st s) = false →
       styles_get env o rv (S fuel) s st = Returned v st0 →
       style_truthy v = true →
       ∃ st1,
         classes_get env o rv (S (S fuel)) s st
         = Returned (composed o s (Some (rendered o st0 v))) st1
         ∧ ∀ fuel' st2,
             later env (themeKey o) (slotCacheKey env o s) st1 st2 →
             ∃ st3,
               classes_get env o' rv' (S fuel') s st2
               = Returned (composed o' s (Some (rendered o st0 v))) st3
               ∧ classesCache st3 = classesCache st2).
Proof.
  intros Hc Hc' Htheme Hkey Hslot Hdata Hslot'.
  assert (∀ v st2,
            cached (stylesCache st2) (themeKey o) (slotCacheKey env o s) = Some v →
            style_truthy v = true →
            ∀ fuel', styles_get env o' rv' (S fuel') s st2 = Returned v st2) as Hstyle.
  { intros v st2 Hv Ht fuel'. eapply styles_get_cache_hit; [done|done| |done].
    by rewrite Htheme, Hkey. }
  assert (∀ c st2,
            cached (classesCache st2) (themeKey o) (slotCacheKey env o s) = Some (Some c) →
            ∀ fuel', ∃ st3,
              classes_get env o' rv' (S fuel') s st2 = Returned (composed o' s (Some c)) st3
              ∧ classesCache st3 = classesCache st2) as Hclass.
  { intros c st2 Hv fuel'.
    rewrite (classes_get_cache_hit env o' rv' _ _ _ _ c Hslot').
    - destruct (countCacheHit_recorder o' s st2) as (r & Hcount).
      rewrite (bind_returned _ _ _ _ _ Hcount). cbn [ret]. eexists. split; [done|by norm].
    - unfold class_hit. by rewrite Hc', Htheme, Hkey, Hv. }
  split; [|split; [|split]].
  - intros fuel l st. eexists. split; [by eapply styles_put_slot|].
    intros fuel' st2 Hlater. apply Hstyle; [|done].
    apply (later_keeps _ _ _ _ _ Hlater); [|done]. rewrite Hc. norm.
    apply cached_cache_set_eq.
  - intros fuel c st. eexists. split; [by eapply classes_put_slot|].
    intros fuel' st2 Hlater. apply Hclass.
    apply (later_keeps _ _ _ _ _ Hlater). rewrite Hc. norm.
    apply cached_cache_set_eq.
  - intros fuel fields st Hfn Hhit Hmemo.
    destruct (styles_get_compute env o rv fuel s fn st Hslot Hdata Hhit Hmemo)
      as (st1 & Hget & _ & _ & Hcache & _).
    { right. unfold style_result. by rewrite Hfn. }
    unfold style_result in *. rewrite Hfn, Hc in *.
    exists (allocated st), st1. split; [done|].
    intros fuel' st2 Hlater. apply Hstyle; [|done].
    apply (later_keeps _ _ _ _ _ Hlater); [|done]. rewrite Hcache.
    apply cached_cache_set_eq.
  - intros fuel st v st0 Hhit Hmemo Hread Hv.
    destruct (classes_get_compute env o rv _ _ _ _ _ _ Hslot Hdata Hhit Hmemo Hread)
      as (st1 & Hget & _ & _ & Hcache & _).
    rewrite Hv, Hc in *. cbn [andb] in Hcache.
    exists st1. split; [done|].
    intros fuel' st2 Hlater. apply Hclass.
    apply (later_keeps _ _ _ _ _ Hlater). rewrite Hcache.
    apply cached_cache_set_eq.
Qed.

(** The slots of the example are well formed. *)
Lemma buttonOptions_well_formed env f p tel :
  noInlineStylesOverrides p = true →
  well_formed env (buttonOptions buttonTheme f p tel).
Proof.
  intros Hinline.
  assert (mergedStyles env (buttonOptions buttonTheme f p tel) = buttonStyles) as Hm.
  { unfold mergedStyles, themeStyles. cbn [props buttonOptions allDisplayNames theme].
    by rewrite Hinline. }
  intros s fn Hs. unfold memo_is_data. rewrite Hm in *. unfold buttonStyles in Hs.
  apply lookup_insert_Some in Hs as [[<- _]|[_ Hs]]; [reflexivity|].
  apply lookup_insert_Some in Hs as [[<- _]|[_ Hs]]; [reflexivity|].
  apply lookup_singleton_Some in Hs as [<- _]. reflexivity.
Qed.

Lemma stored_value_read_back_witness :
  ∃ st1 st2 st3,
    classes_put (referenceEnv true false) (buttonOptions buttonTheme (flags true false) [] false)
      2 "icon" (Some "") emptyState = Returned () st1
    ∧ classes_get (referenceEnv true false)
        (buttonOptions buttonTheme (flags true false) [] false) VUndefined 4 "root" st1
      = Returned (Some "ui-button gen-123") st2
    ∧ classes_get (referenceEnv true false)
        (buttonOptions buttonTheme (flags true false) [] false) VUndefined 1 "icon" st2
      = Returned (Some "") st3.
Proof.
  destruct (stored_value_read_back (referenceEnv true false)
              (buttonOptions buttonTheme (flags true false) [] false)
              (buttonOptions buttonTheme (flags true false) [] false)
              VUndefined VUndefined "icon"
              (λ _, RetObject [("width", VNumber 16)])
              (λ _, RetObject [("width", VNumber 16)])
              eq_refl eq_refl eq_refl eq_refl eq_refl eq_refl eq_refl)
    as (_ & Hclass & _).
  destruct (Hclass 0%nat "" emptyState) as (st1 & Hput & Hread).
  destruct (classes_get_returns (referenceEnv true false)
              (buttonOptions buttonTheme (flags true false) [] false) VUndefined 0 "root"
              (λ _, RetObject [("color", VString "red"); ("_debug", VString "Button.root")])
              st1 eq_refl eq_refl (or_introl eq_refl)) as (r & st2 & Hroot).
  destruct (Hread 0%nat st2) as (st3 & Hget & _).
  { eapply later_class_read; [|exact Hroot|apply later_now].
    by apply buttonOptions_well_formed. }
  exists st1, st2, st3. split; [done|]. split; [|done].
  rewrite Hroot. f_equal.
  injection Hput as <-. vm_compute in Hroot. by injection Hroot as <- _.
Defined.


(** ** How often the collaborators are invoked *)

(** A style function that gives an object is invoked once: the read that
    invokes it returns the object, and every later read of the call returns
    it without another invocation, with caching and without. *)
Lemma style_function_invoked_once env o rv fuel s fn fields st :
  mergedStyles env o !! s = Some fn →
  memo_is_data env o s →
  fn (styleParam o rv) = RetObject fields →
  style_truthy (style_hit env o st s) = false →
  style_truthy (style_memo st s) = false →
  ∃ v st1,
    styles_get env o rv (S (S (S fuel))) s st = Returned v st1
    ∧ calls (StyleFunctionCalled s) (trace st1) = S (calls (StyleFunctionCalled s) (trace st))
    ∧ ∀ fuel', styles_get env o rv (S (S fuel')) s st1 = Returned v st1.
Proof.
  intros Hslot Hdata Hfn Hhit Hmemo.
  destruct (styles_get_compute env o rv fuel s fn st Hslot Hdata Hhit Hmemo)
    as (st1 & Hget & Htrace & Hrs & Hcache & _).
  { right. unfold style_result. by rewrite Hfn. }
  unfold style_result in *. rewrite Hfn in *.
  eexists _, st1. split; [done|]. split; [rewrite Htrace; apply calls_same|].
  intros fuel'. destruct (caching o) eqn:Hc.
  - eapply styles_get_cache_hit; [done|done| |done]. rewrite Hcache.
    apply cached_cache_set_eq.
  - eapply styles_get_memo_hit; [done|done| | |done].
    + unfold style_hit. by rewrite Hc.
    + rewrite Hrs. apply lookup_insert_eq.
Qed.

(** The renderer is invoked once for a slot whose style is an object, when
    caching is enabled or the class it gives is not empty. *)
Lemma renderer_invoked_once env o rv fuel s fn st v st0 :
  mergedStyles env o !! s = Some fn →
  memo_is_data env o s →
  class_hit env o st s = None →
  class_truthy (class_memo st s) = false →
  styles_get env o rv (S fuel) s st = Returned v st0 →
  style_truthy v = true →
  caching o = true ∨ rendered o st0 v ≠ "" →
  ∃ r st1,
    classes_get env o rv (S (S fuel)) s st = Returned r st1
    ∧ calls (RenderRuleCalled s) (trace st1) = S (calls (RenderRuleCalled s) (trace st))
    ∧ ∀ fuel', ∃ st2,
        classes_get env o rv (S (S fuel')) s st1 = Returned r st2
        ∧ trace st2 = trace st1.
Proof.
  intros Hslot Hdata Hhit Hmemo Hread Hv Hkept.
  destruct (classes_get_compute env o rv _ _ _ _ _ _ Hslot Hdata Hhit Hmemo Hread)
    as (st1 & Hget & Htrace & Hclasses & Hcache & _).
  rewrite Hv in *. cbn [andb] in Hcache.
  destruct (styles_get_classes env o rv _ _ _ _ _ Hread) as (_ & _ & Htr0).
  eexists _, st1. split; [done|]. split; [rewrite Htrace, calls_same; by rewrite Htr0|].
  intros fuel'. destruct (caching o) eqn:Hc.
  - rewrite (classes_get_cache_hit env o rv _ _ _ _ (rendered o st0 v) Hslot).
    + destruct (countCacheHit_recorder o s st1) as (r & Hcount).
      rewrite (bind_returned _ _ _ _ _ Hcount). cbn [ret]. eexists. split; [done|by norm].
    + unfold class_hit. rewrite Hc, Hcache. by rewrite cached_cache_set_eq.
  - destruct Hkept as [?|Hne]; [done|]. exists st1. split; [|done].
    eapply classes_get_memo_hit; [done|done| | |].
    + unfold class_hit. by rewrite Hc.
    + rewrite Hclasses. apply lookup_insert_eq.
    + cbn. apply negb_true_iff. by apply String.eqb_neq.
Qed.

(** C1, at an input where the code departs from it.  Caching is disabled, the
    theme has no styles for the component, so the only slot is [root] with an
    empty style object, and the renderer gives the empty class to an empty
    object.  The class name of [root] is read twice in one call: the style
    function is invoked once, the renderer twice. *)
Theorem empty_class_rendered_again :
  ∃ st',
    (resolveStyles (referenceEnv true false) (buttonOptions emptyTheme (flags false false) [] false) ;;
     classes_get (referenceEnv true false) (buttonOptions emptyTheme (flags false false) [] false)
       VUndefined 4 "root" ;;
     classes_get (referenceEnv true false) (buttonOptions emptyTheme (flags false false) [] false)
       VUndefined 4 "root") emptyState
    = Returned (Some "ui-button") st'
    ∧ calls (StyleFunctionCalled "root") (trace st') = 1%nat
    ∧ calls (RenderRuleCalled "root") (trace st') = 2%nat.
Proof.
  match goal with |- ∃ st', ?run = _ ∧ _ => set (out := run) end.
  vm_compute in out. subst out.
  eexists. split; [reflexivity|]. split; vm_compute; reflexivity.
Qed.

(** The same two reads with caching enabled: the empty class is found in the
    cache of the theme and the renderer is invoked once. *)
Example empty_class_rendered_once_with_cache :
  ∃ st',
    (resolveStyles (referenceEnv true false) (buttonOptions emptyTheme (flags true false) [] false) ;;
     classes_get (referenceEnv true false) (buttonOptions emptyTheme (flags true false) [] false)
       VUndefined 4 "root" ;;
     classes_get (referenceEnv true false) (buttonOptions emptyTheme (flags true false) [] false)
       VUndefined 4 "root") emptyState
    = Returned (Some "ui-button") st'
    ∧ calls (RenderRuleCalled "root") (trace st') = 1%nat.
Proof.
  match goal with |- ∃ st', ?run = _ ∧ _ => set (out := run) end.
  vm_compute in out. subst out.
  eexists. split; [reflexivity|]. vm_compute; reflexivity.
Qed.

(** ** Counting cache hits *)

(** A hit in the cache of class names adds one to the counter of the kind of
    the slot in the entry of the primary display name, when a recorder is
    passed and has such an entry; the recorder's [enabled] flag is not read.
    The entries of other components are not changed. *)
Lemma cache_hit_counted env o rv fuel s fn st c :
  mergedStyles env o !! s = Some fn →
  class_hit env o st s = Some c →
  ∃ st',
    classes_get env o rv (S fuel) s st = Returned (composed o s (Some c)) st'
    ∧ enabled (recorder st') = enabled (recorder st)
    ∧ (∀ name, name ≠ primaryDisplayName o →
               tel_performance (recorder st') !! name = tel_performance (recorder st) !! name)
    ∧ cacheHits (recorder st') (primaryDisplayName o)
      = (if telemetry o
         then (λ h : Z * Z, if String.eqb s "root" then (h.1 + 1, h.2) else (h.1, h.2 + 1))
                <$> cacheHits (recorder st) (primaryDisplayName o)
         else cacheHits (recorder st) (primaryDisplayName o)).
Proof.
  intros Hslot Hhit. rewrite (classes_get_cache_hit env o rv _ _ _ _ _ Hslot Hhit).
  unfold bind, countCacheHit, cacheHits. destruct (telemetry o).
  - destruct (tel_performance (recorder st) !! primaryDisplayName o) as [stats|] eqn:Hstats.
    + eexists. split; [reflexivity|]. norm. split; [done|]. split.
      * intros name Hne. by rewrite lookup_insert_ne.
      * rewrite lookup_insert_eq. cbn. by destruct (String.eqb s "root").
    + eexists. split; [reflexivity|]. by rewrite Hstats.
  - eexists. split; [reflexivity|]. done.
Qed.

(** A read of a class name that is not a hit in the cache changes no
    cache-hit counter. *)
Lemma miss_keeps_counters env o rv fuel s fn st r st' :
  mergedStyles env o !! s = Some fn →
  memo_is_data env o s →
  class_hit env o st s = None →
  classes_get env o rv fuel s st = Returned r st' →
  counters_untouched st st'.
Proof.
  intros Hslot Hdata Hhit Hrun.
  destruct fuel as [|[|fuel]]; [done| |].
  { rewrite (classes_get_slot env o rv _ _ _ Hslot) in Hrun.
    unfold class_getter in Hrun. cbn [bind gets] in Hrun.
    change (if caching o
            then default None (cached (classesCache st) (themeKey o) (slotCacheKey env o s))
            else None) with (class_hit env o st s) in Hrun.
    by rewrite Hhit in Hrun. }
  destruct (class_truthy (class_memo st s)) eqn:Hmemo.
  { unfold class_memo in Hmemo.
    destruct (classes st !! lazyEvaluationKey s) as [c|] eqn:Hc; [|done].
    rewrite (classes_get_memo_hit env o rv _ _ _ _ _ Hslot Hdata Hhit Hc Hmemo) in Hrun.
    by injection Hrun as _ <-. }
  assert (∃ v st1, styles_get env o rv (S fuel) s st = Returned v st1) as (v & st1 & Hstyle).
  { rewrite (classes_get_slot env o rv _ _ _ Hslot) in Hrun.
    unfold class_getter in Hrun. cbn [bind gets] in Hrun.
    change (if caching o
            then default None (cached (classesCache st) (themeKey o) (slotCacheKey env o s))
            else None) with (class_hit env o st s) in Hrun.
    rewrite Hhit in Hrun.
    rewrite (bind_returned _ _ _ _ _ (classes_get_data env o rv fuel _ st Hdata)) in Hrun.
    change (default None (classes st !! lazyEvaluationKey s)) with (class_memo st s) in Hrun.
    rewrite Hmemo in Hrun. apply bind_inv in Hrun as (v & st1 & Hstyle & _). eauto. }
  destruct (classes_get_compute env o rv _ _ _ _ _ _ Hslot Hdata Hhit Hmemo Hstyle)
    as (st'' & Hget & _ & _ & _ & _ & _ & _ & _ & Hen & Hhits).
  rewrite Hget in Hrun. injection Hrun as _ <-.
  destruct (styles_get_frame env o rv _ _ _ _ _ Hstyle) as [_ [Hen1 Hhits1]].
  split; [congruence|]. intros name. by rewrite Hhits.
Qed.

(** C5, at an input where the code departs from it.  Caching is enabled and
    a recorder with an entry for the component is passed, switched off.  The
    class name of [root] is read twice: the second read is a hit in the cache
    and adds one to the counter of root hits although telemetry is
    disabled. *)
Theorem cache_hit_counted_while_disabled :
  ∃ st',
    (resolveStyles (referenceEnv true false) (buttonOptions buttonTheme (flags true false) [] true) ;;
     classes_get (referenceEnv true false) (buttonOptions buttonTheme (flags true false) [] true)
       VUndefined 4 "root" ;;
     classes_get (referenceEnv true false) (buttonOptions buttonTheme (flags true false) [] true)
       VUndefined 4 "root") (recordingState false)
    = Returned (Some "ui-button gen-123") st'
    ∧ enabled (recorder st') = false
    ∧ cacheHits (recorder (recordingState false)) "Button" = Some (0, 0)
    ∧ cacheHits (recorder st') "Button" = Some (1, 0).
Proof.
  match goal with |- ∃ st', ?run = _ ∧ _ => set (out := run) end.
  vm_compute in out. subst out.
  eexists. split; [reflexivity|]. repeat split; vm_compute; reflexivity.
Qed.


(** ** Relations that every accessor keeps *)

(** A reflexive and transitive relation on states that the primitive steps
    of the accessors keep is kept by every read and every write. *)
Section Frames.

Variable env : Env.
Variable o : ResolveStylesOptions.
Variable rv : value.
Variable R : State → State → Prop.

Hypothesis R_refl : ∀ st, R st st.
Hypothesis R_trans : ∀ st1 st2 st3, R st1 st2 → R st2 st3 → R st1 st3.

Hypothesis R_stylesCache : ∀ st entries key val,
  caching o = true →
  R st (with_stylesCache (cache_set (themeKey o) entries key val (stylesCache st)) st).
Hypothesis R_classesCache : ∀ st entries key val,
  caching o = true →
  R st (with_classesCache (cache_set (themeKey o) entries key val (classesCache st)) st).
Hypothesis R_resolvedStyles : ∀ st k v,
  R st (with_resolvedStyles (<[k := v]> (resolvedStyles st)) st).
Hypothesis R_classes : ∀ st k v,
  R st (with_classes (<[k := v]> (classes st)) st).
Hypothesis R_debug : ∀ st k v,
  debugging env = true →
  R st (with_resolvedStylesDebug (<[k := v]> (resolvedStylesDebug st)) st).
Hypothesis R_delete : ∀ st l,
  debugging env = true →
  R st (with_heap (alter (omit ["_debug"]) l (heap st)) (allocated st) st).
Hypothesis R_styleFunction : ∀ s fn, preserves R (callStyleFunction o rv s fn).
Hypothesis R_renderRule : ∀ s v, preserves R (callRenderRule o s v).
Hypothesis R_start : preserves R (telemetryPartStart env o).
Hypothesis R_elapsed : ∀ add start, preserves R (addElapsed env o add start).
Hypothesis R_count : ∀ s, preserves R (countCacheHit o s).

(** Case analysis on a flag that the hypotheses of the section mention. *)
Local Ltac flag b H :=
  let x := fresh "flag" in
  destruct (ex_intro (λ x, b = x) b eq_refl) as [x H];
  rewrite ?H; destruct x.

Local Ltac frame :=
  repeat first
    [ apply (preserves_bind _ R_trans); [|intros ?]
    | apply (preserves_ret _ R_refl)
    | apply (preserves_gets _ R_refl)
    | apply (preserves_throw _)
    | apply R_styleFunction
    | apply R_renderRule
    | apply R_start
    | apply R_elapsed
    | apply R_count
    | apply preserves_modify; intros ?;
      first [ by apply R_stylesCache | by apply R_classesCache
            | by apply R_resolvedStyles | by apply R_classes
            | by apply R_debug | by apply R_delete ] ].

Lemma styles_put_keeps fuel k v : preserves R (styles_put env o fuel k v).
Proof.
  revert k. induction fuel as [|fuel IH]; intros k; [done|].
  cbn [styles_put]. destruct (mergedStyles env o !! k); [|frame].
  unfold when. flag (caching o) Hc; frame; apply IH.
Qed.

Lemma classes_put_keeps fuel k v : preserves R (classes_put env o fuel k v).
Proof.
  revert k. induction fuel as [|fuel IH]; intros k; [done|].
  cbn [classes_put]. destruct (mergedStyles env o !! k); [|frame].
  unfold when. flag (caching o) Hc; frame; apply IH.
Qed.

Lemma get_debug_keeps v : preserves R (get_debug v).
Proof. destruct v; frame. Qed.

Lemma delete_debug_keeps v : debugging env = true → preserves R (delete_debug v).
Proof. intros Hd. destruct v; frame. Qed.

Lemma styles_get_keeps fuel k : preserves R (styles_get env o rv fuel k).
Proof.
  revert k. induction fuel as [|fuel IH]; intros k; [done|].
  cbn [styles_get]. destruct (mergedStyles env o !! k) as [fn|]; [|frame].
  unfold style_getter. fold (debugging env).
  flag (caching o) Hc; flag (debugging env) Hd; frame.
  all: destruct (style_truthy _); frame.
  all: try apply IH.
  all: destruct (style_truthy _); frame.
  all: first
    [ apply IH
    | apply styles_put_keeps
    | apply get_debug_keeps
    | by apply delete_debug_keeps ].
Qed.

Lemma classes_get_keeps fuel k : preserves R (classes_get env o rv fuel k).
Proof.
  revert k. induction fuel as [|fuel IH]; intros k; [done|].
  cbn [classes_get]. destruct (mergedStyles env o !! k) as [fn|]; [|frame].
  unfold class_getter.
  flag (caching o) Hc; frame.
  all: match goal with |- preserves R (match ?hit with _ => _ end) => destruct hit end; frame.
  all: try apply IH.
  all: destruct (class_truthy _); frame.
  all: try apply IH.
  all: try apply styles_get_keeps.
  all: destruct (style_truthy _); frame.
  all: first [ apply IH | apply classes_put_keeps ].
Qed.

Lemma accessors_keep : accessors_preserve env o rv R.
Proof.
  intros fuel k. split; [apply styles_get_keeps|]. split; [apply classes_get_keeps|].
  split; intros; [apply styles_put_keeps|apply classes_put_keeps].
Qed.

End Frames.

(** ** What the primitive steps change *)

Lemma callStyleFunction_state o rv s fn st v st' :
  callStyleFunction o rv s fn st = Returned v st' →
  ∃ h n,
    st' = with_heap h n (with_trace (trace st ++ [StyleFunctionCalled s]) st)
    ∧ (allocated st ≤ n)%nat
    ∧ ∀ l, (l < allocated st)%nat → h !! l = heap st !! l.
Proof.
  unfold callStyleFunction. destruct (fn (styleParam o rv)); intros [= _ <-].
  - eexists _, _. split; [done|]. split; [lia|].
    intros l Hl. apply lookup_insert_ne. lia.
  - exists (heap st), (allocated st). by destruct st.
  - exists (heap st), (allocated st). by destruct st.
Qed.

Lemma callRenderRule_state o s v st r st' :
  callRenderRule o s v st = Returned r st' →
  st' = with_trace (trace st ++ [RenderRuleCalled s]) st.
Proof. by intros [= _ <-]. Qed.

Lemma telemetryPartStart_state env o st start st' :
  telemetryPartStart env o st = Returned start st' →
  if timing o st
  then start = performance_now env (clock st) ∧ st' = with_clock (S (clock st)) st
  else start = 0 ∧ st' = st.
Proof.
  unfold telemetryPartStart, timing, now.
  destruct (telemetry o && enabled (recorder st)); by intros [= <- <-].
Qed.

Lemma addElapsed_state env o add start st u st' :
  addElapsed env o add start st = Returned u st' →
  if timing o st
  then match tel_performance (recorder st) !! primaryDisplayName o with
       | Some stats =>
           st' = update_stats (primaryDisplayName o)
                   (add (performance_now env (clock st) - start) stats)
                   (with_clock (S (clock st)) st)
       | None => st' = st
       end
  else st' = st.
Proof.
  unfold addElapsed, timing, now, bind, modify.
  destruct (telemetry o && enabled (recorder st)); [|by intros [= <-]].
  destruct (tel_performance (recorder st) !! primaryDisplayName o); by intros [= <-].
Qed.

Lemma countCacheHit_state o s st u st' :
  countCacheHit o s st = Returned u st' →
  if telemetry o
  then match tel_performance (recorder st) !! primaryDisplayName o with
       | Some stats =>
           st' = update_stats (primaryDisplayName o)
                   (if String.eqb s "root"
                    then incr_stylesRootCacheHits stats
                    else incr_stylesSlotsCacheHits stats) st
       | None => st' = st
       end
  else st' = st.
Proof.
  unfold countCacheHit. destruct (telemetry o); [|by intros [= <-]].
  destruct (tel_performance (recorder st) !! primaryDisplayName o); by intros [= <-].
Qed.

(** Replaces the state a primitive step returned in by what the step made
    of the state it started from. *)
Ltac step_state H :=
  first
    [ apply callStyleFunction_state in H as (? & ? & -> & ? & ?)
    | apply callRenderRule_state in H as ->
    | apply telemetryPartStart_state in H;
      destruct (timing _ _); destruct H as [_ ->]
    | apply addElapsed_state in H;
      destruct (timing _ _);
      [destruct (tel_performance _ !! _); rewrite H|rewrite H]
    | apply countCacheHit_state in H;
      destruct (telemetry _);
      [destruct (tel_performance _ !! _); rewrite H|rewrite H] ].

(** Discharges the hypotheses of [accessors_keep] for a relation that
    the primitive steps keep. *)
Ltac keep_steps :=
  unfold preserves; intros;
  match goal with H : _ = Returned _ _ |- _ => step_state H end.

(** The state a call returns in. *)
Lemma resolveStyles_state env o st u st' :
  resolveStyles env o st = Returned u st' →
  st' = with_classes ∅ (with_resolvedStylesDebug ∅ (with_resolvedStyles ∅
          (if caching o
           then with_classesCache (ensure_entries o (classesCache st))
                  (with_stylesCache (ensure_entries o (stylesCache st)) st)
           else st))).
Proof.
  unfold resolveStyles. destruct (configurationCheck env (performance o)); [done|].
  unfold when, bind, modify, ret. by destruct (caching o); intros [= <-].
Qed.


(** ** Calls without caching *)

Section IgnoresCaches.

Variable env : Env.
Variable o : ResolveStylesOptions.
Variable rv : value.
Hypothesis Hoff : caching o = false.

Lemma ignores_ret {A} (a : A) : ignores_caches (ret a).
Proof. done. Qed.

Lemma ignores_throw {A} e : ignores_caches (throw e : M A).
Proof. done. Qed.

Lemma ignores_bind {A B} (m : M A) (k : A → M B) :
  ignores_caches m → (∀ a, ignores_caches (k a)) → ignores_caches (bind m k).
Proof.
  intros Hm Hk sc cc st. unfold bind. rewrite Hm.
  destruct (m st) as [a st1| |]; [apply Hk|done|done].
Qed.

Lemma ignores_gets {A} (f : State → A) :
  (∀ sc cc st, f (with_caches sc cc st) = f st) → ignores_caches (gets f).
Proof. intros Hf sc cc st. unfold gets. by rewrite Hf. Qed.

Lemma ignores_modify (f : State → State) :
  (∀ sc cc st, f (with_caches sc cc st) = with_caches sc cc (f st)) →
  ignores_caches (modify f).
Proof. intros Hf sc cc st. unfold modify. by rewrite Hf. Qed.

Lemma ignores_callStyleFunction s fn : ignores_caches (callStyleFunction o rv s fn).
Proof. intros sc cc st. unfold callStyleFunction. by destruct (fn (styleParam o rv)). Qed.

Lemma ignores_callRenderRule s v : ignores_caches (callRenderRule o s v).
Proof. done. Qed.

Lemma ignores_telemetryPartStart : ignores_caches (telemetryPartStart env o).
Proof.
  intros sc cc st. unfold telemetryPartStart, now. cbn.
  by destruct (telemetry o && enabled (recorder st)).
Qed.

Lemma ignores_addElapsed add start : ignores_caches (addElapsed env o add start).
Proof.
  intros sc cc st. unfold addElapsed, now, bind, modify. cbn.
  destruct (telemetry o && enabled (recorder st)); [|done].
  by destruct (tel_performance (recorder st) !! primaryDisplayName o).
Qed.

Lemma ignores_countCacheHit s : ignores_caches (countCacheHit o s).
Proof.
  intros sc cc st. unfold countCacheHit. cbn. destruct (telemetry o); [|done].
  by destruct (tel_performance (recorder st) !! primaryDisplayName o).
Qed.

Lemma ignores_get_debug v : ignores_caches (get_debug v).
Proof. by destruct v. Qed.

Lemma ignores_delete_debug v : ignores_caches (delete_debug v).
Proof. by destruct v. Qed.

Local Ltac step tac :=
  first
    [ apply ignores_bind; [|intros ?]
    | exact (ignores_ret _)
    | exact (ignores_throw _)
    | exact (ignores_callStyleFunction _ _)
    | exact (ignores_callRenderRule _ _)
    | exact ignores_telemetryPartStart
    | exact (ignores_addElapsed _ _)
    | exact (ignores_countCacheHit _)
    | exact (ignores_get_debug _)
    | exact (ignores_delete_debug _)
    | apply ignores_gets; by intros
    | apply ignores_modify; by intros
    | match goal with
      | |- ignores_caches (if ?b then _ else _) => destruct b
      | |- ignores_caches (match ?b with _ => _ end) => destruct b
      end
    | tac ].

Local Ltac ignore tac := repeat step tac.

Lemma styles_put_ignores fuel k v : ignores_caches (styles_put env o fuel k v).
Proof.
  revert k. induction fuel as [|fuel IH]; intros k; [done|].
  cbn [styles_put]. rewrite Hoff. unfold when.
  ignore ltac:(exact (IH _)).
Qed.

Lemma classes_put_ignores fuel k c : ignores_caches (classes_put env o fuel k c).
Proof.
  revert k. induction fuel as [|fuel IH]; intros k; [done|].
  cbn [classes_put]. rewrite Hoff. unfold when.
  ignore ltac:(exact (IH _)).
Qed.

Lemma styles_get_ignores fuel k : ignores_caches (styles_get env o rv fuel k).
Proof.
  revert k. induction fuel as [|fuel IH]; intros k; [done|].
  cbn [styles_get]. unfold style_getter. rewrite Hoff.
  ignore ltac:(first [exact (IH _) | exact (styles_put_ignores _ _ _)]).
Qed.

Lemma classes_get_ignores fuel k : ignores_caches (classes_get env o rv fuel k).
Proof.
  revert k. induction fuel as [|fuel IH]; intros k; [done|].
  cbn [classes_get]. unfold class_getter. rewrite Hoff.
  ignore ltac:(first [exact (IH _) | exact (styles_get_ignores _ _)
                     | exact (classes_put_ignores _ _ _)]).
Qed.

End IgnoresCaches.

(** X1.  When caching is not enabled for a call, the call and its
    accessors neither write to the cache of styles and the cache of class
    names nor look at them: whatever the two caches hold, a read or a write
    has the same outcome, returns the same value, makes the same changes to
    the rest of the state and leaves the caches as they are. *)
Theorem caches_unused_without_caching env o rv :
  caching o = false →
  preserves same_caches (resolveStyles env o)
  ∧ ∀ fuel k,
      ignores_caches (styles_get env o rv fuel k)
      ∧ ignores_caches (classes_get env o rv fuel k)
      ∧ (∀ v, ignores_caches (styles_put env o fuel k v))
      ∧ (∀ c, ignores_caches (classes_put env o fuel k c)).
Proof.
  intros Hoff. split.
  - intros st u st' H. apply resolveStyles_state in H as ->. by rewrite Hoff.
  - intros fuel k.
    split; [by apply styles_get_ignores|]. split; [by apply classes_get_ignores|].
    split; intros; [by apply styles_put_ignores|by apply classes_put_ignores].
Qed.

Lemma caches_unused_without_caching_witness :
  classes_get (referenceEnv true false)
    (buttonOptions buttonTheme (flags false false) [] false) VUndefined 4 "root"
    (with_caches {[1%nat := {["root" := SObject 9]}]} {[1%nat := {["root" := Some "stale"]}]}
       emptyState)
  = in_caches {[1%nat := {["root" := SObject 9]}]} {[1%nat := {["root" := Some "stale"]}]}
      (classes_get (referenceEnv true false)
         (buttonOptions buttonTheme (flags false false) [] false) VUndefined 4 "root"
         emptyState).
Proof.
  destruct (caches_unused_without_caching (referenceEnv true false)
              (buttonOptions buttonTheme (flags false false) [] false) VUndefined eq_refl)
    as [_ Hignore].
  destruct (Hignore 4%nat "root") as (_ & Hget & _).
  exact (Hget _ _ emptyState).
Defined.

(** ** The caches of other themes *)

Lemma other_themes_kept_refl themeId st : other_themes_kept themeId st st.
Proof. by intros t Ht. Qed.

Lemma other_themes_kept_trans themeId st1 st2 st3 :
  other_themes_kept themeId st1 st2 → other_themes_kept themeId st2 st3 →
  other_themes_kept themeId st1 st3.
Proof.
  intros H1 H2 t Ht. destruct (H1 t Ht) as [? ?], (H2 t Ht) as [? ?].
  split; congruence.
Qed.

(** X2.  A call, and every read or write through its accessors, leaves what
    the two caches hold for every other theme as it was. *)
Theorem other_themes_never_changed env o rv :
  preserves (other_themes_kept (themeKey o)) (resolveStyles env o)
  ∧ accessors_preserve env o rv (other_themes_kept (themeKey o)).
Proof.
  split.
  - intros st u st' H. apply resolveStyles_state in H as ->.
    destruct (caching o); [|by intros t Ht; norm].
    intros t Ht. norm. unfold ensure_entries.
    destruct (stylesCache st !! themeKey o), (classesCache st !! themeKey o);
      by rewrite ?lookup_insert_ne.
  - apply accessors_keep;
      [apply other_themes_kept_refl|apply other_themes_kept_trans|try keep_steps..];
      intros; try (by intros t Ht; norm).
    + intros t Ht. norm. unfold cache_set. by rewrite lookup_insert_ne.
    + intros t Ht. norm. unfold cache_set. by rewrite lookup_insert_ne.
Qed.

(** ** A call is lazy *)

(** X3.  A call that returns has invoked no style function and no renderer,
    has read no clock and changed no telemetry and no style object: all
    work is left to the reads.  The objects it returns have no data
    property.  It creates the record of its theme in both caches when
    caching is enabled, and every lookup in the caches gives what it gave
    before the call. *)
Theorem call_is_lazy env o st st' :
  resolveStyles env o st = Returned () st' →
  trace st' = trace st
  ∧ heap st' = heap st ∧ recorder st' = recorder st ∧ clock st' = clock st
  ∧ resolvedStyles st' = ∅ ∧ resolvedStylesDebug st' = ∅ ∧ classes st' = ∅
  ∧ (caching o = true →
     is_Some (stylesCache st' !! themeKey o) ∧ is_Some (classesCache st' !! themeKey o))
  ∧ ∀ t k, cached (stylesCache st') t k = cached (stylesCache st) t k
           ∧ cached (classesCache st') t k = cached (classesCache st) t k.
Proof.
  intros H. apply resolveStyles_state in H as ->. norm.
  do 7 (split; [by destruct (caching o)|]). split.
  - intros ->. norm. unfold ensure_entries. split.
    + destruct (stylesCache st !! themeKey o) eqn:Hs; [by rewrite Hs|].
      by rewrite lookup_insert_eq.
    + destruct (classesCache st !! themeKey o) eqn:Hs; [by rewrite Hs|].
      by rewrite lookup_insert_eq.
  - intros t k. destruct (caching o); [|done]. norm. unfold ensure_entries, cached. split.
    + destruct (stylesCache st !! themeKey o) eqn:Hs; [done|].
      destruct (decide (t = themeKey o)) as [->|Hne].
      * by rewrite lookup_insert_eq, Hs.
      * by rewrite lookup_insert_ne.
    + destruct (classesCache st !! themeKey o) eqn:Hs; [done|].
      destruct (decide (t = themeKey o)) as [->|Hne].
      * by rewrite lookup_insert_eq, Hs.
      * by rewrite lookup_insert_ne.
Qed.

Lemma call_is_lazy_witness :
  ∃ st',
    resolveStyles (referenceEnv false false)
      (buttonOptions buttonTheme (flags true false) [] true) (recordingState true)
    = Returned () st'
    ∧ trace st' = []
    ∧ is_Some (stylesCache st' !! 1%nat).
Proof.
  eexists. split; [reflexivity|].
  destruct (call_is_lazy (referenceEnv false false)
              (buttonOptions buttonTheme (flags true false) [] true) (recordingState true)
              _ eq_refl) as (Htrace & _ & _ & _ & _ & _ & _ & Htheme & _).
  split; [exact Htrace|]. exact (proj1 (Htheme eq_refl)).
Defined.


(** ** Reads without telemetry *)

Lemma untimed_refl o st : untimed o st st.
Proof. by intros _. Qed.

Lemma untimed_trans o st1 st2 st3 :
  untimed o st1 st2 → untimed o st2 st3 → untimed o st1 st3.
Proof.
  intros H1 H2 Hoff. destruct (H1 Hoff) as (Hc1 & He1 & Ht1).
  destruct H2 as (Hc2 & He2 & Ht2).
  { unfold timing in *. by rewrite He1. }
  repeat split; [congruence..|]. intros name. by rewrite Ht2.
Qed.

(** X4.  When no telemetry recorder is passed, or the recorder is switched
    off, no read and no write through the accessors calls
    [performance.now()] or changes a timer. *)
Theorem untimed_without_telemetry env o rv :
  accessors_preserve env o rv (untimed o).
Proof.
  assert (∀ st name stats,
            tel_performance (recorder st) !! primaryDisplayName o = Some stats →
            ∀ stats',
              msResolveStylesTotal stats' = msResolveStylesTotal stats →
              msRenderStylesTotal stats' = msRenderStylesTotal stats →
              timers (recorder (update_stats (primaryDisplayName o) stats' st)) name
              = timers (recorder st) name) as Hstats.
  { intros st name stats Hs stats' H1 H2. unfold timers. norm.
    destruct (decide (primaryDisplayName o = name)) as [<-|Hne];
      [|by rewrite lookup_insert_ne].
    rewrite lookup_insert_eq, Hs. cbn. by rewrite H1, H2. }
  apply accessors_keep; [apply untimed_refl|apply untimed_trans|..].
  1-6: intros; intros Hoff; by norm.
  - intros s fn st v st' H Hoff.
    apply callStyleFunction_state in H as (? & ? & -> & _). by norm.
  - intros s v st r st' H Hoff. apply callRenderRule_state in H as ->. by norm.
  - intros st start st' H Hoff. apply telemetryPartStart_state in H.
    rewrite Hoff in H. by destruct H as [_ ->].
  - intros add start st u st' H Hoff. apply addElapsed_state in H.
    rewrite Hoff in H. by subst.
  - intros s st u st' H Hoff. apply countCacheHit_state in H.
    destruct (telemetry o); [|by subst].
    destruct (tel_performance (recorder st) !! primaryDisplayName o) as [stats|] eqn:Hs;
      [|by subst].
    subst st'. repeat split; [by norm..|]. intros name.
    apply (Hstats _ _ _ Hs); by destruct (String.eqb s "root").
Qed.

Lemma untimed_without_telemetry_witness :
  ∃ r st',
    classes_get (referenceEnv true false)
      (buttonOptions buttonTheme (flags true false) [] true) VUndefined 4 "root"
      (recordingState false)
    = Returned r st'
    ∧ clock st' = 0%nat
    ∧ timers (recorder st') "Button" = Some (0, 0).
Proof.
  destruct (classes_get_returns (referenceEnv true false)
              (buttonOptions buttonTheme (flags true false) [] true) VUndefined 0 "root"
              (λ _, RetObject [("color", VString "red"); ("_debug", VString "Button.root")])
              (recordingState false) eq_refl eq_refl (or_introl eq_refl))
    as (r & st' & Hrun).
  exists r, st'. split; [exact Hrun|].
  destruct (untimed_without_telemetry (referenceEnv true false)
              (buttonOptions buttonTheme (flags true false) [] true) VUndefined 4%nat "root")
    as (_ & Hget & _).
  destruct (Hget _ _ _ Hrun eq_refl) as (Hclock & _ & Htimers).
  split; [exact Hclock|]. exact (Htimers "Button").
Defined.


(** ** Timers *)




Section Timed.

Variable env : Env.
Variable o : ResolveStylesOptions.
Variable rv : value.



End Timed.




(** ** Cache-hit counters *)

(** X6.  A read of the class name of a slot changes the cache-hit counters
    exactly when it is a hit in the cache of class names and a recorder is
    passed: the counter of root hits of the primary display name grows by
    one for [root], its counter of slot hits for another slot.  Whether the
    recorder is switched on is not looked at.  The counters of the other
    components and the recorder's switch are never changed. *)
Theorem hit_counters_count_hits env o rv fuel s fn st r st' :
  mergedStyles env o !! s = Some fn →
  memo_is_data env o s →
  classes_get env o rv fuel s st = Returned r st' →
  enabled (recorder st') = enabled (recorder st)
  ∧ (∀ name, name ≠ primaryDisplayName o →
             cacheHits (recorder st') name = cacheHits (recorder st) name)
  ∧ cacheHits (recorder st') (primaryDisplayName o)
    = match class_hit env o st s with
      | Some _ =>
          if telemetry o
          then (λ h : Z * Z, if String.eqb s "root" then (h.1 + 1, h.2) else (h.1, h.2 + 1))
                 <$> cacheHits (recorder st) (primaryDisplayName o)
          else cacheHits (recorder st) (primaryDisplayName o)
      | None => cacheHits (recorder st) (primaryDisplayName o)
      end.
Proof.
  intros Hslot Hdata Hrun.
  destruct (class_hit env o st s) as [c|] eqn:Hhit.
  - destruct fuel as [|fuel]; [done|].
    destruct (cache_hit_counted env o rv fuel s fn st c Hslot Hhit)
      as (st'' & Hget & Hen & Hother & Hhits).
    rewrite Hget in Hrun. injection Hrun as _ <-.
    split; [done|]. split; [|done].
    intros name Hne. unfold cacheHits. by rewrite Hother.
  - destruct (miss_keeps_counters env o rv fuel s fn st r st' Hslot Hdata Hhit Hrun)
      as [Hen Hhits].
    split; [done|]. split; [|done]. intros name _. apply Hhits.
Qed.

Lemma hit_counters_count_hits_witness :
  ∃ r1 st1 r2 st2,
    classes_get (referenceEnv true false)
      (buttonOptions buttonTheme (flags true false) [] true) VUndefined 4 "icon"
      (recordingState false)
    = Returned r1 st1
    ∧ cacheHits (recorder st1) "Button" = Some (0, 0)
    ∧ classes_get (referenceEnv true false)
        (buttonOptions buttonTheme (flags true false) [] true) VUndefined 4 "icon" st1
      = Returned r2 st2
    ∧ cacheHits (recorder st2) "Button" = Some (0, 1).
Proof.
  destruct (classes_get (referenceEnv true false)
              (buttonOptions buttonTheme (flags true false) [] true) VUndefined 4 "icon"
              (recordingState false)) as [r1 st1| |] eqn:H1;
    [|vm_compute in H1; discriminate H1..].
  destruct (classes_get (referenceEnv true false)
              (buttonOptions buttonTheme (flags true false) [] true) VUndefined 4 "icon"
              st1) as [r2 st2| |] eqn:H2;
    [|vm_compute in H1; injection H1 as _ <-; vm_compute in H2; discriminate H2..].
  exists r1, st1, r2, st2. split; [reflexivity|].
  destruct (hit_counters_count_hits (referenceEnv true false)
              (buttonOptions buttonTheme (flags true false) [] true) VUndefined 4 "icon"
              (λ _, RetObject [("width", VNumber 16)]) (recordingState false) r1 st1
              eq_refl eq_refl H1) as (_ & _ & Hfirst).
  destruct (hit_counters_count_hits (referenceEnv true false)
              (buttonOptions buttonTheme (flags true false) [] true) VUndefined 4 "icon"
              (λ _, RetObject [("width", VNumber 16)]) st1 r2 st2
              eq_refl eq_refl H2) as (_ & _ & Hsecond).
  split; [etrans; [exact Hfirst|vm_compute; reflexivity]|]. split; [exact H2|].
  etrans; [exact Hsecond|]. clear Hfirst Hsecond H2.
  vm_compute in H1. injection H1 as _ <-. vm_compute. reflexivity.
Defined.

(** ** The first read of a slot *)

Section FirstRead.

Variable env : Env.
Variable o : ResolveStylesOptions.
Variable rv : value.

Lemma fresh_class_read fuel s fn fields st :
  mergedStyles env o !! s = Some fn →
  memo_is_data env o s →
  fn (styleParam o rv) = RetObject fields →
  fresh_slot env o st s →
  ∃ st1 st',
    styles_get env o rv (S (S (S fuel))) s st = Returned (SObject (allocated st)) st1
    ∧ classes_get env o rv (S (S (S (S fuel)))) s st
      = Returned
          (composed o s (Some (renderRule o (resolved_fields env fields) (rendererParam o))))
          st'
    ∧ trace st' = trace st ++ [StyleFunctionCalled s; RenderRuleCalled s]
    ∧ heap st' = <[allocated st := resolved_fields env fields]> (heap st)
    ∧ resolvedStyles st' = <[lazyEvaluationKey s := SObject (allocated st)]> (resolvedStyles st)
    ∧ classes st'
      = <[lazyEvaluationKey s :=
            Some (renderRule o (resolved_fields env fields) (rendererParam o))]> (classes st)
    ∧ stylesCache st'
      = (if caching o
         then cache_set (themeKey o) (stylesCache st !! themeKey o) (slotCacheKey env o s)
                (SObject (allocated st)) (stylesCache st)
         else stylesCache st)
    ∧ classesCache st'
      = (if caching o
         then cache_set (themeKey o) (classesCache st !! themeKey o) (slotCacheKey env o s)
                (Some (renderRule o (resolved_fields env fields) (rendererParam o)))
                (classesCache st)
         else classesCache st)
    ∧ (∀ name, cacheHits (recorder st') name = cacheHits (recorder st) name).
Proof.
  intros Hslot Hdata Hfn (Hhit & Hmemo & Hchit & Hcmemo).
  destruct (styles_get_compute env o rv fuel s fn st Hslot Hdata Hhit Hmemo)
    as (st1 & Hget & Htr1 & Hrs1 & Hsc1 & Hcc1 & Hcl1 & Hheap1 & _ & _ & Hhits1).
  { right. unfold style_result. by rewrite Hfn. }
  unfold style_result in *. rewrite Hfn in *.
  destruct (classes_get_compute env o rv _ s fn st _ st1 Hslot Hdata Hchit Hcmemo Hget)
    as (st' & Hcget & Htr & Hcl & Hcc & Hsc & Hrs & _ & Hheap & _ & Hhits).
  cbn [style_truthy andb] in *.
  assert (rendered o st1 (SObject (allocated st))
          = renderRule o (resolved_fields env fields) (rendererParam o)) as Hrendered.
  { unfold rendered, resolved_fields. by rewrite Hheap1, lookup_insert_eq. }
  rewrite Hrendered in *.
  exists st1, st'. split; [done|]. split; [done|].
  split; [by rewrite Htr, Htr1, <- app_assoc|].
  split; [by rewrite Hheap, Hheap1|].
  split; [by rewrite Hrs, Hrs1|].
  split; [by rewrite Hcl, Hcl1|].
  split; [by rewrite Hsc, Hsc1|].
  split; [rewrite Hcc, Hcc1; by destruct (caching o)|].
  intros name. by rewrite Hhits, Hhits1.
Qed.

End FirstRead.

(** X7.  When nothing is stored for a slot, the read of its class name
    invokes the style function once and then the renderer once.  The
    renderer is given the object of the style function, without [_debug] when
    debugging is on, and the renderer parameter of the call; its class is the
    result, composed with the class names of the call for [root].  The
    object is stored, so the style of the slot is then read without any
    invocation; the class name is read again with the same result and
    without any invocation when caching is enabled or the class is not the
    empty string. *)
Theorem first_class_read env o rv fuel s fn fields st :
  mergedStyles env o !! s = Some fn →
  memo_is_data env o s →
  fn (styleParam o rv) = RetObject fields →
  fresh_slot env o st s →
  ∃ l st',
    classes_get env o rv (S (S (S (S fuel)))) s st
    = Returned
        (composed o s (Some (renderRule o (resolved_fields env fields) (rendererParam o))))
        st'
    ∧ trace st' = trace st ++ [StyleFunctionCalled s; RenderRuleCalled s]
    ∧ heap st' !! l = Some (resolved_fields env fields)
    ∧ (∀ fuel', styles_get env o rv (S (S fuel')) s st' = Returned (SObject l) st')
    ∧ (caching o = true ∨ renderRule o (resolved_fields env fields) (rendererParam o) ≠ "" →
       ∀ fuel', ∃ st2,
         classes_get env o rv (S (S fuel')) s st'
         = Returned
             (composed o s (Some (renderRule o (resolved_fields env fields) (rendererParam o))))
             st2
         ∧ trace st2 = trace st').
Proof.
  intros Hslot Hdata Hfn Hfresh.
  destruct (fresh_class_read env o rv fuel s fn fields st Hslot Hdata Hfn Hfresh)
    as (st1 & st' & _ & Hget & Htrace & Hheap & Hrs & Hcl & Hsc & Hcc & _).
  exists (allocated st), st'. split; [done|]. split; [done|].
  split; [rewrite Hheap; apply lookup_insert_eq|]. split.
  - intros fuel'. destruct (caching o) eqn:Hc.
    + eapply styles_get_cache_hit; [done|done| |done].
      rewrite Hsc. apply cached_cache_set_eq.
    + eapply styles_get_memo_hit; [done|done| | |done].
      * unfold style_hit. by rewrite Hc.
      * rewrite Hrs. apply lookup_insert_eq.
  - intros Hkept fuel'. destruct (caching o) eqn:Hc.
    + rewrite (classes_get_cache_hit env o rv _ _ _ _
                 (renderRule o (resolved_fields env fields) (rendererParam o)) Hslot).
      * destruct (countCacheHit_recorder o s st') as (r & Hcount).
        rewrite (bind_returned _ _ _ _ _ Hcount). cbn [ret].
        eexists. split; [done|by norm].
      * unfold class_hit. rewrite Hc, Hcc. by rewrite cached_cache_set_eq.
    + destruct Hkept as [?|Hne]; [done|]. exists st'. split; [|done].
      eapply classes_get_memo_hit; [done|done| | |].
      * unfold class_hit. by rewrite Hc.
      * rewrite Hcl. apply lookup_insert_eq.
      * cbn. apply negb_true_iff. by apply String.eqb_neq.
Qed.

Lemma first_class_read_witness :
  ∃ l st',
    classes_get (referenceEnv false true)
      (buttonOptions buttonTheme (flags true false) [] false) VUndefined 4 "root" emptyState
    = Returned (Some "ui-button gen-123") st'
    ∧ trace st' = [StyleFunctionCalled "root"; RenderRuleCalled "root"]
    ∧ heap st' !! l = Some [("color", VString "red")].
Proof.
  destruct (first_class_read (referenceEnv false true)
              (buttonOptions buttonTheme (flags true false) [] false) VUndefined 0 "root"
              (λ _, RetObject [("color", VString "red"); ("_debug", VString "Button.root")])
              [("color", VString "red"); ("_debug", VString "Button.root")] emptyState
              eq_refl eq_refl eq_refl (conj eq_refl (conj eq_refl (conj eq_refl eq_refl))))
    as (l & st' & Hget & Htrace & Hheap & _).
  exists l, st'. split; [exact Hget|]. split; [exact Htrace|exact Hheap].
Defined.



(** ** Writing a style *)

Section Writes.

Variable env : Env.
Variable o : ResolveStylesOptions.
Variable rv : value.

(** The state a write to the style accessor of a slot leaves. *)
Lemma styles_put_state fuel s fn v st :
  mergedStyles env o !! s = Some fn →
  memo_is_data env o s →
  ∃ st1,
    styles_put env o (S (S fuel)) s v st = Returned () st1
    ∧ style_memo st1 s = v
    ∧ style_hit env o st1 s = (if caching o then v else SUndefined)
    ∧ classes st1 = classes st ∧ classesCache st1 = classesCache st
    ∧ heap st1 = heap st ∧ allocated st1 = allocated st ∧ trace st1 = trace st
    ∧ recorder st1 = recorder st ∧ clock st1 = clock st
    ∧ resolvedStylesDebug st1 = resolvedStylesDebug st.
Proof.
  intros Hslot Hdata. eexists. split; [by eapply styles_put_slot|].
  unfold style_memo, style_hit. norm. rewrite lookup_insert_eq.
  destruct (caching o); norm; [rewrite cached_cache_set_eq|]; done.
Qed.

Lemma classes_put_state fuel s fn c st :
  mergedStyles env o !! s = Some fn →
  memo_is_data env o s →
  ∃ st1,
    classes_put env o (S (S fuel)) s c st = Returned () st1
    ∧ class_memo st1 s = c
    ∧ class_hit env o st1 s = (if caching o then c else None)
    ∧ resolvedStyles st1 = resolvedStyles st ∧ stylesCache st1 = stylesCache st
    ∧ heap st1 = heap st ∧ allocated st1 = allocated st ∧ trace st1 = trace st
    ∧ recorder st1 = recorder st ∧ clock st1 = clock st
    ∧ resolvedStylesDebug st1 = resolvedStylesDebug st.
Proof.
  intros Hslot Hdata. eexists. split; [by eapply classes_put_slot|].
  unfold class_memo, class_hit. norm. rewrite lookup_insert_eq.
  destruct (caching o); norm; [rewrite cached_cache_set_eq|]; done.
Qed.

(** A style object that is stored for a slot is what a read returns, and
    the read changes nothing. *)
Lemma styles_get_stored fuel s fn st l :
  mergedStyles env o !! s = Some fn →
  memo_is_data env o s →
  stored_style env o st s l →
  styles_get env o rv (S (S fuel)) s st = Returned (SObject l) st.
Proof.
  intros Hslot Hdata [Hhit|[Hhit Hmemo]].
  - unfold style_hit in Hhit. destruct (caching o) eqn:Hc; [|done].
    destruct (cached (stylesCache st) (themeKey o) (slotCacheKey env o s)) as [v|] eqn:Hv;
      [|done].
    cbn in Hhit. subst v. by eapply styles_get_cache_hit.
  - unfold style_memo in Hmemo.
    destruct (resolvedStyles st !! lazyEvaluationKey s) as [v|] eqn:Hv; [|done].
    cbn in Hmemo. subst v. by eapply styles_get_memo_hit.
Qed.

End Writes.

(** X9.  The class name of a slot is rendered from the style object that is
    stored for the slot, be it an entry of the cache left by another call or
    an object written to the accessor: when no class is stored for the slot,
    the read of the class name gives that object to the renderer and does not
    invoke the style function. *)
Theorem stored_style_is_rendered env o rv fuel s fn l fields st :
  mergedStyles env o !! s = Some fn →
  memo_is_data env o s →
  heap st !! l = Some fields →
  class_hit env o st s = None →
  class_truthy (class_memo st s) = false →
  (stored_style env o st s l →
   ∃ st',
     classes_get env o rv (S (S (S fuel))) s st
     = Returned (composed o s (Some (renderRule o fields (rendererParam o)))) st'
     ∧ trace st' = trace st ++ [RenderRuleCalled s])
  ∧ ∃ st1 st',
      styles_put env o (S (S fuel)) s (SObject l) st = Returned () st1
      ∧ classes_get env o rv (S (S (S fuel))) s st1
        = Returned (composed o s (Some (renderRule o fields (rendererParam o)))) st'
      ∧ trace st' = trace st ++ [RenderRuleCalled s].
Proof.
  intros Hslot Hdata Hobj Hchit Hcmemo.
  assert (∀ st0,
            heap st0 !! l = Some fields →
            class_hit env o st0 s = None →
            class_truthy (class_memo st0 s) = false →
            stored_style env o st0 s l →
            ∃ st',
              classes_get env o rv (S (S (S fuel))) s st0
              = Returned (composed o s (Some (renderRule o fields (rendererParam o)))) st'
              ∧ trace st' = trace st0 ++ [RenderRuleCalled s]) as Hrender.
  { intros st0 Hobj0 Hchit0 Hcmemo0 Hstored.
    pose proof (styles_get_stored env o rv fuel s fn st0 l Hslot Hdata Hstored) as Hget.
    destruct (classes_get_compute env o rv (S fuel) s fn st0 (SObject l) st0 Hslot Hdata
                Hchit0 Hcmemo0 Hget) as (st' & Hcget & Htr & _).
    cbn [style_truthy] in *. exists st'. split; [|done].
    rewrite Hcget. unfold rendered. by rewrite Hobj0. }
  split; [by apply Hrender|].
  destruct (styles_put_state env o fuel s fn (SObject l) st Hslot Hdata)
    as (st1 & Hput & Hmemo1 & Hhit1 & Hcl1 & Hcc1 & Hheap1 & _ & Htr1 & _).
  destruct (Hrender st1) as (st' & Hcget & Htr).
  - by rewrite Hheap1.
  - unfold class_hit in *. by rewrite Hcc1.
  - unfold class_memo in *. by rewrite Hcl1.
  - unfold stored_style. rewrite Hhit1, Hmemo1. destruct (caching o); [by left|by right].
  - exists st1, st'. split; [done|]. split; [done|]. by rewrite Htr, Htr1.
Qed.

Lemma stored_style_is_rendered_witness :
  ∃ st1 st',
    styles_put (referenceEnv true false)
      (buttonOptions buttonTheme (flags true false) [] false) 2 "icon" (SObject 7)
      (with_heap {[7%nat := []]} 8 emptyState) = Returned () st1
    ∧ classes_get (referenceEnv true false)
        (buttonOptions buttonTheme (flags true false) [] false) VUndefined 3 "icon" st1
      = Returned (Some "") st'
    ∧ trace st' = [RenderRuleCalled "icon"].
Proof.
  exact (proj2 (stored_style_is_rendered (referenceEnv true false)
                  (buttonOptions buttonTheme (flags true false) [] false) VUndefined 0 "icon"
                  (λ _, RetObject [("width", VNumber 16)]) 7%nat []
                  (with_heap {[7%nat := []]} 8 emptyState)
                  eq_refl eq_refl eq_refl eq_refl eq_refl)).
Defined.

(** X10.  A falsy value written to the style accessor of a slot discards
    what was stored for the slot: the next read finds neither the entry of
    the cache nor the data property acceptable, invokes the style function
    and returns its object.  Likewise, after [undefined] is written to the
    accessor of the class name, the next read of the class name renders the
    style of the slot. *)
Theorem falsy_write_is_discarded env o rv fuel s fn fields :
  mergedStyles env o !! s = Some fn →
  memo_is_data env o s →
  fn (styleParam o rv) = RetObject fields →
  (∀ v st,
     style_truthy v = false →
     ∃ st1 l st',
       styles_put env o (S (S fuel)) s v st = Returned () st1
       ∧ styles_get env o rv (S (S (S fuel))) s st1 = Returned (SObject l) st'
       ∧ trace st' = trace st ++ [StyleFunctionCalled s]
       ∧ heap st' !! l = Some (resolved_fields env fields))
  ∧ (∀ st,
       ∃ st1,
         classes_put env o (S (S fuel)) s None st = Returned () st1
         ∧ ∀ fuel' v st2,
             styles_get env o rv (S fuel') s st1 = Returned v st2 →
             style_truthy v = true →
             ∃ st',
               classes_get env o rv (S (S fuel')) s st1
               = Returned (composed o s (Some (rendered o st2 v))) st'
               ∧ trace st' = trace st2 ++ [RenderRuleCalled s]).
Proof.
  intros Hslot Hdata Hfn. split.
  - intros v st Hv.
    destruct (styles_put_state env o fuel s fn v st Hslot Hdata)
      as (st1 & Hput & Hmemo1 & Hhit1 & _ & _ & Hheap1 & Hn1 & Htr1 & _).
    destruct (styles_get_compute env o rv fuel s fn st1 Hslot Hdata)
      as (st' & Hget & Htr & _ & _ & _ & _ & Hheap & _).
    { rewrite Hhit1. by destruct (caching o). }
    { by rewrite Hmemo1. }
    { right. unfold style_result. by rewrite Hfn. }
    unfold style_result in *. rewrite Hfn in *.
    exists st1, (allocated st1), st'. split; [done|]. split; [done|].
    split; [by rewrite Htr, Htr1|].
    rewrite Hheap. apply lookup_insert_eq.
  - intros st.
    destruct (classes_put_state env o fuel s fn None st Hslot Hdata)
      as (st1 & Hput & Hmemo1 & Hhit1 & _).
    exists st1. split; [done|]. intros fuel' v st2 Hget Hv.
    destruct (classes_get_compute env o rv fuel' s fn st1 v st2 Hslot Hdata)
      as (st' & Hcget & Htr & _); [| |done|].
    + rewrite Hhit1. by destruct (caching o).
    + by rewrite Hmemo1.
    + rewrite Hv in *. by exists st'.
Qed.

Lemma falsy_write_is_discarded_witness :
  ∃ st0 st1 l st',
    styles_get (referenceEnv true false)
      (buttonOptions buttonTheme (flags true false) [] false) VUndefined 3 "icon" emptyState
    = Returned (SObject 0) st0
    ∧ styles_put (referenceEnv true false)
        (buttonOptions buttonTheme (flags true false) [] false) 2 "icon" SNull st0
      = Returned () st1
    ∧ styles_get (referenceEnv true false)
        (buttonOptions buttonTheme (flags true false) [] false) VUndefined 3 "icon" st1
      = Returned (SObject l) st'
    ∧ trace st' = [StyleFunctionCalled "icon"; StyleFunctionCalled "icon"].
Proof.
  eexists. 
  destruct (falsy_write_is_discarded (referenceEnv true false)
              (buttonOptions buttonTheme (flags true false) [] false) VUndefined 0 "icon"
              (λ _, RetObject [("width", VNumber 16)]) [("width", VNumber 16)]
              eq_refl eq_refl eq_refl) as [Hstyle _].
  match goal with |- ∃ st1 l st', ?run = Returned _ ?st0 ∧ _ =>
    let out := fresh "out" in
    set (out := run); vm_compute in out; subst out
  end.
  match goal with |- ∃ st1 l st', Returned _ ?st = _ ∧ _ =>
    destruct (Hstyle SNull st eq_refl) as (st1 & l & st' & Hput & Hget & Htrace & _)
  end.
  exists st1, l, st'. split; [reflexivity|]. split; [exact Hput|]. split; [exact Hget|].
  exact Htrace.
Defined.

(** ** Without caching *)

(** X11.  When caching is not enabled, a style object or a class name
    other than the empty string that is written to the accessor of a slot is
    what the reads of that call return, and these reads change nothing; the
    objects of the next call start empty, so that nothing is stored for any
    slot when it returns. *)
Theorem values_live_for_one_call_without_caching env o rv fuel s fn :
  caching o = false →
  mergedStyles env o !! s = Some fn →
  memo_is_data env o s →
  (∀ l st,
     ∃ st1,
       styles_put env o (S (S fuel)) s (SObject l) st = Returned () st1
       ∧ ∀ fuel', styles_get env o rv (S (S fuel')) s st1 = Returned (SObject l) st1)
  ∧ (∀ c st,
       c ≠ "" →
       ∃ st1,
         classes_put env o (S (S fuel)) s (Some c) st = Returned () st1
         ∧ ∀ fuel',
             classes_get env o rv (S (S fuel')) s st1 = Returned (composed o s (Some c)) st1)
  ∧ (∀ st st0,
       resolveStyles env o st = Returned () st0 →
       ∀ s', fresh_slot env o st0 s').
Proof.
  intros Hoff Hslot Hdata. split; [|split].
  - intros l st.
    destruct (styles_put_state env o fuel s fn (SObject l) st Hslot Hdata)
      as (st1 & Hput & Hmemo1 & Hhit1 & _).
    exists st1. split; [done|]. intros fuel'.
    eapply styles_get_stored; [done|done|]. right. by rewrite Hhit1, Hmemo1, Hoff.
  - intros c st Hc.
    destruct (classes_put_state env o fuel s fn (Some c) st Hslot Hdata)
      as (st1 & Hput & Hmemo1 & Hhit1 & _).
    exists st1. split; [done|]. intros fuel'.
    unfold class_memo in Hmemo1.
    destruct (classes st1 !! lazyEvaluationKey s) as [c'|] eqn:Hc'; [|done].
    cbn in Hmemo1. subst c'.
    eapply classes_get_memo_hit; [done|done| |done|].
    + by rewrite Hhit1, Hoff.
    + cbn. apply negb_true_iff. by apply String.eqb_neq.
  - intros st st0 Hcall s'. apply resolveStyles_state in Hcall as ->.
    unfold fresh_slot, style_hit, style_memo, class_hit, class_memo.
    rewrite Hoff. by norm.
Qed.

Lemma values_live_for_one_call_without_caching_witness :
  ∃ st1 st0,
    classes_put (referenceEnv true false)
      (buttonOptions buttonTheme (flags false false) [] false) 2 "icon" (Some "big") emptyState
    = Returned () st1
    ∧ classes_get (referenceEnv true false)
        (buttonOptions buttonTheme (flags false false) [] false) VUndefined 2 "icon" st1
      = Returned (Some "big") st1
    ∧ resolveStyles (referenceEnv true false)
        (buttonOptions buttonTheme (flags false false) [] false) st1
      = Returned () st0
    ∧ fresh_slot (referenceEnv true false)
        (buttonOptions buttonTheme (flags false false) [] false) st0 "icon".
Proof.
  destruct (values_live_for_one_call_without_caching (referenceEnv true false)
              (buttonOptions buttonTheme (flags false false) [] false) VUndefined 0 "icon"
              (λ _, RetObject [("width", VNumber 16)]) eq_refl eq_refl eq_refl)
    as (_ & Hclass & Hcall).
  destruct (Hclass "big" emptyState) as (st1 & Hput & Hget); [done|].
  exists st1. eexists. split; [exact Hput|]. split; [exact (Hget 0%nat)|].
  split; [reflexivity|]. by apply (Hcall st1).
Defined.

(** ** Slots and their entries *)

(** X12.  Two slots of a call have different cache keys, and a write to the
    accessor of one slot leaves the entries of the other slots in both caches
    as they were. *)
Theorem slots_have_their_own_entries env o fuel s s' fn st :
  mergedStyles env o !! s = Some fn →
  memo_is_data env o s →
  s ≠ s' →
  slotCacheKey env o s ≠ slotCacheKey env o s'
  ∧ (∀ v st1,
       styles_put env o (S (S fuel)) s v st = Returned () st1 →
       cached (stylesCache st1) (themeKey o) (slotCacheKey env o s')
       = cached (stylesCache st) (themeKey o) (slotCacheKey env o s')
       ∧ classesCache st1 = classesCache st)
  ∧ (∀ c st1,
       classes_put env o (S (S fuel)) s c st = Returned () st1 →
       cached (classesCache st1) (themeKey o) (slotCacheKey env o s')
       = cached (classesCache st) (themeKey o) (slotCacheKey env o s')
       ∧ stylesCache st1 = stylesCache st).
Proof.
  intros Hslot Hdata Hne.
  assert (slotCacheKey env o s ≠ slotCacheKey env o s') as Hkeys.
  { unfold slotCacheKey. intros Heq. by apply (inj (String.app _)) in Heq. }
  split; [done|]. split.
  - intros v st1 Hput.
    rewrite (styles_put_slot env o _ _ _ _ _ Hslot Hdata) in Hput. injection Hput as <-.
    destruct (caching o); norm; [|done]. by rewrite cached_cache_set_ne.
  - intros c st1 Hput.
    rewrite (classes_put_slot env o _ _ _ _ _ Hslot Hdata) in Hput. injection Hput as <-.
    destruct (caching o); norm; [|done]. by rewrite cached_cache_set_ne.
Qed.

Lemma slots_have_their_own_entries_witness :
  slotCacheKey (referenceEnv true false)
    (buttonOptions buttonTheme (flags true false) [] false) "root"
  ≠ slotCacheKey (referenceEnv true false)
      (buttonOptions buttonTheme (flags true false) [] false) "icon".
Proof.
  exact (proj1 (slots_have_their_own_entries (referenceEnv true false)
                  (buttonOptions buttonTheme (flags true false) [] false) 0 "root" "icon"
                  (λ _, RetObject [("color", VString "red"); ("_debug", VString "Button.root")])
                  emptyState eq_refl eq_refl ltac:(discriminate))).
Defined.


(** ** Style objects without debugging *)

Lemma objects_untouched_refl st : objects_untouched st st.
Proof. by repeat split. Qed.

Lemma objects_untouched_trans st1 st2 st3 :
  objects_untouched st1 st2 → objects_untouched st2 st3 → objects_untouched st1 st3.
Proof.
  intros (Hd1 & Hn1 & Hh1) (Hd2 & Hn2 & Hh2).
  split; [congruence|]. split; [lia|].
  intros l Hl. rewrite Hh2 by lia. by apply Hh1.
Qed.

(** X13.  In a production build, or with debugging switched off, no read
    and no write through the accessors records a debug payload or changes a
    style object that exists, and the object allocated for the result of a
    style function has every property the style function gave it, [_debug]
    included. *)
Theorem objects_untouched_without_debugging env o rv :
  debugging env = false →
  accessors_preserve env o rv objects_untouched
  ∧ ∀ fuel s fn fields st,
      mergedStyles env o !! s = Some fn →
      memo_is_data env o s →
      fn (styleParam o rv) = RetObject fields →
      style_truthy (style_hit env o st s) = false →
      style_truthy (style_memo st s) = false →
      ∃ l st',
        styles_get env o rv (S (S (S fuel))) s st = Returned (SObject l) st'
        ∧ heap st' !! l = Some fields
        ∧ resolvedStylesDebug st' = resolvedStylesDebug st.
Proof.
  intros Hoff. split.
  - apply accessors_keep; [apply objects_untouched_refl|apply objects_untouched_trans|..];
      try (intros; congruence); try (intros; by norm).
    + intros s fn st v st' H.
      apply callStyleFunction_state in H as (h & n & -> & Hn & Hh). by norm.
    + intros s v st r st' H. apply callRenderRule_state in H as ->. by norm.
    + intros st start st' H. apply telemetryPartStart_state in H.
      destruct (timing o st); destruct H as [_ ->]; by norm.
    + intros add start st u st' H. apply addElapsed_state in H.
      destruct (timing o st); [destruct (tel_performance _ !! _)|]; subst; by norm.
    + intros s st u st' H. apply countCacheHit_state in H.
      destruct (telemetry o); [destruct (tel_performance _ !! _)|]; subst; by norm.
  - intros fuel s fn fields st Hslot Hdata Hfn Hhit Hmemo.
    destruct (styles_get_compute env o rv fuel s fn st Hslot Hdata Hhit Hmemo)
      as (st' & Hget & _ & _ & _ & _ & _ & Hheap & Hdebug & _); [by left|].
    unfold style_result in *. rewrite Hfn, Hoff in *.
    exists (allocated st), st'. split; [done|]. split; [|done].
    rewrite Hheap. apply lookup_insert_eq.
Qed.

Lemma objects_untouched_without_debugging_witness :
  ∃ l st',
    styles_get (referenceEnv true true)
      (buttonOptions buttonTheme (flags true false) [] false) VUndefined 3 "root" emptyState
    = Returned (SObject l) st'
    ∧ heap st' !! l = Some [("color", VString "red"); ("_debug", VString "Button.root")]
    ∧ resolvedStylesDebug st' = ∅.
Proof.
  destruct (objects_untouched_without_debugging (referenceEnv true true)
              (buttonOptions buttonTheme (flags true false) [] false) VUndefined eq_refl)
    as [_ Hfresh].
  exact (Hfresh 0%nat "root"
           (λ _, RetObject [("color", VString "red"); ("_debug", VString "Button.root")])
           [("color", VString "red"); ("_debug", VString "Button.root")] emptyState
           eq_refl eq_refl eq_refl eq_refl eq_refl).
Defined.

(** ** A style found in the cache *)

(** X14.  A call that finds the style of a slot in the cache of its theme
    returns it as it is: the style function is not invoked, nothing is
    changed, and [resolvedStylesDebug] of the call has no entry for the slot,
    also when debugging is on.  The debug payload is only available from the
    call that resolved the style. *)
Theorem cached_style_has_no_debug_record env o rv fuel s fn v st st0 :
  mergedStyles env o !! s = Some fn →
  caching o = true →
  cached (stylesCache st) (themeKey o) (slotCacheKey env o s) = Some v →
  style_truthy v = true →
  resolveStyles env o st = Returned () st0 →
  styles_get env o rv (S fuel) s st0 = Returned v st0
  ∧ resolvedStylesDebug st0 !! s = None.
Proof.
  intros Hslot Hc Hv Ht Hcall. apply resolveStyles_state in Hcall. subst st0.
  rewrite Hc. split; [|norm; apply lookup_empty].
  eapply styles_get_cache_hit; [done|done| |done].
  norm. unfold ensure_entries, cached in *.
  destruct (stylesCache st !! themeKey o) eqn:Hs; [by rewrite Hs|done].
Qed.

Lemma cached_style_has_no_debug_record_witness :
  ∃ l st1 st2,
    (resolveStyles (referenceEnv false true)
       (buttonOptions buttonTheme (flags true false) [] false) ;;
     styles_get (referenceEnv false true)
       (buttonOptions buttonTheme (flags true false) [] false) VUndefined 3 "root") emptyState
    = Returned (SObject l) st1
    ∧ resolvedStylesDebug st1 !! "root" = Some (VString "Button.root")
    ∧ resolveStyles (referenceEnv false true)
        (buttonOptions buttonTheme (flags true false) [] false) st1
      = Returned () st2
    ∧ styles_get (referenceEnv false true)
        (buttonOptions buttonTheme (flags true false) [] false) VUndefined 1 "root" st2
      = Returned (SObject l) st2
    ∧ resolvedStylesDebug st2 !! "root" = None.
Proof.
  match goal with |- ∃ l st1 st2, ?run = _ ∧ _ =>
    let out := fresh "out" in
    set (out := run); vm_compute in out; subst out
  end.
  match goal with |- ∃ l st1 st2, Returned (SObject ?l0) ?s1 = _ ∧ _ =>
    exists l0, s1; eexists;
    split; [reflexivity|]; split; [reflexivity|]; split; [reflexivity|];
    apply (cached_style_has_no_debug_record (referenceEnv false true)
             (buttonOptions buttonTheme (flags true false) [] false) VUndefined 0 "root"
             (λ _, RetObject [("color", VString "red"); ("_debug", VString "Button.root")])
             (SObject l0) s1 _ eq_refl eq_refl eq_refl eq_refl eq_refl)
  end.
Defined.

(** ** A missing style with debugging on *)

(** X15.  With debugging on, when the style function of a slot gives
    [undefined] or [null] and nothing is stored for the slot, line 199 reads
    the slot again, which invokes the style function again and reaches line
    199 once more: the read of the style does not return, whatever the depth
    allowed to nested accessor calls, and neither does the read of the class
    name, which reads the style. *)
Theorem missing_style_never_returns_when_debugging env o rv s fn st :
  mergedStyles env o !! s = Some fn →
  memo_is_data env o s →
  debugging env = true →
  fn (styleParam o rv) = RetUndefined ∨ fn (styleParam o rv) = RetNull →
  fresh_slot env o st s →
  (∀ fuel, styles_get env o rv fuel s st = OutOfFuel)
  ∧ (∀ fuel, classes_get env o rv fuel s st = OutOfFuel).
Proof.
  intros Hslot Hdata Hdbg Hfn (Hhit & Hmemo & Hchit & Hcmemo).
  assert (∀ fuel, styles_get env o rv fuel s st = OutOfFuel) as Hstyle.
  { intros fuel. by apply falsy_style_never_returns_when_debugging with (fn := fn). }
  split; [done|]. intros [|fuel]; [done|].
  rewrite (classes_get_slot env o rv _ _ _ Hslot).
  unfold class_getter. cbn [bind gets].
  change (if caching o
          then default None (cached (classesCache st) (themeKey o) (slotCacheKey env o s))
          else None) with (class_hit env o st s).
  rewrite Hchit. destruct fuel as [|fuel]; [done|].
  rewrite (bind_returned _ _ _ _ _ (classes_get_data env o rv fuel _ st Hdata)).
  fold (class_memo st s). rewrite Hcmemo.
  by apply bind_out_of_fuel.
Qed.

Lemma missing_style_never_returns_when_debugging_witness :
  styles_get (referenceEnv false true)
    (buttonOptions buttonTheme (flags true false) [] false) VUndefined 20 "hidden" emptyState
  = OutOfFuel.
Proof.
  exact (proj1 (missing_style_never_returns_when_debugging (referenceEnv false true)
                  (buttonOptions buttonTheme (flags true false) [] false) VUndefined "hidden"
                  (λ _, RetUndefined) emptyState
                  eq_refl eq_refl eq_refl (or_introl eq_refl)
                  (conj eq_refl (conj eq_refl (conj eq_refl eq_refl)))) 20%nat).
Defined.


(** ** Styles and class names *)

(** X16.  Reading or writing a style through the accessors of a call never
    writes a class name, neither to [classes] nor to the cache of class
    names, never calls the renderer and never changes a cache-hit counter or
    the recorder's switch. *)
Theorem style_accessors_leave_classes env o rv fuel k :
  preserves style_frame (styles_get env o rv fuel k)
  ∧ ∀ v, preserves style_frame (styles_put env o fuel k v).
Proof. split; [apply styles_get_frame|intros v; apply styles_put_frame]. Qed.


(** X17.  A read of the class name of a slot that finds the class in the
    cache of the theme resolves nothing: the style of the slot is not read,
    so neither the style function nor the renderer is invoked, no clock is
    read and no timer changes, also when the recorder is switched on.  The
    state it returns in differs from the state it started from in the
    recorder only, and there in the cache-hit counters only. *)
Theorem cached_class_resolves_nothing env o rv fuel s fn c st :
  mergedStyles env o !! s = Some fn →
  class_hit env o st s = Some c →
  ∃ r,
    classes_get env o rv (S fuel) s st
    = Returned (composed o s (Some c)) (with_recorder r st)
    ∧ enabled r = enabled (recorder st)
    ∧ ∀ name, timers r name = timers (recorder st) name.
Proof.
  intros Hslot Hhit. rewrite (classes_get_cache_hit env o rv _ _ _ _ _ Hslot Hhit).
  unfold bind, countCacheHit, ret. destruct (telemetry o).
  - destruct (tel_performance (recorder st) !! primaryDisplayName o) as [stats|] eqn:Hstats.
    + eexists. split; [reflexivity|]. split; [done|].
      intros name. unfold timers. cbn.
      destruct (decide (primaryDisplayName o = name)) as [<-|Hne];
        [|by rewrite lookup_insert_ne].
      rewrite lookup_insert_eq, Hstats. cbn. by destruct (String.eqb s "root").
    + exists (recorder st). by destruct st.
  - exists (recorder st). by destruct st.
Qed.

Lemma cached_class_resolves_nothing_witness :
  ∃ r,
    classes_get (referenceEnv true false)
      (buttonOptions buttonTheme (flags true false) [] true) VUndefined 1 "root"
      (with_classesCache {[1%nat := {["Button:{}::falsefalseroot" := Some "gen-9"]}]}
         (recordingState true))
    = Returned (Some "ui-button gen-9")
        (with_recorder r
           (with_classesCache {[1%nat := {["Button:{}::falsefalseroot" := Some "gen-9"]}]}
              (recordingState true)))
    ∧ timers r "Button" = Some (0, 0).
Proof.
  destruct (cached_class_resolves_nothing (referenceEnv true false)
              (buttonOptions buttonTheme (flags true false) [] true) VUndefined 0 "root"
              (λ _, RetObject [("color", VString "red"); ("_debug", VString "Button.root")])
              "gen-9"
              (with_classesCache {[1%nat := {["Button:{}::falsefalseroot" := Some "gen-9"]}]}
                 (recordingState true)))
    as (r & Hget & _ & Htimers); [reflexivity|vm_compute; reflexivity|].
  exists r. split; [exact Hget|]. exact (Htimers "Button").
Defined.

(** ** The depth allowed to nested accessor calls *)

Lemma cut_off_or_same_refl {A} (m : M A) : cut_off_or_same m m.
Proof. intros st. by right. Qed.

Lemma cut_off_or_same_bind {A B} (m m' : M A) (k k' : A → M B) :
  cut_off_or_same m m' → (∀ a, cut_off_or_same (k a) (k' a)) →
  cut_off_or_same (bind m k) (bind m' k').
Proof.
  intros Hm Hk st. unfold bind. destruct (Hm st) as [->| <-]; [by left|].
  destruct (m st) as [a st1| |]; [apply Hk|by right|by right].
Qed.

Section Deeper.

Variable env : Env.
Variable o : ResolveStylesOptions.
Variable rv : value.

Local Ltac deeper tac :=
  repeat first
    [ apply cut_off_or_same_bind; [|intros ?]
    | tac
    | exact (cut_off_or_same_refl _)
    | match goal with
      | |- cut_off_or_same (if ?b then _ else _) (if ?b then _ else _) => destruct b
      | |- cut_off_or_same (match ?b with _ => _ end) (match ?b with _ => _ end) => destruct b
      end ].

Lemma styles_put_deeper fuel k v :
  cut_off_or_same (styles_put env o fuel k v) (styles_put env o (S fuel) k v).
Proof.
  revert k. induction fuel as [|fuel IH]; intros k; [by left|].
  change (cut_off_or_same
            match mergedStyles env o !! k with
            | Some _ =>
                when (caching o)
                  (modify (λ st,
                     with_stylesCache
                       (cache_set (themeKey o) (stylesCache st !! themeKey o)
                          (slotCacheKey env o k) v (stylesCache st)) st)) ;;
                styles_put env o fuel (lazyEvaluationKey k) v
            | None => modify (λ st, with_resolvedStyles (<[k := v]> (resolvedStyles st)) st)
            end
            match mergedStyles env o !! k with
            | Some _ =>
                when (caching o)
                  (modify (λ st,
                     with_stylesCache
                       (cache_set (themeKey o) (stylesCache st !! themeKey o)
                          (slotCacheKey env o k) v (stylesCache st)) st)) ;;
                styles_put env o (S fuel) (lazyEvaluationKey k) v
            | None => modify (λ st, with_resolvedStyles (<[k := v]> (resolvedStyles st)) st)
            end).
  deeper ltac:(exact (IH _)).
Qed.

Lemma classes_put_deeper fuel k c :
  cut_off_or_same (classes_put env o fuel k c) (classes_put env o (S fuel) k c).
Proof.
  revert k. induction fuel as [|fuel IH]; intros k; [by left|].
  change (cut_off_or_same
            match mergedStyles env o !! k with
            | Some _ =>
                when (caching o)
                  (modify (λ st,
                     with_classesCache
                       (cache_set (themeKey o) (classesCache st !! themeKey o)
                          (slotCacheKey env o k) c (classesCache st)) st)) ;;
                classes_put env o fuel (lazyEvaluationKey k) c
            | None => modify (λ st, with_classes (<[k := c]> (classes st)) st)
            end
            match mergedStyles env o !! k with
            | Some _ =>
                when (caching o)
                  (modify (λ st,
                     with_classesCache
                       (cache_set (themeKey o) (classesCache st !! themeKey o)
                          (slotCacheKey env o k) c (classesCache st)) st)) ;;
                classes_put env o (S fuel) (lazyEvaluationKey k) c
            | None => modify (λ st, with_classes (<[k := c]> (classes st)) st)
            end).
  deeper ltac:(exact (IH _)).
Qed.

Lemma style_getter_deeper get get' put put' s fn :
  (∀ k, cut_off_or_same (get k) (get' k)) →
  (∀ k v, cut_off_or_same (put k v) (put' k v)) →
  cut_off_or_same (style_getter env o rv get put s fn)
    (style_getter env o rv get' put' s fn).
Proof.
  intros Hget Hput. unfold style_getter.
  deeper ltac:(first [exact (Hget _) | exact (Hput _ _)]).
Qed.

Lemma class_getter_deeper get get' put put' getStyle getStyle' s :
  (∀ k, cut_off_or_same (get k) (get' k)) →
  (∀ k v, cut_off_or_same (put k v) (put' k v)) →
  (∀ k, cut_off_or_same (getStyle k) (getStyle' k)) →
  cut_off_or_same (class_getter env o get put getStyle s)
    (class_getter env o get' put' getStyle' s).
Proof.
  intros Hget Hput Hstyle. unfold class_getter.
  deeper ltac:(first [exact (Hget _) | exact (Hput _ _) | exact (Hstyle _)]).
Qed.

Lemma styles_get_deeper fuel k :
  cut_off_or_same (styles_get env o rv fuel k) (styles_get env o rv (S fuel) k).
Proof.
  revert k. induction fuel as [|fuel IH]; intros k; [by left|].
  destruct (mergedStyles env o !! k) as [fn|] eqn:Hk.
  - rewrite !(styles_get_slot env o rv _ _ _ Hk).
    apply style_getter_deeper; [exact IH|intros; apply styles_put_deeper].
  - intros st. right. by rewrite !styles_get_data.
Qed.

Lemma classes_get_deeper fuel k :
  cut_off_or_same (classes_get env o rv fuel k) (classes_get env o rv (S fuel) k).
Proof.
  revert k. induction fuel as [|fuel IH]; intros k; [by left|].
  destruct (mergedStyles env o !! k) as [fn|] eqn:Hk.
  - rewrite !(classes_get_slot env o rv _ _ _ Hk).
    apply class_getter_deeper;
      [exact IH|intros; apply classes_put_deeper|intros; apply styles_get_deeper].
  - intros st. right. by rewrite !classes_get_data.
Qed.

(** A read that is not cut off has the same outcome at every greater
    depth. *)
Lemma styles_get_at_depth fuel n k st :
  styles_get env o rv fuel k st ≠ OutOfFuel →
  styles_get env o rv (n + fuel) k st = styles_get env o rv fuel k st.
Proof.
  intros Hcut. induction n as [|n IH]; [done|].
  destruct (styles_get_deeper (n + fuel) k st) as [Hout|Hsame]; [congruence|].
  cbn [Nat.add]. congruence.
Qed.

Lemma classes_get_at_depth fuel n k st :
  classes_get env o rv fuel k st ≠ OutOfFuel →
  classes_get env o rv (n + fuel) k st = classes_get env o rv fuel k st.
Proof.
  intros Hcut. induction n as [|n IH]; [done|].
  destruct (classes_get_deeper (n + fuel) k st) as [Hout|Hsame]; [congruence|].
  cbn [Nat.add]. congruence.
Qed.

End Deeper.

(** ** Reads and writes do not throw *)

(** X18.  With style functions and a renderer that do not throw, no read
    and no write through the accessors of a call throws a [TypeError], or
    the configuration error of the call.  The only statement of the accessors
    that could, the read of [_debug] at line 199, never finds [undefined] or
    [null] in the slot: in that case the nested read of the slot does not
    return. *)
Theorem accessors_never_throw env o rv fuel k st e :
  well_formed env o →
  styles_get env o rv fuel k st ≠ Thrown e
  ∧ classes_get env o rv fuel k st ≠ Thrown e
  ∧ (∀ v, styles_put env o fuel k v st ≠ Thrown e)
  ∧ (∀ c, classes_put env o fuel k c st ≠ Thrown e).
Proof.
  intros Hwf.
  assert (∀ fuel k st e, styles_get env o rv fuel k st ≠ Thrown e) as Hstyle.
  { clear fuel k st e. intros fuel k st e Hthrown.
    destruct (mergedStyles env o !! k) as [fn|] eqn:Hslot.
    - pose proof (Hwf k fn Hslot) as Hdata.
      pose proof (styles_get_at_depth env o rv fuel 3 k st) as Hdeep.
      rewrite Hthrown in Hdeep. specialize (Hdeep ltac:(done)). cbn [Nat.add] in Hdeep.
      destruct (style_truthy (style_hit env o st k)) eqn:Hhit.
      { unfold style_hit in Hhit. destruct (caching o) eqn:Hc; [|done].
        destruct (cached (stylesCache st) (themeKey o) (slotCacheKey env o k)) as [v|] eqn:Hv;
          [|done].
        by rewrite (styles_get_cache_hit env o rv _ _ _ _ _ Hslot Hc Hv Hhit) in Hdeep. }
      destruct (style_truthy (style_memo st k)) eqn:Hmemo.
      { unfold style_memo in Hmemo.
        destruct (resolvedStyles st !! lazyEvaluationKey k) as [v|] eqn:Hv; [|done].
        by rewrite (styles_get_memo_hit env o rv _ _ _ _ _ Hslot Hdata Hhit Hv Hmemo) in Hdeep. }
      destruct (debugging env) eqn:Hdbg;
        [destruct (fn (styleParam o rv)) as [fields| |] eqn:Hfn|].
      + destruct (styles_get_compute env o rv fuel k fn st Hslot Hdata Hhit Hmemo)
          as (st' & Hget & _); [|congruence].
        right. unfold style_result. by rewrite Hfn.
      + rewrite (falsy_style_never_returns_when_debugging env o rv k fn Hslot Hdata Hdbg
                   (or_introl Hfn) _ st Hhit Hmemo) in Hdeep. done.
      + rewrite (falsy_style_never_returns_when_debugging env o rv k fn Hslot Hdata Hdbg
                   (or_intror Hfn) _ st Hhit Hmemo) in Hdeep. done.
      + destruct (styles_get_compute env o rv fuel k fn st Hslot Hdata Hhit Hmemo)
          as (st' & Hget & _); [by left|congruence].
    - destruct fuel as [|fuel]; [done|]. by rewrite styles_get_data in Hthrown. }
  split; [apply Hstyle|]. split; [|split].
  - intros Hthrown.
    destruct (mergedStyles env o !! k) as [fn|] eqn:Hslot.
    + pose proof (Hwf k fn Hslot) as Hdata.
      pose proof (classes_get_at_depth env o rv fuel 4 k st) as Hdeep.
      rewrite Hthrown in Hdeep. specialize (Hdeep ltac:(done)). cbn [Nat.add] in Hdeep.
      destruct (class_hit env o st k) as [c|] eqn:Hhit.
      { rewrite (classes_get_cache_hit env o rv _ _ _ _ _ Hslot Hhit) in Hdeep.
        destruct (countCacheHit_recorder o k st) as (r & Hcount).
        by rewrite (bind_returned _ _ _ _ _ Hcount) in Hdeep. }
      destruct (class_truthy (class_memo st k)) eqn:Hmemo.
      { unfold class_memo in Hmemo.
        destruct (classes st !! lazyEvaluationKey k) as [c|] eqn:Hc; [|done].
        by rewrite (classes_get_memo_hit env o rv _ _ _ _ _ Hslot Hdata Hhit Hc Hmemo)
          in Hdeep. }
      destruct (styles_get env o rv (S (S (S fuel))) k st) as [v st1|e'|] eqn:Hget.
      * destruct (classes_get_compute env o rv _ k fn st v st1 Hslot Hdata Hhit Hmemo Hget)
          as (st' & Hcget & _). congruence.
      * by apply Hstyle in Hget.
      * rewrite (classes_get_slot env o rv _ _ _ Hslot) in Hdeep.
        unfold class_getter in Hdeep. cbn [bind gets] in Hdeep.
        change (if caching o
                then default None
                       (cached (classesCache st) (themeKey o) (slotCacheKey env o k))
                else None) with (class_hit env o st k) in Hdeep.
        rewrite Hhit in Hdeep.
        rewrite (bind_returned _ _ _ _ _ (classes_get_data env o rv _ _ st Hdata)) in Hdeep.
        fold (class_memo st k) in Hdeep. rewrite Hmemo in Hdeep.
        by rewrite (bind_out_of_fuel _ _ _ Hget) in Hdeep.
    + destruct fuel as [|fuel]; [done|]. by rewrite classes_get_data in Hthrown.
  - intros v. clear Hstyle. revert k st.
    induction fuel as [|fuel IH]; intros k st; [done|].
    cbn [styles_put]. destruct (mergedStyles env o !! k); [|done].
    unfold when, bind, modify, ret. destruct (caching o); apply IH.
  - intros c. clear Hstyle. revert k st.
    induction fuel as [|fuel IH]; intros k st; [done|].
    cbn [classes_put]. destruct (mergedStyles env o !! k); [|done].
    unfold when, bind, modify, ret. destruct (caching o); apply IH.
Qed.

Lemma accessors_never_throw_witness :
  classes_get (referenceEnv false true)
    (buttonOptions buttonTheme (flags true false) [] false) VUndefined 6 "hidden" emptyState
  ≠ Thrown TypeError.
Proof.
  exact (proj1 (proj2 (accessors_never_throw (referenceEnv false true)
                         (buttonOptions buttonTheme (flags true false) [] false) VUndefined
                         6 "hidden" emptyState TypeError
                         (buttonOptions_well_formed (referenceEnv false true)
                            (flags true false) [] false eq_refl)))).
Defined.
